(** * AI Career Elevate: ATS scoring engine and sandboxed tool executor

    A shallow embedding of
      - [backend/app/agents/ats_checker.py]  (the nine category checks, the
        weighted overall score, the confidence label),
      - [backend/app/tools/registry.py]      (echo, calc, read_file,
        list_files, pdf_to_text, the registry and parameter validation),
      - [backend/app/tools/executor.py]      (ToolExecutor.run_tool and the
        module-level executor),
      - [backend/app/tools/pdf_tools.py]     (the three extraction methods
        and pdf_to_text),
      - [backend/app/api/routes/tool.py]     (the three tool routes),
    followed by the properties of the specification proved about it and
    by further properties of the same code.

    Conventions of the model.
      - A Python [str] is a list of Unicode code points ([N]).  Literals
        are written as in the source and decoded from UTF-8.
      - A Python float is a finite double, held as the rational it
        stands for ([Q]).  [binary64] rounds a rational to the nearest
        double, ties to the even significand; float literals, the
        products and sums of the overall score, the products [n * 0.05]
        and [n * 0.1] and [round(x, 1)] go through it, operation by
        operation.  The category scores are sums and differences of
        whole numbers far below 2^53, which floating point forms exactly.
        Overflow to infinity (beyond 1.8e308), NaN and the sign of zero
        are left out; [round(x, 1)] is the correctly rounded one of
        CPython.
      - The Unicode tables of the interpreter are outside the repository.
        [str.isspace] is the full list of Unicode white space; case
        mapping, [\d], [\w] and [re.IGNORECASE] are implemented on the
        ASCII range and leave other code points alone.
      - The instance state of [ATSChecker] is threaded explicitly; the
        tools run in an exception-and-trace monad over an explicit
        interface to the interpreter and the operating system.  The
        exceptions are those that derive from [Exception].
      - The thread pool is abstracted into the answer of
        [future.result(timeout)]: the worker is done, the wait expires,
        or the wait itself raises.  The trace of a call holds what has
        happened when run_tool returns; a worker still running then is
        not followed.  Exhaustion of memory is left out.
      - The conversion of an int to a string obeys the digit limit of
        the interpreter ([sys.get_int_max_str_digits()]). *)

From Stdlib Require Import String Ascii Strings.Byte NArith ZArith QArith Qround Qabs Qpower.
From Stdlib Require Import Bool Arith Lia Lqa List Permutation Sorted.
Import ListNotations.

Local Close Scope Q_scope.
Set Implicit Arguments.
Set Warnings "-register-all".

(* ================================================================= *)
(** * Python strings *)

Definition codepoint := N.
Definition str := list codepoint.

Definition cp_eqb : codepoint -> codepoint -> bool := N.eqb.

Fixpoint str_eqb (a b : str) : bool :=
  match a, b with
  | [], [] => true
  | x :: a', y :: b' => cp_eqb x y && str_eqb a' b'
  | _, _ => false
  end.

Definition between (lo hi c : N) : bool := (lo <=? c)%N && (c <=? hi)%N.

(** ** UTF-8, as [bytes.decode('utf-8', errors=...)] does it

    The decoder follows CPython: a lead byte announces a sequence, the
    second byte of a sequence is checked against the narrowed ranges that
    exclude overlong forms and surrogates, and an error covers the bytes
    read so far (or, at the end of the data, everything that is left). *)

Inductive errors_mode := Strict | Ignore.

Inductive decode_error := UnicodeDecodeError_at (reason : string).

Definition is_cont (b : N) : bool := between 0x80 0xBF b.

(** Range allowed for the second byte after lead byte [b0]. *)
Definition second_ok (b0 b1 : N) : bool :=
  if (b0 =? 0xE0)%N then between 0xA0 0xBF b1
  else if (b0 =? 0xED)%N then between 0x80 0x9F b1
  else if (b0 =? 0xF0)%N then between 0x90 0xBF b1
  else if (b0 =? 0xF4)%N then between 0x80 0x8F b1
  else is_cont b1.

Definition low6 (b : N) : N := N.land b 0x3F.

Fixpoint utf8_decode (mode : errors_mode) (bs : list N)
  : decode_error + str :=
  let fail (why : string) (resume : decode_error + str) :=
    match mode with
    | Strict => inl (UnicodeDecodeError_at why)
    | Ignore => resume
    end in
  let emit (c : N) (rest : decode_error + str) :=
    match rest with inl e => inl e | inr s => inr (c :: s) end in
  match bs with
  | [] => inr []
  | b0 :: t0 =>
    if (b0 <? 0x80)%N then emit b0 (utf8_decode mode t0)
    else if between 0xC2 0xDF b0 then
      match t0 with
      | [] => fail "unexpected end of data"%string (inr [])
      | b1 :: t1 =>
        if is_cont b1
        then emit (N.lor (N.shiftl (N.land b0 0x1F) 6) (low6 b1))
                  (utf8_decode mode t1)
        else fail "invalid continuation byte"%string (utf8_decode mode t0)
      end
    else if between 0xE0 0xEF b0 then
      match t0 with
      | [] => fail "unexpected end of data"%string (inr [])
      | b1 :: t1 =>
        if negb (second_ok b0 b1)
        then fail "invalid continuation byte"%string (utf8_decode mode t0)
        else
          match t1 with
          | [] => fail "unexpected end of data"%string (inr [])
          | b2 :: t2 =>
            if is_cont b2
            then emit (N.lor (N.shiftl (N.land b0 0x0F) 12)
                             (N.lor (N.shiftl (low6 b1) 6) (low6 b2)))
                      (utf8_decode mode t2)
            else fail "invalid continuation byte"%string (utf8_decode mode t1)
          end
      end
    else if between 0xF0 0xF4 b0 then
      match t0 with
      | [] => fail "unexpected end of data"%string (inr [])
      | b1 :: t1 =>
        if negb (second_ok b0 b1)
        then fail "invalid continuation byte"%string (utf8_decode mode t0)
        else
          match t1 with
          | [] => fail "unexpected end of data"%string (inr [])
          | b2 :: t2 =>
            if negb (is_cont b2)
            then fail "invalid continuation byte"%string (utf8_decode mode t1)
            else
              match t2 with
              | [] => fail "unexpected end of data"%string (inr [])
              | b3 :: t3 =>
                if is_cont b3
                then emit (N.lor (N.shiftl (N.land b0 0x07) 18)
                            (N.lor (N.shiftl (low6 b1) 12)
                              (N.lor (N.shiftl (low6 b2) 6) (low6 b3))))
                          (utf8_decode mode t3)
                else fail "invalid continuation byte"%string (utf8_decode mode t2)
              end
          end
      end
    else fail "invalid start byte"%string (utf8_decode mode t0)
  end.

Definition bytes := list Byte.byte.

Definition byte_values (bs : bytes) : list N := map Byte.to_N bs.

(** A source literal: the bytes between the quotes, read as UTF-8. *)
Definition u (lit : string) : str :=
  match utf8_decode Ignore (byte_values (list_byte_of_string lit)) with
  | inr s => s
  | inl _ => []
  end.
Arguments u lit%_string.

Definition NUL : codepoint := 0%N.
Definition LF : codepoint := 10%N.
Definition CR : codepoint := 13%N.
Definition REPLACEMENT_CHARACTER : codepoint := 0xFFFD%N.

(** ** Methods of [str] *)

(** [str.isspace] for one character: bidirectional class WS, B or S, or
    general category Zs. *)
Definition isspace (c : codepoint) : bool :=
  between 0x09 0x0D c || between 0x1C 0x1F c || (c =? 0x20)%N
  || (c =? 0x85)%N || (c =? 0xA0)%N || (c =? 0x1680)%N
  || between 0x2000 0x200A c || (c =? 0x2028)%N || (c =? 0x2029)%N
  || (c =? 0x202F)%N || (c =? 0x205F)%N || (c =? 0x3000)%N.

Definition is_upper_ascii (c : codepoint) : bool := between 65 90 c.
Definition is_lower_ascii (c : codepoint) : bool := between 97 122 c.

Definition lower_cp (c : codepoint) : codepoint :=
  if is_upper_ascii c then (c + 32)%N else c.
Definition upper_cp (c : codepoint) : codepoint :=
  if is_lower_ascii c then (c - 32)%N else c.

(** [s.lower()] *)
Definition lower (s : str) : str := map lower_cp s.

Fixpoint lstrip (s : str) : str :=
  match s with
  | c :: s' => if isspace c then lstrip s' else s
  | [] => []
  end.

(** [s.strip()] *)
Definition strip (s : str) : str := rev (lstrip (rev (lstrip s))).

Fixpoint startswith (p s : str) : bool :=
  match p, s with
  | [], _ => true
  | x :: p', y :: s' => cp_eqb x y && startswith p' s'
  | _ :: _, [] => false
  end.

(** [sub in s] *)
Fixpoint contains (sub s : str) : bool :=
  startswith sub s ||
  match s with
  | [] => false
  | _ :: s' => contains sub s'
  end.

(** Occurrences of a non-empty [sub], left to right without overlap;
    [skip] characters of the last occurrence are still to be passed. *)
Fixpoint count_from (sub : str) (skip : nat) (s : str) : nat :=
  match s with
  | [] => 0
  | _ :: s' =>
    match skip with
    | S k => count_from sub k s'
    | O => if startswith sub s
           then S (count_from sub (length sub - 1) s')
           else count_from sub 0 s'
    end
  end.

(** [s.count(sub)]; the empty string occurs between any two characters
    and at both ends. *)
Definition count (s sub : str) : nat :=
  match sub with
  | [] => S (length s)
  | _ => count_from sub 0 s
  end.

(** [s.split()]: maximal runs of characters that are not white space. *)
Fixpoint split_ws_aux (cur : str) (s : str) : list str :=
  match s with
  | [] => match cur with [] => [] | _ => [rev cur] end
  | c :: s' =>
    if isspace c
    then match cur with
         | [] => split_ws_aux [] s'
         | _ => rev cur :: split_ws_aux [] s'
         end
    else split_ws_aux (c :: cur) s'
  end.

Definition split (s : str) : list str := split_ws_aux [] s.

(** [s.split(sep)] for a one-character separator. *)
Fixpoint split_on_aux (sep : codepoint) (cur : str) (s : str) : list str :=
  match s with
  | [] => [rev cur]
  | c :: s' =>
    if cp_eqb c sep then rev cur :: split_on_aux sep [] s'
    else split_on_aux sep (c :: cur) s'
  end.

Definition split_on (sep : codepoint) (s : str) : list str :=
  split_on_aux sep [] s.

(** [sep.join(parts)] *)
Fixpoint join (sep : str) (parts : list str) : str :=
  match parts with
  | [] => []
  | [p] => p
  | p :: ps => p ++ sep ++ join sep ps
  end.

(** [s.replace(old, '')] for a one-character [old]. *)
Definition remove_char (c : codepoint) (s : str) : str :=
  filter (fun x => negb (cp_eqb x c)) s.

(** [s.rstrip(chars)] for a one-character set. *)
Definition rstrip_char (c : codepoint) (s : str) : str :=
  let fix drop (r : str) : str :=
    match r with
    | x :: r' => if cp_eqb x c then drop r' else r
    | [] => []
    end in
  rev (drop (rev s)).

(** [str(n)] for a natural number and for an integer. *)
Fixpoint digits_of (fuel : nat) (n : N) (acc : str) : str :=
  match fuel with
  | O => acc
  | S f =>
    let acc' := (48 + n mod 10)%N :: acc in
    if (n <? 10)%N then acc' else digits_of f (n / 10)%N acc'
  end.

Definition str_of_N (n : N) : str := digits_of (S (N.to_nat (N.log2 n))) n [].
Definition str_of_nat (n : nat) : str := str_of_N (N.of_nat n).
Definition str_of_Z (z : Z) : str :=
  match z with
  | Zneg p => u "-" ++ str_of_N (Npos p)
  | _ => str_of_N (Z.to_N z)
  end.

(** [repr] of a list of plain words, as an f-string prints it:
    ['a', 'b']. *)
Definition repr_word_list (l : list str) : str :=
  u "[" ++ join (u ", ") (map (fun w => u "'" ++ w ++ u "'") l) ++ u "]".

(** Distinct elements, first occurrences kept in order: the contents of
    [set(l)]. *)
Fixpoint distinct (l : list str) : list str :=
  match l with
  | [] => []
  | x :: l' =>
    x :: filter (fun y => negb (str_eqb x y)) (distinct l')
  end.

Definition mem (x : str) (l : list str) : bool := existsb (str_eqb x) l.

(* ================================================================= *)
(** * Regular expressions of the [re] module

    The patterns of the checker use literals, character sets, [\s], [\d],
    [\b], groups, alternation and greedy repetition.  The matcher is the
    backtracking one of [re]: alternatives are tried left to right, a
    repetition takes as many rounds as it can before it gives one back. *)

Inductive cset_item :=
| CChar (c : codepoint)          (* a *)
| CRange (lo hi : codepoint)     (* a-z *)
| CSpace                         (* \s *)
| CDigit.                        (* \d *)

Inductive regex :=
| REmpty
| RSet (negated : bool) (items : list cset_item)
| RCat (r1 r2 : regex)
| RAlt (r1 r2 : regex)
| RRepeat (lo : nat) (hi : option nat) (r : regex)
| RGroup (r : regex)             (* (r) *)
| RWordBoundary.                 (* \b *)

Definition is_digit (c : codepoint) : bool := between 48 57 c.

(** A word character, [\w]. *)
Definition is_word (c : codepoint) : bool :=
  is_upper_ascii c || is_lower_ascii c || is_digit c || (c =? 95)%N.

Definition item_has (it : cset_item) (c : codepoint) : bool :=
  match it with
  | CChar x => cp_eqb x c
  | CRange lo hi => between lo hi c
  | CSpace => isspace c
  | CDigit => is_digit c
  end.

(** Membership in a set; under [re.IGNORECASE] a character belongs to a
    set when its lower-case or its upper-case form does. *)
Definition set_has (ignorecase : bool) (items : list cset_item)
           (c : codepoint) : bool :=
  existsb (fun it =>
             item_has it c
             || (ignorecase && (item_has it (lower_cp c)
                                || item_has it (upper_cp c))))
          items.

Definition at_boundary (prev : option codepoint) (s : str) : bool :=
  let before := match prev with Some c => is_word c | None => false end in
  let after := match s with c :: _ => is_word c | [] => false end in
  xorb before after.

Definition may_repeat (n : nat) (hi : option nat) : bool :=
  match hi with
  | None => true
  | Some h => n <? h
  end.

(** [match_here ic r prev s k]: match [r] at the front of [s], the
    character before it being [prev], and hand the rest to [k]. *)
Fixpoint match_here (A : Type) (ic : bool) (r : regex)
         (prev : option codepoint) (s : str)
         (k : option codepoint -> str -> option A) {struct r} : option A :=
  match r with
  | REmpty => k prev s
  | RSet neg items =>
    match s with
    | c :: s' =>
      if xorb neg (set_has ic items c) then k (Some c) s' else None
    | [] => None
    end
  | RCat r1 r2 =>
    match_here ic r1 prev s (fun p' s' => match_here ic r2 p' s' k)
  | RAlt r1 r2 =>
    match match_here ic r1 prev s k with
    | Some x => Some x
    | None => match_here ic r2 prev s k
    end
  | RWordBoundary => if at_boundary prev s then k prev s else None
  | RGroup r1 => match_here ic r1 prev s k
  | RRepeat lo hi body =>
    (fix rounds (fuel n : nat) (prev : option codepoint) (s : str)
       : option A :=
       let stop := if lo <=? n then k prev s else None in
       match fuel with
       | O => stop
       | S fuel' =>
         let more :=
           if may_repeat n hi
           then match_here ic body prev s
                  (fun p' s' =>
                     if length s' <? length s
                     then rounds fuel' (S n) p' s'
                     else None)
           else None in
         match more with
         | Some x => Some x
         | None => stop
         end
       end) (length s) 0 prev s
  end.

(** First match at or after the front of [s]: where it starts and where
    it ends, each as (character before, remaining text). *)
Definition span : Type := (option codepoint * str) * (option codepoint * str).

Fixpoint search_span (ic : bool) (r : regex) (prev : option codepoint)
         (s : str) : option span :=
  match match_here ic r prev s (fun p' s' => Some (p', s')) with
  | Some e => Some ((prev, s), e)
  | None =>
    match s with
    | [] => None
    | c :: s' => search_span ic r (Some c) s'
    end
  end.

(** [re.search(pattern, text, flags)] as a truth value. *)
Definition re_search (ic : bool) (r : regex) (text : str) : bool :=
  match search_span ic r None text with
  | Some _ => true
  | None => false
  end.

(** [len(re.findall(pattern, text, flags))]: matches are taken left to
    right, each search resuming where the last match ended (one
    character further after an empty match). *)
Fixpoint findall_from (fuel : nat) (ic : bool) (r : regex)
         (prev : option codepoint) (s : str) : nat :=
  match fuel with
  | O => 0
  | S fuel' =>
    match search_span ic r prev s with
    | None => 0
    | Some ((_, s0), (p1, s1)) =>
      S (if length s1 <? length s0
         then findall_from fuel' ic r p1 s1
         else match s1 with
              | [] => 0
              | c :: s2 => findall_from fuel' ic r (Some c) s2
              end)
    end
  end.

Definition re_findall_count (ic : bool) (r : regex) (text : str) : nat :=
  findall_from (S (length text)) ic r None text.

(** ** Pattern syntax *)

Definition chr (c : codepoint) : regex := RSet false [CChar c].

(** A literal word. *)
Fixpoint word (cs : str) : regex :=
  match cs with
  | [] => REmpty
  | [c] => chr c
  | c :: cs' => RCat (chr c) (word cs')
  end.

Definition lit (w : string) : regex := word (u w).
Arguments lit w%_string.

Fixpoint seq (rs : list regex) : regex :=
  match rs with
  | [] => REmpty
  | [r] => r
  | r :: rs' => RCat r (seq rs')
  end.

Fixpoint alt (rs : list regex) : regex :=
  match rs with
  | [] => RSet false []
  | [r] => r
  | r :: rs' => RAlt r (alt rs')
  end.

Definition plus (r : regex) : regex := RRepeat 1 None r.       (* r+ *)
Definition star (r : regex) : regex := RRepeat 0 None r.       (* r* *)
Definition opt (r : regex) : regex := RRepeat 0 (Some 1) r.    (* r? *)
Definition times (n : nat) (r : regex) : regex := RRepeat n (Some n) r.
Definition at_least (n : nat) (r : regex) : regex := RRepeat n None r.
Definition from_to (n m : nat) (r : regex) : regex := RRepeat n (Some m) r.

Definition grp (r : regex) : regex := RGroup r.                (* (r) *)
Definition cset (items : list cset_item) : regex := RSet false items.
Definition nset (items : list cset_item) : regex := RSet true items.

(** One character given by its literal, for use inside a set. *)
Definition ch (w : string) : cset_item :=
  match u w with
  | c :: _ => CChar c
  | [] => CChar NUL
  end.
Arguments ch w%_string.

Definition rng (a b : string) : cset_item :=
  match u a, u b with
  | x :: _, y :: _ => CRange x y
  | _, _ => CChar NUL
  end.
Arguments rng (a b)%_string.

Definition upper_AZ : regex := cset [rng "A" "Z"].
Definition lower_az : regex := cset [rng "a" "z"].
Definition digit : regex := cset [CDigit].
Definition space : regex := cset [CSpace].
Definition sep : regex := cset [ch "-"; ch "."; CSpace].        (* [-.\s] *)
Definition b_ : regex := RWordBoundary.

(** ** The text of a pattern

    [pattern_text r] writes [r] the way the source writes its patterns,
    so that each pattern below can be compared with its raw string. *)

Definition BACKSLASH : codepoint := 92%N.

Definition is_special (c : codepoint) : bool :=
  existsb (cp_eqb c) (u ".^$*+?{}[]|()").

Definition char_text (c : codepoint) : str :=
  if cp_eqb c LF then [BACKSLASH; 110%N]
  else if is_special c then [BACKSLASH; c]
  else [c].

Definition item_text (it : cset_item) : str :=
  match it with
  | CChar c => if cp_eqb c LF then [BACKSLASH; 110%N] else [c]
  | CRange lo hi => [lo] ++ u "-" ++ [hi]
  | CSpace => [BACKSLASH; 115%N]
  | CDigit => [BACKSLASH; 100%N]
  end.

Definition quantifier_text (lo : nat) (hi : option nat) : str :=
  match lo, hi with
  | 0, None => u "*"
  | 1, None => u "+"
  | 0, Some 1 => u "?"
  | _, None => u "{" ++ str_of_nat lo ++ u ",}"
  | _, Some h =>
    if lo =? h then u "{" ++ str_of_nat lo ++ u "}"
    else u "{" ++ str_of_nat lo ++ u "," ++ str_of_nat h ++ u "}"
  end.

Fixpoint pattern_text (r : regex) : str :=
  match r with
  | REmpty => []
  | RSet false [CChar c] => char_text c
  | RSet false [CSpace] => item_text CSpace
  | RSet false [CDigit] => item_text CDigit
  | RSet neg items =>
    u "[" ++ (if neg then u "^" else [])
      ++ concat (map item_text items) ++ u "]"
  | RCat r1 r2 => pattern_text r1 ++ pattern_text r2
  | RAlt r1 r2 => pattern_text r1 ++ u "|" ++ pattern_text r2
  | RRepeat lo hi body => pattern_text body ++ quantifier_text lo hi
  | RGroup body => u "(" ++ pattern_text body ++ u ")"
  | RWordBoundary => [BACKSLASH; 98%N]
  end.

(* ================================================================= *)
(** * Python values and dictionaries *)

(** The values a parsed resume and a tool call carry ([Dict[str, Any]]
    read from JSON). *)
Inductive pyvalue :=
| PyNone
| PyBool (b : bool)
| PyInt (z : Z)
| PyFloat (q : Q)
| PyStr (s : str)
| PyList (items : list pyvalue)
| PyDict (entries : list (str * pyvalue)).

Definition pydict := list (str * pyvalue).

(** [d[key]], [None] standing for KeyError. *)
Fixpoint dict_get (key : str) (d : pydict) : option pyvalue :=
  match d with
  | [] => None
  | (k, v) :: d' => if str_eqb k key then Some v else dict_get key d'
  end.

(** [key in d] *)
Definition dict_has (key : str) (d : pydict) : bool :=
  match dict_get key d with Some _ => true | None => false end.

Definition dict_keys (d : pydict) : list str := map fst d.

(** [bool(d)]: a dictionary is true when it is not empty. *)
Definition dict_truthy (d : pydict) : bool :=
  match d with [] => false | _ => true end.

(** Comparison of floats. *)
Definition Qltb (a b : Q) : bool := negb (Qle_bool b a).

(** [max(a, b)] and [min(a, b)]: the first argument unless the second
    is strictly better. *)
Definition py_max (a b : Q) : Q := if Qltb a b then b else a.
Definition py_min (a b : Q) : Q := if Qltb b a then b else a.

Definition Qnat (n : nat) : Q := inject_Z (Z.of_nat n).

(** [round(x)] on an exact value: to the nearest integer, ties to the
    even one. *)
Definition round_half_even (q : Q) : Z :=
  let f := Qfloor q in
  match Qcompare (q - inject_Z f) (1 # 2) with
  | Lt => f
  | Gt => (f + 1)%Z
  | Eq => if Z.even f then f else (f + 1)%Z
  end.

(** ** Binary floating point

    A finite double is the rational it stands for.  [binary64 q] is the
    double nearest to q, ties to the even significand: q is cut to a
    whole number of units in the last place, which lie 52 binary places
    below the leading bit of q and no lower than 2^-1074. *)

(** [floor (log2 |q|)], for q other than 0. *)
Definition binade (q : Q) : Z :=
  if Qle_bool 1 (Qabs q)
  then Z.log2 (Qfloor (Qabs q))
  else (- Z.log2_up (Qceiling (/ Qabs q)))%Z.

Definition ulp_exponent (q : Q) : Z := Z.max (binade q - 52) (-1074).

Definition binary64 (q : Q) : Q :=
  let e := ulp_exponent q in
  (inject_Z (round_half_even (q / 2 ^ e)) * 2 ^ e)%Q.

(** [a * b] and [a + b] on floats. *)
Definition fmul (a b : Q) : Q := binary64 (a * b).
Definition fadd (a b : Q) : Q := binary64 (a + b).

(** [n * x] for an int n and a float x: n is converted to the nearest
    double first. *)
Definition int_times_float (n : nat) (x : Q) : Q :=
  fmul (binary64 (Qnat n)) x.

(** [round(x, 1)] on a float: the decimal with one digit after the point
    nearest to the exact value of x, ties to the even digit, and then the
    double nearest to that decimal. *)
Definition round1 (x : Q) : Q :=
  binary64 (inject_Z (round_half_even (x * 10)) / 10).

(* ================================================================= *)
(** * ats_checker.py *)

Inductive ATSConfidence := HIGH | MEDIUM | LOW.

Record ATSIssue := {
  category : str;
  severity : str;        (* "critical", "major", "minor" *)
  message : str;
  recommendation : str
}.

Record ATSBreakdown := {
  file_text_extractable : Q;
  layout : Q;
  headers : Q;
  contact : Q;
  skills : Q;
  experience : Q;
  dates : Q;
  fonts_images : Q;
  length : Q
}.

Record ATSReport := {
  score : Q;
  breakdown : ATSBreakdown;
  issues : list ATSIssue;
  recommended_actions : list str;
  confidence : ATSConfidence
}.

(** The instance attributes of [ATSChecker]. *)
Record ATSChecker := {
  self_issues : list ATSIssue;
  self_recommended_actions : list str
}.

(** [ATSChecker.__init__] *)
Definition ATSChecker_init : ATSChecker :=
  {| self_issues := []; self_recommended_actions := [] |}.

(** Methods read and write the attributes of [self]. *)
Definition Method (A : Type) : Type := ATSChecker -> A * ATSChecker.

Definition ret (A : Type) (a : A) : Method A := fun self => (a, self).

Definition bind (A B : Type) (m : Method A) (k : A -> Method B)
  : Method B :=
  fun self => let (a, self') := m self in k a self'.

Declare Scope method_scope.
Delimit Scope method_scope with method.
Notation "x <- m ;; k" := (bind m (fun x => k))
  (at level 61, m at next level, right associativity) : method_scope.
Notation "m ;; k" := (bind m (fun _ => k))
  (at level 61, right associativity) : method_scope.

(** [self.issues.append(ATSIssue(...))] *)
Definition issues_append (i : ATSIssue) : Method unit :=
  fun self =>
    (tt, {| self_issues := self_issues self ++ [i];
            self_recommended_actions := self_recommended_actions self |}).

(** [self.issues = []; self.recommended_actions = []] *)
Definition reset_state : Method unit :=
  fun _ => (tt, {| self_issues := []; self_recommended_actions := [] |}).

Definition get_issues : Method (list ATSIssue) :=
  fun self => (self_issues self, self).
Definition get_recommended_actions : Method (list str) :=
  fun self => (self_recommended_actions self, self).

(** [sum(text.count(indicator) for indicator in indicators)] *)
Definition sum_counts (text : str) (indicators : list str) : nat :=
  list_sum (map (count text) indicators).

(** ** Class constants *)

(** The weights are float literals: each is the double nearest to the
    decimal written in the source. *)
Definition WEIGHTS : list (str * Q) :=
  [ (u "file_text_extractable", binary64 0.15);
    (u "layout", binary64 0.15);
    (u "headers", binary64 0.12);
    (u "contact", binary64 0.10);
    (u "skills", binary64 0.15);
    (u "experience", binary64 0.15);
    (u "dates", binary64 0.08);
    (u "fonts_images", binary64 0.05);
    (u "length", binary64 0.05) ].

(** [self.WEIGHTS[key]] *)
Fixpoint WEIGHTS_get_in (table : list (str * Q)) (key : str) : Q :=
  match table with
  | [] => 0%Q
  | (k, w) :: rest => if str_eqb k key then w else WEIGHTS_get_in rest key
  end.

Definition WEIGHTS_get (key : str) : Q := WEIGHTS_get_in WEIGHTS key.

Definition OPTIMAL_LENGTH_MIN : nat := 400.
Definition OPTIMAL_LENGTH_MAX : nat := 800.

Definition ATS_HEADERS : list str :=
  [ u "contact"; u "personal information"; u "contact information";
    u "summary"; u "professional summary"; u "objective"; u "profile";
    u "experience"; u "work experience"; u "employment";
    u "professional experience";
    u "education"; u "academic background"; u "qualifications";
    u "skills"; u "technical skills"; u "core competencies"; u "expertise";
    u "certifications"; u "certificates"; u "licenses";
    u "projects"; u "portfolio"; u "achievements"; u "accomplishments" ].

Definition SKILL_KEYWORDS : list str :=
  [ u "python"; u "java"; u "javascript"; u "typescript"; u "react";
    u "angular"; u "vue";
    u "node.js"; u "express"; u "django"; u "flask"; u "spring"; u "laravel";
    u "sql"; u "mysql"; u "postgresql"; u "mongodb"; u "redis";
    u "elasticsearch";
    u "aws"; u "azure"; u "gcp"; u "docker"; u "kubernetes"; u "jenkins";
    u "git"; u "github"; u "gitlab"; u "ci/cd"; u "devops"; u "agile";
    u "scrum";
    u "leadership"; u "teamwork"; u "communication"; u "problem solving";
    u "project management"; u "time management"; u "analytical";
    u "creative";
    u "collaboration"; u "mentoring"; u "training"; u "presentation" ].

(** ** The nine category checks *)

Local Open Scope method_scope.

Definition mk_issue (cat sev msg rec : str) : ATSIssue :=
  {| category := cat; severity := sev; message := msg;
     recommendation := rec |}.

(** [_check_file_text_extractable].  The first indicator of the source
    is the empty string literal. *)
Definition garbled_indicators : list str :=
  [ []; u "cid:"; [NUL]; [REPLACEMENT_CHARACTER] ].

Definition _check_file_text_extractable (raw_text : str) : Method Q :=
  if match raw_text with [] => true | _ => false end
     || (List.length (strip raw_text) <? 50)
  then
    issues_append
      (mk_issue (u "file_text_extractable") (u "critical")
         (u "Resume text is too short or unreadable")
         (u "Ensure the resume file is properly formatted and contains sufficient content")) ;;
    ret 0%Q
  else
    let garbled_count := sum_counts raw_text garbled_indicators in
    if Qltb (int_times_float (List.length raw_text) (binary64 0.05))
            (Qnat garbled_count)
    then
      issues_append
        (mk_issue (u "file_text_extractable") (u "major")
           (u "Text contains " ++ str_of_nat garbled_count
              ++ u " encoding issues")
           (u "Re-save the resume in a standard format (PDF or DOCX)")) ;;
      ret 30%Q
    else
      let word_count := List.length (split raw_text) in
      if word_count <? 100
      then
        issues_append
          (mk_issue (u "file_text_extractable") (u "major")
             (u "Resume has only " ++ str_of_nat word_count ++ u " words")
             (u "Add more detailed content to your resume")) ;;
        ret 60%Q
      else ret 100%Q.

(** [_check_layout] *)
Definition table_indicators : list str :=
  [ u "|"; u "┌"; u "┐"; u "└"; u "┘"; u "├"; u "┤"; u "┬"; u "┴" ].

Definition _check_layout (resume_json : pydict) (raw_text : str)
  : Method Q :=
  let score := 100%Q in
  let table_count := sum_counts raw_text table_indicators in
  score <-
    (if 10 <? table_count
     then
       issues_append
         (mk_issue (u "layout") (u "major")
            (u "Resume contains complex table formatting")
            (u "Use simple bullet points and standard formatting instead of tables")) ;;
       ret (score - 30)%Q
     else ret score) ;;
  score <-
    (if contains (u "  ") raw_text
        && Qltb (Qnat (count raw_text [LF]))
                (int_times_float (List.length (split raw_text))
                                 (binary64 0.1))
     then
       issues_append
         (mk_issue (u "layout") (u "minor")
            (u "Resume may use column formatting")
            (u "Use single-column layout for better ATS compatibility")) ;;
       ret (score - 10)%Q
     else ret score) ;;
  let lines := split_on LF raw_text in
  let non_empty_lines :=
    filter (fun line => match strip line with [] => false | _ => true end)
           lines in
  score <-
    (if List.length non_empty_lines <? 10
     then
       issues_append
         (mk_issue (u "layout") (u "major")
            (u "Resume has insufficient structure")
            (u "Add proper sections and line breaks")) ;;
       ret (score - 20)%Q
     else ret score) ;;
  ret (py_max 0 score).

Section SetOrder.

(** The order in which CPython lists the elements of a set of strings is
    fixed within one process and depends on the hash seed; it only shows
    in a message.  Where the source iterates over a constant set to fill
    another set, the elements are taken in the order they are written. *)
Variable set_iter : list str -> list str.

(** [_check_headers].  The keys of the mapping are strings, so the
    source's [isinstance(key, str)] holds of each. *)
Definition _check_headers (resume_json : pydict) (raw_text : str)
  : Method Q :=
  let text_lower := lower raw_text in
  let found_headers :=
    filter (fun header => contains header text_lower) ATS_HEADERS in
  let found_headers :=
    if dict_truthy resume_json
    then
      let json_headers :=
        map lower
            (filter (fun key => mem (lower key) ATS_HEADERS)
                    (dict_keys resume_json)) in
      found_headers ++ json_headers
    else found_headers in
  let unique_headers := distinct found_headers in
  let n := List.length unique_headers in
  let score :=
    if 5 <=? n then 100%Q
    else if 3 <=? n then 80%Q
    else if 2 <=? n then 60%Q
    else if 1 <=? n then 40%Q
    else 0%Q in
  (if n <? 3
   then
     let missing_headers := [u "experience"; u "skills"; u "education"] in
     issues_append
       (mk_issue (u "headers") (u "major")
          (u "Missing important section headers. Found: "
             ++ repr_word_list (set_iter unique_headers))
          (u "Add clear section headers like: "
             ++ join (u ", ") missing_headers))
   else ret tt) ;;
  ret score.

End SetOrder.

(** [_check_contact] *)

(* \b[A-Za-z0-9._%+-]+@[A-Za-z0-9.-]+\.[A-Z|a-z]{2,}\b *)
Definition email_pattern : regex :=
  seq [ b_;
        plus (cset [rng "A" "Z"; rng "a" "z"; rng "0" "9";
                    ch "."; ch "_"; ch "%"; ch "+"; ch "-"]);
        lit "@";
        plus (cset [rng "A" "Z"; rng "a" "z"; rng "0" "9"; ch "."; ch "-"]);
        lit ".";
        at_least 2 (cset [rng "A" "Z"; ch "|"; rng "a" "z"]);
        b_ ].

(* (\+?1[-.\s]?)?(\(?[0-9]{3}\)?[-.\s]?[0-9]{3}[-.\s]?[0-9]{4}) *)
Definition phone_pattern : regex :=
  seq [ opt (grp (seq [opt (lit "+"); lit "1"; opt sep]));
        grp (seq [ opt (lit "("); times 3 (cset [rng "0" "9"]);
                   opt (lit ")");
                   opt sep; times 3 (cset [rng "0" "9"]);
                   opt sep; times 4 (cset [rng "0" "9"]) ]) ].

Definition location_patterns : list regex :=
  [ (* \b[A-Z][a-z]+,\s*[A-Z]{2}\b *)
    seq [b_; upper_AZ; plus lower_az; lit ","; star space;
         times 2 upper_AZ; b_];
    (* \b[A-Z][a-z]+\s+[A-Z][a-z]+\b *)
    seq [b_; upper_AZ; plus lower_az; plus space;
         upper_AZ; plus lower_az; b_];
    (* \b(address|location):\s*[^\n]+\b *)
    seq [b_; grp (alt [lit "address"; lit "location"]); lit ":"; star space;
         plus (nset [CChar LF]); b_] ].

Definition contact_keys : list str :=
  [u "email"; u "phone"; u "address"; u "location"; u "contact"].

(** The loop over [contact_keys]; the state is [(contact_found, score)]. *)
Fixpoint contact_scan_keys (keys : list str) (resume_json : pydict)
         (contact_found : list str) (score : Q) : list str * Q :=
  match keys with
  | [] => (contact_found, score)
  | key :: keys' =>
    let '(contact_found, score) :=
      if dict_has (lower key) resume_json
      then
        if negb (mem (lower key) contact_found)
        then (contact_found ++ [lower key], (score + 20)%Q)
        else (contact_found, score)
      else if dict_has key resume_json
      then
        if negb (mem (lower key) contact_found)
        then (contact_found ++ [lower key], (score + 20)%Q)
        else (contact_found, score)
      else (contact_found, score) in
    contact_scan_keys keys' resume_json contact_found score
  end.

Definition _check_contact (resume_json : pydict) (raw_text : str)
  : Method Q :=
  let score := 0%Q in
  let contact_found : list str := [] in
  let '(contact_found, score) :=
    if 0 <? re_findall_count false email_pattern raw_text
    then (contact_found ++ [u "email"], (score + 30)%Q)
    else (contact_found, score) in
  let '(contact_found, score) :=
    if 0 <? re_findall_count false phone_pattern raw_text
    then (contact_found ++ [u "phone"], (score + 30)%Q)
    else (contact_found, score) in
  let '(contact_found, score) :=
    if existsb (fun pattern => re_search true pattern raw_text)
               location_patterns
    then (contact_found ++ [u "location"], (score + 20)%Q)
    else (contact_found, score) in
  let '(contact_found, score) :=
    if dict_truthy resume_json
    then contact_scan_keys contact_keys resume_json contact_found score
    else (contact_found, score) in
  (match contact_found with
   | [] =>
     issues_append
       (mk_issue (u "contact") (u "critical")
          (u "No contact information found")
          (u "Add email, phone number, and location to your resume"))
   | _ =>
     if List.length contact_found <? 2
     then
       issues_append
         (mk_issue (u "contact") (u "major")
            (u "Limited contact information. Found: "
               ++ repr_word_list contact_found)
            (u "Add missing contact details (email, phone, location)"))
     else ret tt
   end) ;;
  ret (py_min 100 score).

(** [_check_skills] *)

(** [[skill.lower() for skill in json_skills if isinstance(skill, str)]] *)
Fixpoint lowered_strings (items : list pyvalue) : list str :=
  match items with
  | [] => []
  | PyStr w :: rest => lower w :: lowered_strings rest
  | _ :: rest => lowered_strings rest
  end.

Definition _check_skills (resume_json : pydict) (raw_text : str)
  : Method Q :=
  let text_lower := lower raw_text in
  let skills_found :=
    filter (fun skill => contains skill text_lower) SKILL_KEYWORDS in
  let skills_found :=
    if dict_truthy resume_json
    then
      match dict_get (u "skills") resume_json with
      | Some (PyList json_skills) =>
        skills_found ++ lowered_strings json_skills
      | Some (PyStr json_skills) =>
        skills_found ++ split (lower json_skills)
      | _ => skills_found
      end
    else skills_found in
  let unique_skills := distinct skills_found in
  let n := List.length unique_skills in
  let score :=
    if 10 <=? n then 100%Q
    else if 7 <=? n then 80%Q
    else if 5 <=? n then 60%Q
    else if 3 <=? n then 40%Q
    else if 1 <=? n then 20%Q
    else 0%Q in
  (if n <? 5
   then
     issues_append
       (mk_issue (u "skills") (u "major")
          (u "Limited skills identified. Found: " ++ str_of_nat n
             ++ u " relevant skills")
          (u "Add more specific technical and soft skills to your resume"))
   else ret tt) ;;
  ret score.

(** [_check_experience] *)
Definition experience_keywords : list str :=
  [u "experience"; u "work"; u "employment"; u "job"; u "position";
   u "role"].

Definition job_patterns : list regex :=
  [ (* \b(at|@)\s+[A-Z][a-zA-Z\s&]+ *)
    seq [b_; grp (alt [lit "at"; lit "@"]); plus space; upper_AZ;
         plus (cset [rng "a" "z"; rng "A" "Z"; CSpace; ch "&"])];
    (* \b(software|engineer|developer|manager|analyst|specialist|
          coordinator|director|lead|senior|junior)\b *)
    seq [b_;
         grp (alt [lit "software"; lit "engineer"; lit "developer";
                   lit "manager"; lit "analyst"; lit "specialist";
                   lit "coordinator"; lit "director"; lit "lead";
                   lit "senior"; lit "junior"]);
         b_] ].

Definition exp_keys : list str :=
  [u "experience"; u "work_experience"; u "employment"; u "jobs"].

(** [isinstance(exp_data, list) and len(exp_data) > 0] *)
Definition nonempty_list (v : pyvalue) : bool :=
  match v with
  | PyList (_ :: _) => true
  | _ => false
  end.

(** The loop over [exp_keys]: true when it leaves through [break]. *)
Fixpoint experience_scan_keys (keys : list str) (resume_json : pydict)
  : bool :=
  match keys with
  | [] => false
  | key :: keys' =>
    match dict_get (lower key) resume_json with
    | Some exp_data =>
      if nonempty_list exp_data then true
      else experience_scan_keys keys' resume_json
    | None =>
      match dict_get key resume_json with
      | Some exp_data =>
        if nonempty_list exp_data then true
        else experience_scan_keys keys' resume_json
      | None => experience_scan_keys keys' resume_json
      end
    end
  end.

Definition _check_experience (resume_json : pydict) (raw_text : str)
  : Method Q :=
  let score := 0%Q in
  let text_lower := lower raw_text in
  let experience_found :=
    existsb (fun keyword => contains keyword text_lower)
            experience_keywords in
  let score := if experience_found then (score + 30)%Q else score in
  let pattern_matches :=
    list_sum (map (fun pattern => re_findall_count false pattern text_lower)
                  job_patterns) in
  let score :=
    if 5 <=? pattern_matches then (score + 40)%Q
    else if 3 <=? pattern_matches then (score + 30)%Q
    else if 1 <=? pattern_matches then (score + 20)%Q
    else score in
  let score :=
    if dict_truthy resume_json
    then if experience_scan_keys exp_keys resume_json
         then (score + 30)%Q else score
    else score in
  (if Qltb score 50
   then
     issues_append
       (mk_issue (u "experience") (u "major")
          (u "Work experience section is unclear or missing")
          (u "Add a clear work experience section with job titles, companies, and dates"))
   else ret tt) ;;
  ret (py_min 100 score).

(** [_check_dates] *)
Definition date_patterns : list regex :=
  [ (* \b(19|20)\d{2}\b *)
    seq [b_; grp (alt [lit "19"; lit "20"]); times 2 digit; b_];
    (* \b(Jan|Feb|Mar|Apr|May|Jun|Jul|Aug|Sep|Oct|Nov|Dec)[a-z]*\s+\d{4}\b *)
    seq [b_;
         grp (alt [lit "Jan"; lit "Feb"; lit "Mar"; lit "Apr"; lit "May";
                   lit "Jun"; lit "Jul"; lit "Aug"; lit "Sep"; lit "Oct";
                   lit "Nov"; lit "Dec"]);
         star lower_az; plus space; times 4 digit; b_];
    (* \b\d{1,2}[/-]\d{4}\b *)
    seq [b_; from_to 1 2 digit; cset [ch "/"; ch "-"]; times 4 digit; b_];
    (* \b(January|February|March|April|May|June|July|August|September|
          October|November|December)\s+\d{4}\b *)
    seq [b_;
         grp (alt [lit "January"; lit "February"; lit "March"; lit "April";
                   lit "May"; lit "June"; lit "July"; lit "August";
                   lit "September"; lit "October"; lit "November";
                   lit "December"]);
         plus space; times 4 digit; b_] ].

Definition _check_dates (resume_json : pydict) (raw_text : str)
  : Method Q :=
  let total_dates :=
    list_sum (map (fun pattern => re_findall_count true pattern raw_text)
                  date_patterns) in
  let score :=
    if 6 <=? total_dates then 100%Q
    else if 4 <=? total_dates then 80%Q
    else if 2 <=? total_dates then 60%Q
    else if 1 <=? total_dates then 40%Q
    else 0%Q in
  (if total_dates <? 2
   then
     issues_append
       (mk_issue (u "dates") (u "major")
          (u "Limited date information found (" ++ str_of_nat total_dates
             ++ u " dates)")
          (u "Add dates for education, work experience, and certifications"))
   else ret tt) ;;
  ret score.

(** [_check_fonts_images] *)
Definition image_indicators : list str :=
  [u "image"; u "img"; u "photo"; u "picture"; u "logo"; u "graphic"].

Definition special_chars : list str :=
  [ u "©"; u "®"; u "™"; u "◦"; u "▪"; u "▫"; u "◆"; u "◇"; u "★"; u "☆" ].

Definition _check_fonts_images (resume_json : pydict) (raw_text : str)
  : Method Q :=
  let score := 100%Q in
  let text_lower := lower raw_text in
  let image_count := sum_counts text_lower image_indicators in
  score <-
    (if 0 <? image_count
     then
       issues_append
         (mk_issue (u "fonts_images") (u "minor")
            (u "Found " ++ str_of_nat image_count
               ++ u " potential image references")
            (u "Avoid images, logos, or graphics in your resume for better ATS compatibility")) ;;
       ret (score - 20)%Q
     else ret score) ;;
  let special_char_count := sum_counts raw_text special_chars in
  score <-
    (if 5 <? special_char_count
     then
       issues_append
         (mk_issue (u "fonts_images") (u "minor")
            (u "Found " ++ str_of_nat special_char_count
               ++ u " special characters")
            (u "Use standard bullet points and characters for better ATS compatibility")) ;;
       ret (score - 10)%Q
     else ret score) ;;
  ret (py_max 0 score).

(** [_check_length] *)
Definition _check_length (raw_text : str) : Method Q :=
  let word_count := List.length (split raw_text) in
  if (OPTIMAL_LENGTH_MIN <=? word_count)
     && (word_count <=? OPTIMAL_LENGTH_MAX)
  then ret 100%Q
  else if word_count <? OPTIMAL_LENGTH_MIN
  then
    issues_append
      (mk_issue (u "length") (u "major")
         (u "Resume is too short (" ++ str_of_nat word_count ++ u " words)")
         (u "Aim for " ++ str_of_nat OPTIMAL_LENGTH_MIN ++ u "-"
            ++ str_of_nat OPTIMAL_LENGTH_MAX
            ++ u " words for optimal length")) ;;
    ret 60%Q
  else
    issues_append
      (mk_issue (u "length") (u "minor")
         (u "Resume is long (" ++ str_of_nat word_count ++ u " words)")
         (u "Consider condensing to " ++ str_of_nat OPTIMAL_LENGTH_MAX
            ++ u " words or less")) ;;
    ret 80%Q.

(** ** Overall score, confidence and the report *)

(** [_calculate_overall_score] *)
Definition _calculate_overall_score (b : ATSBreakdown) : Q :=
  let total_score := 0%Q in
  let total_score :=
    fadd total_score
         (fmul (file_text_extractable b)
               (WEIGHTS_get (u "file_text_extractable"))) in
  let total_score :=
    fadd total_score (fmul (layout b) (WEIGHTS_get (u "layout"))) in
  let total_score :=
    fadd total_score (fmul (headers b) (WEIGHTS_get (u "headers"))) in
  let total_score :=
    fadd total_score (fmul (contact b) (WEIGHTS_get (u "contact"))) in
  let total_score :=
    fadd total_score (fmul (skills b) (WEIGHTS_get (u "skills"))) in
  let total_score :=
    fadd total_score (fmul (experience b) (WEIGHTS_get (u "experience"))) in
  let total_score :=
    fadd total_score (fmul (dates b) (WEIGHTS_get (u "dates"))) in
  let total_score :=
    fadd total_score
         (fmul (fonts_images b) (WEIGHTS_get (u "fonts_images"))) in
  let total_score :=
    fadd total_score (fmul (length b) (WEIGHTS_get (u "length"))) in
  round1 total_score.

(** [_determine_confidence] *)
Definition _determine_confidence (b : ATSBreakdown) (text_length : nat)
  : ATSConfidence :=
  if text_length <? 200 then LOW
  else if text_length <? 500 then MEDIUM
  else HIGH.

Section Run.

Variable set_iter : list str -> list str.

(** [ATSChecker.run_ats_checks].  [None] for either argument stands for
    the value Python passes as [None]. *)
Definition ATSChecker_run_ats_checks
           (resume_json : option pydict) (raw_text : option str)
  : Method ATSReport :=
  let resume_json := match resume_json with Some d => d | None => [] end in
  let raw_text := match raw_text with Some t => t | None => [] end in
  reset_state ;;
  v_file_text_extractable <- _check_file_text_extractable raw_text ;;
  v_layout <- _check_layout resume_json raw_text ;;
  v_headers <- _check_headers set_iter resume_json raw_text ;;
  v_contact <- _check_contact resume_json raw_text ;;
  v_skills <- _check_skills resume_json raw_text ;;
  v_experience <- _check_experience resume_json raw_text ;;
  v_dates <- _check_dates resume_json raw_text ;;
  v_fonts_images <- _check_fonts_images resume_json raw_text ;;
  v_length <- _check_length raw_text ;;
  let breakdown :=
    {| file_text_extractable := v_file_text_extractable;
       layout := v_layout;
       headers := v_headers;
       contact := v_contact;
       skills := v_skills;
       experience := v_experience;
       dates := v_dates;
       fonts_images := v_fonts_images;
       length := v_length |} in
  let overall_score := _calculate_overall_score breakdown in
  let confidence :=
    _determine_confidence breakdown (List.length raw_text) in
  self_issues <- get_issues ;;
  self_recommended_actions <- get_recommended_actions ;;
  ret {| score := overall_score;
         breakdown := breakdown;
         issues := self_issues;
         recommended_actions := self_recommended_actions;
         confidence := confidence |}.

(** The module-level [run_ats_checks]: a fresh checker for each call. *)
Definition run_ats_checks (resume_json : option pydict)
           (raw_text : option str) : ATSReport :=
  fst (ATSChecker_run_ats_checks resume_json raw_text ATSChecker_init).

End Run.

Local Close Scope method_scope.

(* ================================================================= *)
(** * Exceptions, the operating system and the effect monad of the tools *)

(** The classes the handlers tell apart; all derive from [Exception].
    The handlers of the source are [except Exception] and narrower ones:
    an exception that derives from [BaseException] alone (SystemExit,
    KeyboardInterrupt) passes all of them, and the model, whose
    computations end in a value or in an [exn], has none. *)
Inductive exn_class :=
| ZeroDivisionError
| ValueError
| UnicodeDecodeError     (* a ValueError *)
| SyntaxError
| PermissionError        (* an OSError *)
| OSError
| TypeError
| RuntimeError
| OtherException.

Record exn := { exn_is : exn_class; exn_str : str (* str(e) *) }.

Definition exn_class_eqb (a b : exn_class) : bool :=
  match a, b with
  | ZeroDivisionError, ZeroDivisionError | ValueError, ValueError
  | UnicodeDecodeError, UnicodeDecodeError | SyntaxError, SyntaxError
  | PermissionError, PermissionError | OSError, OSError
  | TypeError, TypeError | RuntimeError, RuntimeError
  | OtherException, OtherException => true
  | _, _ => false
  end.

(** [isinstance(e, cls)] along the class hierarchy. *)
Definition caught_by (cls : exn_class) (e : exn) : bool :=
  exn_class_eqb (exn_is e) cls
  || match exn_is e, cls with
     | UnicodeDecodeError, ValueError => true
     | PermissionError, OSError => true
     | _, _ => false
     end.

(** An absolute path after [resolve()]: its components below the root. *)
Definition path := list str.

(** [path.relative_to(base)] succeeds. *)
Fixpoint is_relative_to (p base : path) : bool :=
  match base, p with
  | [], _ => true
  | b :: base', x :: p' => str_eqb b x && is_relative_to p' base'
  | _ :: _, [] => false
  end.

Inductive file_kind := RegularFile | Directory | OtherKind.

Record stat_result := { st_kind : file_kind; st_size : N }.

(** What a system call can fail with. *)
Inductive os_failure :=
| PermissionDenied (msg : str)   (* PermissionError *)
| OSFailure (msg : str)          (* another OSError *)
| BadPath (msg : str)            (* ValueError: embedded null byte *)
| LoopDetected (msg : str).      (* RuntimeError: symlink loop *)

Definition exn_of_os_failure (f : os_failure) : exn :=
  match f with
  | PermissionDenied m => {| exn_is := PermissionError; exn_str := m |}
  | OSFailure m => {| exn_is := OSError; exn_str := m |}
  | BadPath m => {| exn_is := ValueError; exn_str := m |}
  | LoopDetected m => {| exn_is := RuntimeError; exn_str := m |}
  end.

(** A Python float as [eval] may return it. *)
Inductive pyfloat := Finite (q : Q) | Infinity (negative : bool) | NaN.

(** The result of [eval]: a float, an int, or another object, given by
    what [str()] makes of it: a string, or the exception it raises (as
    for a tuple that holds an int beyond the limit below). *)
Inductive pyresult :=
| RFloat (f : pyfloat)
| RInt (z : Z)
| RObject (as_str : exn + str).

(** How [future.result(timeout=timeout)] ends. *)
Inductive wait_outcome :=
| WorkerDone               (* the worker has finished: its result *)
| WaitExpired              (* concurrent.futures.TimeoutError *)
| WaitRaised (e : exn).    (* any other exception of the wait itself:
                              OverflowError, when the worker has not
                              finished yet and the timeout is above
                              threading.TIMEOUT_MAX *)

(** The dictionary returned by [app.tools.pdf_tools.pdf_to_text]. *)
Record pdf_extraction := {
  pdf_text : str;
  pdf_method : str;
  pdf_confidence : str;
  pdf_error : option str       (* None is Python's None *)
}.

(** Everything the tools ask of the interpreter and of the machine. *)
Record World := {
  (* eval(expression, safe_globals, safe_locals) *)
  py_eval : str -> exn + pyresult;
  (* Path.cwd() *)
  os_getcwd : path;
  (* Path(p).resolve() *)
  os_resolve : str -> os_failure + path;
  (* os.stat: None when nothing is there *)
  os_stat : path -> os_failure + option stat_result;
  (* the bytes open(path) reads *)
  os_read : path -> os_failure + bytes;
  (* path.iterdir(), each entry with its kind *)
  os_iterdir : path -> os_failure + list (str * file_kind);
  (* app.tools.pdf_tools.pdf_to_text *)
  pdf_to_text : str -> exn + pdf_extraction;
  (* str(e) of the error pydantic raises when a field is None *)
  validation_error_str : str;
  (* what submit raises on a pool that is open: nothing, or RuntimeError
     when no worker thread can be started or the interpreter is
     shutting down *)
  pool_submit_error : str -> pydict -> option exn;
  (* how the wait for the worker that runs a call ends *)
  future_result : str -> pydict -> Z -> wait_outcome;
  (* sys.get_int_max_str_digits(): the most digits the conversion of an
     int to a string accepts, 0 for no limit *)
  int_max_str_digits : N;
  (* str(e) of the ValueError raised beyond that limit *)
  int_max_str_digits_error : str
}.

Inductive encoding := UTF8 | UTF16.

Inductive event :=
| EvEval (expression : str)
| EvResolve (filepath : str)
| EvStat (p : path)
| EvOpen (p : path) (enc : encoding)
| EvIterdir (p : path)
| EvPdfToText (filepath : str)
| EvSubmit (tool : str) (args : pydict)
| EvCancel (tool : str).

(** A computation appends to the trace of what it did and ends in a
    value or in a raised exception. *)
Definition IO (A : Type) : Type := list event -> (exn + A) * list event.

Definition io_ret (A : Type) (a : A) : IO A := fun tr => (inr a, tr).

Definition io_bind (A B : Type) (m : IO A) (k : A -> IO B) : IO B :=
  fun tr =>
    match m tr with
    | (inr a, tr') => k a tr'
    | (inl e, tr') => (inl e, tr')
    end.

Definition io_raise (A : Type) (e : exn) : IO A := fun tr => (inl e, tr).
Arguments io_raise {A} e.

(** [try: m  except Exception as e: handler e] *)
Definition io_try (A : Type) (m : IO A) (handler : exn -> IO A) : IO A :=
  fun tr =>
    match m tr with
    | (inr a, tr') => (inr a, tr')
    | (inl e, tr') => handler e tr'
    end.

Definition io_emit (ev : event) : IO unit := fun tr => (inr tt, tr ++ [ev]).

(** A call into the interpreter or the system: recorded, then answered. *)
Definition io_call (A : Type) (ev : event) (answer : exn + A) : IO A :=
  fun tr => (answer, tr ++ [ev]).

Definition io_os (A : Type) (ev : event) (answer : os_failure + A) : IO A :=
  io_call ev match answer with
             | inl f => inl (exn_of_os_failure f)
             | inr a => inr a
             end.

(** A step that raises or returns without a call to the outside. *)
Definition io_of (A : Type) (answer : exn + A) : IO A :=
  fun tr => (answer, tr).

Definition io_run (A : Type) (m : IO A) : (exn + A) * list event := m [].

Declare Scope io_scope.
Delimit Scope io_scope with io.
Notation "x <- m ;; k" := (io_bind m (fun x => k))
  (at level 61, m at next level, right associativity) : io_scope.
Notation "m ;; k" := (io_bind m (fun _ => k))
  (at level 61, right associativity) : io_scope.

(* ================================================================= *)
(** * registry.py *)

Record ToolResult := {
  success : bool;
  output : str;
  error : str
}.

Definition tool_ok (out : str) : ToolResult :=
  {| success := true; output := out; error := [] |}.
Definition tool_fail (err : str) : ToolResult :=
  {| success := false; output := []; error := err |}.

(** ** Text decoding for [open(path, 'r', encoding=..., errors=...)] *)

Fixpoint utf16_units (little : bool) (bs : list N) : list N * bool :=
  match bs with
  | a :: b :: rest =>
    let unit := if little then (a + 256 * b)%N else (256 * a + b)%N in
    let (us, truncated) := utf16_units little rest in
    (unit :: us, truncated)
  | [_] => ([], true)
  | [] => ([], false)
  end.

Fixpoint utf16_combine (mode : errors_mode) (us : list N)
  : decode_error + str :=
  let fail (why : string) (resume : decode_error + str) :=
    match mode with
    | Strict => inl (UnicodeDecodeError_at why)
    | Ignore => resume
    end in
  let emit (c : N) (rest : decode_error + str) :=
    match rest with inl e => inl e | inr s => inr (c :: s) end in
  match us with
  | [] => inr []
  | x :: rest =>
    if between 0xD800 0xDBFF x then
      match rest with
      | [] => fail "unexpected end of data"%string (inr [])
      | y :: rest' =>
        if between 0xDC00 0xDFFF y
        then emit (0x10000 + (x - 0xD800) * 0x400 + (y - 0xDC00))%N
                  (utf16_combine mode rest')
        else fail "illegal UTF-16 surrogate"%string (utf16_combine mode rest)
      end
    else if between 0xDC00 0xDFFF x
    then fail "illegal encoding"%string (utf16_combine mode rest)
    else emit x (utf16_combine mode rest)
  end.

(** The [utf-16] codec: a byte order mark decides the order and is
    dropped; without one the order is that of the host (little endian). *)
Definition utf16_decode (mode : errors_mode) (bs : list N)
  : decode_error + str :=
  let '(little, body) :=
    match bs with
    | 0xFF%N :: 0xFE%N :: rest => (true, rest)
    | 0xFE%N :: 0xFF%N :: rest => (false, rest)
    | _ => (true, bs)
    end in
  let (us, truncated) := utf16_units little body in
  match mode, truncated with
  | Strict, true =>
    match utf16_combine mode us with
    | inl e => inl e
    | inr _ => inl (UnicodeDecodeError_at "truncated data")
    end
  | _, _ => utf16_combine mode us
  end.

Definition decode (enc : encoding) (mode : errors_mode) (bs : bytes)
  : decode_error + str :=
  match enc with
  | UTF8 => utf8_decode mode (byte_values bs)
  | UTF16 => utf16_decode mode (byte_values bs)
  end.

(** Text mode reads with universal newlines: \r\n and \r become \n. *)
Fixpoint universal_newlines (s : str) : str :=
  match s with
  | [] => []
  | c :: s' =>
    if cp_eqb c CR
    then match s' with
         | d :: s'' =>
           if cp_eqb d LF then LF :: universal_newlines s''
           else LF :: universal_newlines s'
         | [] => [LF]
         end
    else c :: universal_newlines s'
  end.

Section Tools.

Variable w : World.

Local Open Scope io_scope.

(** ** echo *)
Definition echo_tool (text : pyvalue) : IO ToolResult :=
  io_try
    (match text with
     | PyStr text =>
       let sanitized_text := remove_char NUL text in
       io_ret (tool_ok sanitized_text)
     | _ => io_ret (tool_fail (u "Input must be a string"))
     end)
    (fun e => io_ret (tool_fail (u "Echo error: " ++ exn_str e))).

(** ** calc *)

Definition allowed_chars : list codepoint := u "0123456789+-*/.() ".
Definition allowed_functions : list str :=
  [u "sqrt"; u "abs"; u "sin"; u "cos"; u "tan"; u "log"; u "exp"; u "pi";
   u "e"].

Definition dangerous_patterns : list str :=
  [u "__"; u "import"; u "exec"; u "eval"; u "open"; u "file"; u "input"].

(** The names [safe_globals] binds, beside an empty [__builtins__]. *)
Definition safe_globals_names : list str :=
  [u "abs"; u "round"; u "min"; u "max"; u "pow"; u "sqrt"; u "sin";
   u "cos"; u "tan"; u "log"; u "exp"; u "pi"; u "e"].

(** [f"{x:.6f}"] *)
Definition format_6f (q : Q) : str :=
  let n := round_half_even (Qabs q * 1000000) in
  let frac := str_of_Z (n mod 1000000) in
  (if Qltb q 0 then u "-" else [])
    ++ str_of_Z (n / 1000000) ++ u "."
    ++ repeat 48%N (6 - List.length frac) ++ frac.

(** [str(z)] for an int: beyond the digit limit of the interpreter the
    conversion raises ValueError. *)
Definition str_of_int (z : Z) : exn + str :=
  let digits := N.of_nat (List.length (str_of_Z (Z.abs z))) in
  if (0 <? int_max_str_digits w)%N && (int_max_str_digits w <? digits)%N
  then inl {| exn_is := ValueError;
              exn_str := int_max_str_digits_error w |}
  else inr (str_of_Z z).

Definition float_is_integer (f : pyfloat) : bool :=
  match f with
  | Finite q => Qeq_bool (inject_Z (Qfloor q)) q
  | _ => false
  end.

(** The formatting of the result in [calc_tool].  The int of a float
    has at most 309 digits, fewer than any limit the interpreter can be
    given, so that [str(int(result))] does not raise; [str(result)] can. *)
Definition format_result (result : pyresult) : exn + str :=
  match result with
  | RFloat f =>
    if float_is_integer f
    then match f with
         | Finite q => inr (str_of_Z (Qfloor q))
         | _ => inr []
         end
    else
      let formatted :=
        match f with
        | Finite q => format_6f q
        | Infinity false => u "inf"
        | Infinity true => u "-inf"
        | NaN => u "nan"
        end in
      inr (rstrip_char 46%N (rstrip_char 48%N formatted))
  | RInt z => str_of_int z
  | RObject as_str => as_str
  end.

Definition calc_tool (expression : pyvalue) : IO ToolResult :=
  io_try
    (match expression with
     | PyStr expression =>
       match find (fun pattern => contains pattern (lower expression))
                  dangerous_patterns with
       | Some pattern =>
         io_ret (tool_fail (u "Dangerous pattern '" ++ pattern
                              ++ u "' detected in expression"))
       | None =>
         result <- io_call (EvEval expression) (py_eval w expression) ;;
         output <- io_of (format_result result) ;;
         io_ret (tool_ok output)
       end
     | _ => io_ret (tool_fail (u "Expression must be a string"))
     end)
    (fun e =>
       if caught_by ZeroDivisionError e
       then io_ret (tool_fail (u "Division by zero"))
       else if caught_by ValueError e
       then io_ret (tool_fail (u "Invalid value: " ++ exn_str e))
       else if caught_by SyntaxError e
       then io_ret (tool_fail (u "Invalid syntax: " ++ exn_str e))
       else io_ret (tool_fail (u "Calculation error: " ++ exn_str e))).

(** ** read_file *)

(** [os.path.isabs] *)
Definition isabs (p : str) : bool := startswith (u "/") p.

(** [open(path, 'r', encoding=enc, errors='ignore').read()] *)
Definition read_text (p : path) (enc : encoding) : IO str :=
  raw <- io_os (EvOpen p enc) (os_read w p) ;;
  match decode enc Ignore raw with
  | inr content => io_ret (universal_newlines content)
  | inl (UnicodeDecodeError_at why) =>
    io_raise {| exn_is := UnicodeDecodeError; exn_str := u why |}
  end.

Definition path_exists (p : path) : IO bool :=
  st <- io_os (EvStat p) (os_stat w p) ;;
  io_ret match st with Some _ => true | None => false end.

Definition path_is_file (p : path) : IO bool :=
  st <- io_os (EvStat p) (os_stat w p) ;;
  io_ret match st with
         | Some {| st_kind := RegularFile |} => true
         | _ => false
         end.

Definition path_is_dir (p : path) : IO bool :=
  st <- io_os (EvStat p) (os_stat w p) ;;
  io_ret match st with
         | Some {| st_kind := Directory |} => true
         | _ => false
         end.

(** [path.stat().st_size] *)
Definition path_size (p : path) : IO N :=
  st <- io_os (EvStat p) (os_stat w p) ;;
  match st with
  | Some s => io_ret (st_size s)
  | None =>
    io_raise {| exn_is := OSError;
                exn_str := u "No such file or directory" |}
  end.

Definition read_file_tool (filepath : pyvalue) : IO ToolResult :=
  io_try
    (match filepath with
     | PyStr filepath =>
       if contains (u "..") filepath || isabs filepath
       then io_ret (tool_fail
                      (u "Path traversal not allowed. Use relative paths only."))
       else
         path <- io_os (EvResolve filepath) (os_resolve w filepath) ;;
         let current_dir := os_getcwd w in
         if negb (is_relative_to path current_dir)
         then io_ret (tool_fail
                        (u "File must be in current directory or subdirectories"))
         else
           exists_ <- path_exists path ;;
           if negb exists_ then io_ret (tool_fail (u "File not found"))
           else
             is_file <- path_is_file path ;;
             if negb is_file then io_ret (tool_fail (u "Path is not a file"))
             else
               size <- path_size path ;;
               if (1024 * 1024 <? size)%N
               then io_ret (tool_fail (u "File too large (max 1MB)"))
               else
                 content <-
                   io_try (read_text path UTF8)
                          (fun e =>
                             if caught_by UnicodeDecodeError e
                             then read_text path UTF16
                             else io_raise e) ;;
                 io_ret (tool_ok content)
     | _ => io_ret (tool_fail (u "Filepath must be a string"))
     end)
    (fun e =>
       if caught_by PermissionError e
       then io_ret (tool_fail (u "Permission denied"))
       else if caught_by UnicodeDecodeError e
       then io_ret (tool_fail (u "File contains invalid characters"))
       else io_ret (tool_fail (u "File read error: " ++ exn_str e))).

(** ** pdf_to_text *)
Definition pdf_to_text_tool (filepath : pyvalue) : IO ToolResult :=
  io_try
    (match filepath with
     | PyStr filepath =>
       result <- io_call (EvPdfToText filepath) (pdf_to_text w filepath) ;;
       match pdf_text result with
       | _ :: _ =>
         io_ret (tool_ok (u "Method: " ++ pdf_method result ++ [LF]
                            ++ u "Confidence: " ++ pdf_confidence result
                            ++ [LF] ++ u "Text:" ++ [LF] ++ pdf_text result))
       | [] =>
         match pdf_error result with
         | Some err => io_ret (tool_fail err)
         | None =>
           io_raise {| exn_is := OtherException;
                       exn_str := validation_error_str w |}
         end
       end
     | _ => io_ret (tool_fail (u "Filepath must be a string"))
     end)
    (fun e => io_ret (tool_fail (u "PDF extraction failed: " ++ exn_str e))).

(** ** list_files *)

(** Order of [str] values: by code point, a prefix first. *)
Fixpoint str_ltb (a b : str) : bool :=
  match a, b with
  | _, [] => false
  | [], _ :: _ => true
  | x :: a', y :: b' =>
    (x <? y)%N || (cp_eqb x y && str_ltb a' b')
  end.

Fixpoint insert_sorted (x : str) (l : list str) : list str :=
  match l with
  | [] => [x]
  | y :: l' => if str_ltb y x || str_eqb y x
               then y :: insert_sorted x l'
               else x :: l
  end.

(** [items.sort()] *)
Definition sort_strs (l : list str) : list str :=
  fold_right insert_sorted [] l.

Fixpoint list_items (entries : list (str * file_kind)) : list str :=
  match entries with
  | [] => []
  | (name, RegularFile) :: rest => (u "FILE: " ++ name) :: list_items rest
  | (name, Directory) :: rest => (u "DIR:  " ++ name) :: list_items rest
  | (_, OtherKind) :: rest => list_items rest
  end.

Definition list_files_tool (directory : pyvalue) : IO ToolResult :=
  io_try
    (match directory with
     | PyStr directory =>
       if contains (u "..") directory || isabs directory
       then io_ret (tool_fail
                      (u "Path traversal not allowed. Use relative paths only."))
       else
         path <- io_os (EvResolve directory) (os_resolve w directory) ;;
         let current_dir := os_getcwd w in
         if negb (is_relative_to path current_dir)
         then io_ret (tool_fail
                        (u "Directory must be in current directory or subdirectories"))
         else
           exists_ <- path_exists path ;;
           if negb exists_ then io_ret (tool_fail (u "Directory not found"))
           else
             is_dir <- path_is_dir path ;;
             if negb is_dir
             then io_ret (tool_fail (u "Path is not a directory"))
             else
               listing <-
                 io_try
                   (entries <- io_os (EvIterdir path) (os_iterdir w path) ;;
                    io_ret (inr (list_items entries)))
                   (fun e =>
                      if caught_by PermissionError e
                      then io_ret (inl (tool_fail (u "Permission denied")))
                      else io_raise e) ;;
               match listing with
               | inl failure => io_ret failure
               | inr items =>
                 let items := sort_strs items in
                 let output :=
                   match items with
                   | [] => u "Directory is empty"
                   | _ => join [LF] items
                   end in
                 io_ret (tool_ok output)
               end
     | _ => io_ret (tool_fail (u "Directory must be a string"))
     end)
    (fun e =>
       io_ret (tool_fail (u "Directory listing error: " ++ exn_str e))).

(** ** The registry *)

(** The [parameters] entry of a tool: the declared type of each property
    and the names that are required. *)
Record ParameterSchema := {
  properties : list (str * str);
  required : list str
}.

(** What calling a tool function gives back. *)
Inductive tool_return :=
| ReturnsToolResult (r : ToolResult)
| ReturnsOther.

Record ToolDefinition := {
  name : str;
  description : str;
  parameters : ParameterSchema;
  function : pydict -> IO tool_return
}.

(** A call that unpacks [args] as keywords, for a function of one
    parameter, with or without a default: a keyword the function does not
    have, or a missing one, is a TypeError. *)
Definition call_with_kwargs (fname param : str) (default : option pyvalue)
           (f : pyvalue -> IO ToolResult) (args : pydict) : IO tool_return :=
  match filter (fun k => negb (str_eqb k param)) (dict_keys args) with
  | k :: _ =>
    io_raise {| exn_is := TypeError;
                exn_str := fname ++ u "() got an unexpected keyword argument '"
                                 ++ k ++ u "'" |}
  | [] =>
    match dict_get param args, default with
    | Some v, _ => r <- f v ;; io_ret (ReturnsToolResult r)
    | None, Some v => r <- f v ;; io_ret (ReturnsToolResult r)
    | None, None =>
      io_raise {| exn_is := TypeError;
                  exn_str := fname
                    ++ u "() missing 1 required positional argument: '"
                    ++ param ++ u "'" |}
    end
  end.

Definition TOOLS : list (str * ToolDefinition) :=
  [ (u "echo",
     {| name := u "echo";
        description := u "Echo tool - returns the input text";
        parameters := {| properties := [(u "text", u "string")];
                         required := [u "text"] |};
        function := call_with_kwargs (u "echo_tool") (u "text") None
                                     echo_tool |});
    (u "calc",
     {| name := u "calc";
        description :=
          u "Calculator tool - evaluates simple mathematical expressions";
        parameters := {| properties := [(u "expression", u "string")];
                         required := [u "expression"] |};
        function := call_with_kwargs (u "calc_tool") (u "expression") None
                                     calc_tool |});
    (u "read_file",
     {| name := u "read_file";
        description := u "Read file tool - safely reads text files";
        parameters := {| properties := [(u "filepath", u "string")];
                         required := [u "filepath"] |};
        function := call_with_kwargs (u "read_file_tool") (u "filepath") None
                                     read_file_tool |});
    (u "list_files",
     {| name := u "list_files";
        description :=
          u "List files tool - safely lists files in a directory";
        parameters := {| properties := [(u "directory", u "string")];
                         required := [] |};
        function := call_with_kwargs (u "list_files_tool") (u "directory")
                                     (Some (PyStr (u "."))) list_files_tool |});
    (u "pdf_to_text",
     {| name := u "pdf_to_text";
        description :=
          u "PDF text extraction tool - extracts text from PDF files using multiple methods";
        parameters := {| properties := [(u "filepath", u "string")];
                         required := [u "filepath"] |};
        function := call_with_kwargs (u "pdf_to_text_tool") (u "filepath")
                                     None pdf_to_text_tool |}) ].

(** [get_tool]: [TOOLS.get(name)] *)
Fixpoint get_tool_in (table : list (str * ToolDefinition)) (key : str)
  : option ToolDefinition :=
  match table with
  | [] => None
  | (k, t) :: rest => if str_eqb k key then Some t else get_tool_in rest key
  end.

Definition get_tool (key : str) : option ToolDefinition :=
  get_tool_in TOOLS key.

(** [list_tools] *)
Definition list_tools : list (str * str) :=
  map (fun entry => (fst entry, description (snd entry))) TOOLS.

(** The type test of one argument against the declared type. *)
Definition type_matches (expected_type : str) (param_value : pyvalue)
  : bool :=
  if str_eqb expected_type (u "string")
  then match param_value with PyStr _ => true | _ => false end
  else if str_eqb expected_type (u "number")
  then match param_value with
       | PyInt _ | PyFloat _ | PyBool _ => true
       | _ => false
       end
  else if str_eqb expected_type (u "boolean")
  then match param_value with PyBool _ => true | _ => false end
  else true.

Fixpoint properties_get (props : list (str * str)) (key : str)
  : option str :=
  match props with
  | [] => None
  | (k, t) :: rest => if str_eqb k key then Some t else properties_get rest key
  end.

(** [validate_tool_parameters] *)
Definition validate_tool_parameters (tool_name : str) (params : pydict)
  : bool :=
  match get_tool tool_name with
  | None => false
  | Some tool =>
    let schema := parameters tool in
    forallb (fun param => dict_has param params) (required schema)
    && forallb (fun kv =>
                  match properties_get (properties schema) (fst kv) with
                  | Some expected_type => type_matches expected_type (snd kv)
                  | None => true
                  end)
               params
  end.

(* ================================================================= *)
(** * executor.py *)

(** A [ToolExecutor] and the state of its thread pool. *)
Record ToolExecutor := {
  max_workers : nat;
  pool_is_shutdown : bool
}.

(** [ToolExecutor.__init__] *)
Definition ToolExecutor_init (workers : nat) : ToolExecutor :=
  {| max_workers := workers; pool_is_shutdown := false |}.

(** [ToolExecutor.shutdown] *)
Definition shutdown (self : ToolExecutor) : ToolExecutor :=
  {| max_workers := max_workers self; pool_is_shutdown := true |}.

(** [_execute_tool_safely] *)
Definition _execute_tool_safely (tool_function : pydict -> IO tool_return)
           (args : pydict) : IO ToolResult :=
  io_try
    (result <- tool_function args ;;
     match result with
     | ReturnsToolResult r => io_ret r
     | ReturnsOther =>
       io_ret (tool_fail (u "Tool function did not return a ToolResult"))
     end)
    (fun e => io_ret (tool_fail (u "Tool execution failed: " ++ exn_str e))).

(** [self._executor.submit(...)]: a pool that was shut down refuses, and
    an open one can fail to start a worker. *)
Definition submit (self : ToolExecutor) (tool : str) (args : pydict)
  : IO unit :=
  io_call (EvSubmit tool args)
          (if pool_is_shutdown self
           then inl {| exn_is := RuntimeError;
                       exn_str :=
                         u "cannot schedule new futures after shutdown" |}
           else match pool_submit_error w tool args with
                | Some e => inl e
                | None => inr tt
                end).

(** [ToolExecutor.run_tool]; the dictionary it returns has the three
    keys of a [ToolResult]. *)
Definition ToolExecutor_run_tool (self : ToolExecutor) (tool : str) (args : pydict)
           (timeout : Z) : IO ToolResult :=
  io_try
    (match get_tool tool with
     | None =>
       io_ret (tool_fail (u "Tool '" ++ tool ++ u "' not found in registry"))
     | Some definition =>
       if negb (validate_tool_parameters tool args)
       then io_ret (tool_fail (u "Invalid parameters for tool '" ++ tool
                                 ++ u "'"))
       else
         let tool_function := function definition in
         submit self tool args ;;
         match future_result w tool args timeout with
         | WorkerDone =>
           result <- _execute_tool_safely tool_function args ;;
           io_ret {| success := success result;
                     output := output result;
                     error := error result |}
         | WaitExpired =>
           io_emit (EvCancel tool) ;;
           seconds <- io_of (str_of_int timeout) ;;
           io_ret (tool_fail (u "Tool '" ++ tool
                                ++ u "' execution timed out after "
                                ++ seconds ++ u " seconds"))
         | WaitRaised e => io_raise e
         end
     end)
    (fun e => io_ret (tool_fail (u "Tool execution error: " ++ exn_str e))).

(** [get_executor]: the module-level instance, created on first use. *)
Definition get_executor (instance : option ToolExecutor)
  : ToolExecutor * option ToolExecutor :=
  match instance with
  | Some ex => (ex, Some ex)
  | None => let ex := ToolExecutor_init 4 in (ex, Some ex)
  end.

(** [shutdown_executor]: the instance, if there is one, is shut down and
    forgotten. *)
Definition shutdown_executor (instance : option ToolExecutor)
  : option ToolExecutor := None.

(** The module-level [run_tool], on the global executor instance. *)
Definition run_tool (instance : option ToolExecutor) (tool : str)
           (args : pydict) (timeout : Z)
  : IO ToolResult * option ToolExecutor :=
  let (executor, instance') := get_executor instance in
  (ToolExecutor_run_tool executor tool args timeout, instance').

End Tools.

(* ================================================================= *)
(** * pdf_tools.py *)

(** [PDFExtractionResult] *)
Record PDFExtractionResult := {
  res_text : str;
  res_method : str;          (* "pdfminer", "pypdf", "ocr" *)
  res_confidence : str;      (* "high", "medium", "low" *)
  res_pages_processed : nat;
  res_error : option str
}.

(** A page rendered for OCR. *)
Definition image := nat.

(** The libraries the module imports, and what they answer. *)
Record PdfLibraries := {
  PDFMINER_AVAILABLE : bool;
  PYPDF_AVAILABLE : bool;
  OCR_AVAILABLE : bool;
  PDF_TO_IMAGE_AVAILABLE : bool;
  (* os.path.exists *)
  os_path_exists : str -> bool;
  (* pdfminer.high_level.extract_text *)
  pdfminer_extract : str -> exn + str;
  (* PdfReader(file).pages, each page with what extract_text() gives *)
  PdfReader : str -> exn + list (exn + str);
  (* the page images fitz or pdf2image delivered before any failure *)
  pdf_page_images : str -> list image;
  (* pytesseract.image_to_string *)
  image_to_string : image -> exn + str;
  (* str.isalpha of one character *)
  isalpha : codepoint -> bool
}.

(** [bool(s)] for a string. *)
Definition nonempty (s : str) : bool :=
  match s with [] => false | _ => true end.

(** [s.endswith(suffix)] *)
Definition endswith (suffix s : str) : bool :=
  startswith (rev suffix) (rev s).

Definition failed_extraction (method err : str) : PDFExtractionResult :=
  {| res_text := [];
     res_method := method;
     res_confidence := u "low";
     res_pages_processed := 0;
     res_error := Some err |}.

Section PdfTools.

Variable lib : PdfLibraries.

(** [_extract_with_pdfminer] *)
Definition _extract_with_pdfminer (file_path : str) : PDFExtractionResult :=
  match pdfminer_extract lib file_path with
  | inr text =>
    if nonempty text && (10 <? List.length (strip text))
    then {| res_text := strip text;
            res_method := u "pdfminer";
            res_confidence :=
              if 100 <? List.length text then u "high" else u "medium";
            res_pages_processed := 1;
            res_error := None |}
    else failed_extraction (u "pdfminer") (u "No meaningful text extracted")
  | inl e =>
    failed_extraction (u "pdfminer")
                      (u "pdfminer extraction failed: " ++ exn_str e)
  end.

(** The loop over pages or images: the stripped text of each one that
    has any; one that raises is skipped. *)
Fixpoint text_parts_of (extracted : list (exn + str)) : list str :=
  match extracted with
  | [] => []
  | inr page_text :: rest =>
    if nonempty page_text && nonempty (strip page_text)
    then strip page_text :: text_parts_of rest
    else text_parts_of rest
  | inl _ :: rest => text_parts_of rest
  end.

(** [_extract_with_pypdf] *)
Definition _extract_with_pypdf (file_path : str) : PDFExtractionResult :=
  match PdfReader lib file_path with
  | inr pages =>
    let text_parts := text_parts_of pages in
    let pages_processed := List.length text_parts in
    match text_parts with
    | _ :: _ =>
      let full_text := join [LF; LF] text_parts in
      {| res_text := full_text;
         res_method := u "pypdf";
         res_confidence :=
           if 100 <? List.length full_text then u "high" else u "medium";
         res_pages_processed := pages_processed;
         res_error := None |}
    | [] =>
      failed_extraction (u "pypdf") (u "No text extracted from any page")
    end
  | inl e =>
    failed_extraction (u "pypdf") (u "pypdf extraction failed: " ++ exn_str e)
  end.

(** [_pdf_to_images] *)
Definition _pdf_to_images (file_path : str) : list image :=
  if PDF_TO_IMAGE_AVAILABLE lib then pdf_page_images lib file_path else [].

(** [_extract_with_ocr] *)
Definition _extract_with_ocr (file_path : str) : PDFExtractionResult :=
  let images := _pdf_to_images file_path in
  match images with
  | [] =>
    failed_extraction (u "ocr") (u "Failed to convert PDF to images for OCR")
  | _ :: _ =>
    let text_parts := text_parts_of (map (image_to_string lib) images) in
    let pages_processed := List.length text_parts in
    match text_parts with
    | _ :: _ =>
      let full_text := join [LF; LF] text_parts in
      let confidence :=
        if (200 <? List.length full_text) && existsb (isalpha lib) full_text
        then u "high" else u "medium" in
      {| res_text := full_text;
         res_method := u "ocr";
         res_confidence := confidence;
         res_pages_processed := pages_processed;
         res_error := None |}
    | [] => failed_extraction (u "ocr") (u "No text extracted via OCR")
    end
  end.

(** The functions [pdf_to_text] chooses among. *)
Inductive extraction_method := ByPdfminer | ByPypdf | ByOcr.

Definition run_method (m : extraction_method) (file_path : str)
  : PDFExtractionResult :=
  match m with
  | ByPdfminer => _extract_with_pdfminer file_path
  | ByPypdf => _extract_with_pypdf file_path
  | ByOcr => _extract_with_ocr file_path
  end.

(** The dictionary [pdf_to_text] returns; the error returns have no
    [pages_processed] entry. *)
Record PdfTextDict := {
  d_text : str;
  d_method : str;
  d_confidence : str;
  d_pages_processed : option nat;
  d_error : option str
}.

Definition error_dict (method err : str) : PdfTextDict :=
  {| d_text := [];
     d_method := method;
     d_confidence := u "low";
     d_pages_processed := None;
     d_error := Some err |}.

Definition dict_of_result (result : PDFExtractionResult) : PdfTextDict :=
  {| d_text := res_text result;
     d_method := res_method result;
     d_confidence := res_confidence result;
     d_pages_processed := Some (res_pages_processed result);
     d_error := res_error result |}.

Definition methods_to_try : list extraction_method :=
  (if PDFMINER_AVAILABLE lib then [ByPdfminer] else [])
    ++ (if PYPDF_AVAILABLE lib then [ByPypdf] else [])
    ++ (if OCR_AVAILABLE lib && PDF_TO_IMAGE_AVAILABLE lib
        then [ByOcr] else []).

(** [result.text and len(result.text.strip()) > 10] *)
Definition meaningful (text : str) : bool :=
  nonempty text && (10 <? List.length (strip text)).

(** The loop of [pdf_to_text] over the methods, with the list of the
    methods it called. *)
Fixpoint try_methods (methods : list extraction_method) (file_path : str)
  : PdfTextDict * list extraction_method :=
  match methods with
  | [] =>
    (error_dict (u "fallback") (u "All extraction methods failed"), [])
  | method_func :: rest =>
    let result := run_method method_func file_path in
    if meaningful (res_text result)
    then (dict_of_result result, [method_func])
    else
      match rest with
      | [] => (dict_of_result result, [method_func])
      | _ :: _ =>
        let (d, called) := try_methods rest file_path in
        (d, method_func :: called)
      end
  end.

(** [pdf_to_text], with the methods it called. *)
Definition pdf_to_text_calls (file_path : pyvalue)
  : PdfTextDict * list extraction_method :=
  match file_path with
  | PyStr file_path =>
    if negb (os_path_exists lib file_path)
    then (error_dict (u "error") (u "File not found"), [])
    else if negb (endswith (u ".pdf") (lower file_path))
    then (error_dict (u "error") (u "File must be a PDF"), [])
    else try_methods methods_to_try file_path
  | _ => (error_dict (u "error") (u "File path must be a string"), [])
  end.

Definition pdf_to_text_dict (file_path : pyvalue) : PdfTextDict :=
  fst (pdf_to_text_calls file_path).

(** [get_extraction_capabilities] *)
Definition get_extraction_capabilities : list (str * bool) :=
  [ (u "pdfminer", PDFMINER_AVAILABLE lib);
    (u "pypdf", PYPDF_AVAILABLE lib);
    (u "ocr", OCR_AVAILABLE lib);
    (u "pdf_to_image", PDF_TO_IMAGE_AVAILABLE lib) ].

End PdfTools.

(** What [pdf_to_text_tool] reads of the dictionary. *)
Definition extraction_of_dict (d : PdfTextDict) : pdf_extraction :=
  {| pdf_text := d_text d;
     pdf_method := d_method d;
     pdf_confidence := d_confidence d;
     pdf_error := d_error d |}.

(** A machine whose [pdf_to_text] is the one of pdf_tools.py. *)
Definition with_pdf_tools (lib : PdfLibraries) (w : World) : World :=
  {| py_eval := py_eval w;
     os_getcwd := os_getcwd w;
     os_resolve := os_resolve w;
     os_stat := os_stat w;
     os_read := os_read w;
     os_iterdir := os_iterdir w;
     pdf_to_text := fun file_path =>
       inr (extraction_of_dict (pdf_to_text_dict lib (PyStr file_path)));
     validation_error_str := validation_error_str w;
     pool_submit_error := pool_submit_error w;
     future_result := future_result w;
     int_max_str_digits := int_max_str_digits w;
     int_max_str_digits_error := int_max_str_digits_error w |}.

(* ================================================================= *)
(** * api/routes/tool.py *)

(** What a route answers: a body, or a raised [HTTPException]. *)
Inductive http_answer (A : Type) :=
| Responded (body : A)
| HTTPException (status_code : nat) (detail : str).
Arguments Responded {A} body.
Arguments HTTPException {A} status_code detail.

Record ToolExecutionRequest := {
  req_name : str;
  req_args : pydict;
  req_timeout : Z
}.

Record ToolInfo := {
  info_name : str;
  info_description : str;
  info_parameters : ParameterSchema
}.

Section ToolRoutes.

Variable w : World.

(** [list_available_tools] *)
Definition list_available_tools : list (str * str) := list_tools w.

(** [get_tool_info] *)
Definition get_tool_info (tool_name : str) : http_answer ToolInfo :=
  match get_tool w tool_name with
  | None =>
    HTTPException 404 (u "Tool '" ++ tool_name ++ u "' not found")
  | Some tool =>
    Responded {| info_name := name tool;
                 info_description := description tool;
                 info_parameters := parameters tool |}
  end.

(** [execute_tool], on the global executor instance; the answer comes
    with the trace of the call and the instance it leaves. *)
Definition execute_tool (instance : option ToolExecutor)
           (request : ToolExecutionRequest)
  : (http_answer ToolResult * list event) * option ToolExecutor :=
  let (call, instance') :=
    run_tool w instance (req_name request) (req_args request)
             (req_timeout request) in
  match io_run call with
  | (inr result, tr) =>
    (Responded {| success := success result;
                  output := output result;
                  error := error result |}, tr, instance')
  | (inl e, tr) =>
    (HTTPException 500 (u "Tool execution failed: " ++ exn_str e), tr,
     instance')
  end.

End ToolRoutes.

(* ================================================================= *)
(** * Vocabulary of the properties *)

(** The nine scores of a breakdown, in the order of the weights. *)
Definition breakdown_scores (b : ATSBreakdown) : list Q :=
  [ file_text_extractable b; layout b; headers b; contact b; skills b;
    experience b; dates b; fonts_images b; length b ].

(** The weights as the specification lists them. *)
Definition stated_weights : list Q :=
  [ 0.15; 0.15; 0.12; 0.10; 0.15; 0.15; 0.08; 0.05; 0.05 ]%Q.

Fixpoint dot_product (xs ws : list Q) : Q :=
  match xs, ws with
  | x :: xs', w :: ws' => (x * w + dot_product xs' ws')%Q
  | _, _ => 0%Q
  end.

Definition Qsum (l : list Q) : Q := fold_right Qplus 0%Q l.

Definition text_or_empty (raw_text : option str) : str :=
  match raw_text with Some t => t | None => [] end.

Definition resume_or_empty (resume_json : option pydict) : pydict :=
  match resume_json with Some d => d | None => [] end.

(** A score of the scale 0..100. *)
Definition in_range (q : Q) : Prop := (0 <= q)%Q /\ (q <= 100)%Q.

(** A whole multiple of ten. *)
Definition tens (q : Q) : Prop := exists k : Z, (q == inject_Z (10 * k))%Q.

(** [s'] is [s] with issues appended and nothing else changed. *)
Definition extends (s s' : ATSChecker) : Prop :=
  self_recommended_actions s' = self_recommended_actions s
  /\ exists new, self_issues s' = self_issues s ++ new.

Definition append_only (A : Type) (m : Method A) : Prop :=
  forall s, extends s (snd (m s)).

(** Scenario A of the specification. *)
Definition scenario_A_text : str := u "John Doe Software Engineer".

Definition is_critical_contact_issue (i : ATSIssue) : bool :=
  str_eqb (category i) (u "contact") && str_eqb (severity i) (u "critical").

(** A small machine to run the tools on: the working directory is
    /srv/app, every name resolves below it except [shortcut], a symbolic
    link to /etc/passwd, and every file below it holds the three bytes
    68 FF 69, the middle one invalid in UTF-8. *)
Definition demo_cwd : path := [u "srv"; u "app"].

Definition demo_world : World :=
  {| py_eval := fun expression =>
       if str_eqb expression (u "7 % 3") then inr (RInt 1)
       else inl {| exn_is := SyntaxError; exn_str := u "invalid syntax" |};
     os_getcwd := demo_cwd;
     os_resolve := fun filepath =>
       if str_eqb filepath (u "shortcut")
       then inr [u "etc"; u "passwd"]
       else inr (demo_cwd ++ [filepath]);
     os_stat := fun p =>
       if is_relative_to p demo_cwd
       then inr (Some {| st_kind := RegularFile; st_size := 3 |})
       else inr None;
     os_read := fun _ => inr [x68; xff; x69]%byte;
     os_iterdir := fun _ => inr [];
     pdf_to_text := fun _ =>
       inr {| pdf_text := []; pdf_method := u "error";
              pdf_confidence := u "low";
              pdf_error := Some (u "File not found") |};
     validation_error_str := u "1 validation error for ToolResult";
     pool_submit_error := fun _ _ => None;
     future_result := fun _ _ _ => WorkerDone;
     int_max_str_digits := 4300;
     int_max_str_digits_error :=
       u "Exceeds the limit (4300 digits) for integer string conversion; use sys.set_int_max_str_digits() to increase the limit" |}.

Definition traversal_message : str :=
  u "Path traversal not allowed. Use relative paths only.".

Definition invalid_characters_message : str :=
  u "File contains invalid characters".

(** Events that look at or into a file or a directory. *)
Definition touches_files (ev : event) : bool :=
  match ev with
  | EvStat _ | EvOpen _ _ | EvIterdir _ => true
  | _ => false
  end.

(** A stat, an open or a listing of a path inside the working directory
    (any other event counts as inside). *)
Definition inside (w : World) (ev : event) : bool :=
  match ev with
  | EvStat p | EvOpen p _ | EvIterdir p => is_relative_to p (os_getcwd w)
  | _ => true
  end.

Definition opens_utf16 (ev : event) : bool :=
  match ev with
  | EvOpen _ UTF16 => true
  | _ => false
  end.

(** The path resolves, and to a place outside the working directory. *)
Definition escapes (w : World) (filepath : str) : Prop :=
  exists p, os_resolve w filepath = inr p
            /\ is_relative_to p (os_getcwd w) = false.

(** The ways a call of [run_tool] can end.  The last four are results
    of the outer handler, "Tool execution error: ..."; they arise when
    the pool was shut down and refuses the submission, when the open pool
    cannot start a worker, when the wait for the worker raises something
    other than a timeout, and when the timeout message cannot be
    formatted. *)
Inductive outcome :=
| RegistryMiss
| ValidationFailure
| NormalSuccess
| ImplementationFailure
| TimedOut
| SchedulingFailure
| WorkerStartFailure
| WaitFailure
| TimeoutReportFailure.

(** [explains w self tool args timeout o r tr]: outcome [o] applies to
    the call and makes it return [r] after the events [tr]. *)
Inductive explains (w : World) (self : ToolExecutor) (tool : str)
          (args : pydict) (timeout : Z)
  : outcome -> ToolResult -> list event -> Prop :=
| explains_miss :
    get_tool w tool = None ->
    explains w self tool args timeout RegistryMiss
             (tool_fail (u "Tool '" ++ tool ++ u "' not found in registry"))
             []
| explains_invalid :
    forall d,
      get_tool w tool = Some d ->
      validate_tool_parameters w tool args = false ->
      explains w self tool args timeout ValidationFailure
               (tool_fail (u "Invalid parameters for tool '" ++ tool ++ u "'"))
               []
| explains_refused :
    forall d,
      get_tool w tool = Some d ->
      validate_tool_parameters w tool args = true ->
      pool_is_shutdown self = true ->
      explains w self tool args timeout SchedulingFailure
               (tool_fail (u "Tool execution error: "
                             ++ u "cannot schedule new futures after shutdown"))
               [EvSubmit tool args]
| explains_not_started :
    forall d e,
      get_tool w tool = Some d ->
      validate_tool_parameters w tool args = true ->
      pool_is_shutdown self = false ->
      pool_submit_error w tool args = Some e ->
      explains w self tool args timeout WorkerStartFailure
               (tool_fail (u "Tool execution error: " ++ exn_str e))
               [EvSubmit tool args]
| explains_wait_raised :
    forall d e,
      get_tool w tool = Some d ->
      validate_tool_parameters w tool args = true ->
      pool_is_shutdown self = false ->
      pool_submit_error w tool args = None ->
      future_result w tool args timeout = WaitRaised e ->
      explains w self tool args timeout WaitFailure
               (tool_fail (u "Tool execution error: " ++ exn_str e))
               [EvSubmit tool args]
| explains_timeout :
    forall d seconds,
      get_tool w tool = Some d ->
      validate_tool_parameters w tool args = true ->
      pool_is_shutdown self = false ->
      pool_submit_error w tool args = None ->
      future_result w tool args timeout = WaitExpired ->
      str_of_int w timeout = inr seconds ->
      explains w self tool args timeout TimedOut
               (tool_fail (u "Tool '" ++ tool
                             ++ u "' execution timed out after "
                             ++ seconds ++ u " seconds"))
               [EvSubmit tool args; EvCancel tool]
| explains_timeout_unreported :
    forall d e,
      get_tool w tool = Some d ->
      validate_tool_parameters w tool args = true ->
      pool_is_shutdown self = false ->
      pool_submit_error w tool args = None ->
      future_result w tool args timeout = WaitExpired ->
      str_of_int w timeout = inl e ->
      explains w self tool args timeout TimeoutReportFailure
               (tool_fail (u "Tool execution error: " ++ exn_str e))
               [EvSubmit tool args; EvCancel tool]
| explains_success :
    forall d r tr,
      get_tool w tool = Some d ->
      validate_tool_parameters w tool args = true ->
      pool_is_shutdown self = false ->
      pool_submit_error w tool args = None ->
      future_result w tool args timeout = WorkerDone ->
      function d args [EvSubmit tool args] = (inr (ReturnsToolResult r), tr) ->
      explains w self tool args timeout NormalSuccess r tr
| explains_raised :
    forall d e tr,
      get_tool w tool = Some d ->
      validate_tool_parameters w tool args = true ->
      pool_is_shutdown self = false ->
      pool_submit_error w tool args = None ->
      future_result w tool args timeout = WorkerDone ->
      function d args [EvSubmit tool args] = (inl e, tr) ->
      explains w self tool args timeout ImplementationFailure
               (tool_fail (u "Tool execution failed: " ++ exn_str e)) tr
| explains_not_a_result :
    forall d tr,
      get_tool w tool = Some d ->
      validate_tool_parameters w tool args = true ->
      pool_is_shutdown self = false ->
      pool_submit_error w tool args = None ->
      future_result w tool args timeout = WorkerDone ->
      function d args [EvSubmit tool args] = (inr ReturnsOther, tr) ->
      explains w self tool args timeout ImplementationFailure
               (tool_fail (u "Tool function did not return a ToolResult")) tr.

(** A call of echo, and an executor whose pool was shut down. *)
Definition echo_call : pydict := [(u "text", PyStr (u "x"))].

Definition closed_executor : ToolExecutor := shutdown (ToolExecutor_init 4).

(** [threading.TIMEOUT_MAX] of a 64-bit build, in whole seconds. *)
Definition TIMEOUT_MAX : Z := 9223372036.

(** A machine whose workers never finish, so that a wait expires, or
    raises OverflowError when its timeout is above [TIMEOUT_MAX], and
    which has no thread left when calc is submitted; its digit limit is
    the least one that can be set, 640, and its evaluator knows the power
    10 ** 640, of 641 digits. *)
Definition busy_world : World :=
  {| py_eval := fun expression =>
       if str_eqb expression (u "10 ** 640") then inr (RInt (10 ^ 640))
       else py_eval demo_world expression;
     os_getcwd := os_getcwd demo_world;
     os_resolve := os_resolve demo_world;
     os_stat := os_stat demo_world;
     os_read := os_read demo_world;
     os_iterdir := os_iterdir demo_world;
     pdf_to_text := pdf_to_text demo_world;
     validation_error_str := validation_error_str demo_world;
     pool_submit_error := fun tool _ =>
       if str_eqb tool (u "calc")
       then Some {| exn_is := RuntimeError;
                    exn_str := u "can't start new thread" |}
       else None;
     future_result := fun _ _ timeout =>
       if (TIMEOUT_MAX <? timeout)%Z
       then WaitRaised
              {| exn_is := OtherException;
                 exn_str :=
                   u "timestamp too large to convert to C _PyTime_t" |}
       else WaitExpired;
     int_max_str_digits := 640;
     int_max_str_digits_error :=
       u "Exceeds the limit (640 digits) for integer string conversion; use sys.set_int_max_str_digits() to increase the limit" |}.

(** ** Vocabulary of the further properties of the checker *)

(** A checker with more issues appended. *)
Definition add_issues (self : ATSChecker) (new : list ATSIssue) : ATSChecker :=
  {| self_issues := self_issues self ++ new;
     self_recommended_actions := self_recommended_actions self |}.

(** What a method returns and which issues it appends when it runs on a
    fresh checker. *)
Definition raised (A : Type) (m : Method A) : list ATSIssue :=
  self_issues (snd (m ATSChecker_init)).

Definition value (A : Type) (m : Method A) : A := fst (m ATSChecker_init).

(** A method that does the same on every checker: it returns [value m]
    and appends [raised m]. *)
Definition pure_check (A : Type) (m : Method A) : Prop :=
  forall self, m self = (value m, add_issues self (raised m)).

(** The nine scores and the nine groups of issues of a run, each check
    taken on its own. *)
Definition check_values (set_iter : list str -> list str) (j : pydict) (t : str)
  : ATSBreakdown :=
  {| file_text_extractable := value (_check_file_text_extractable t);
     layout := value (_check_layout j t);
     headers := value (_check_headers set_iter j t);
     contact := value (_check_contact j t);
     skills := value (_check_skills j t);
     experience := value (_check_experience j t);
     dates := value (_check_dates j t);
     fonts_images := value (_check_fonts_images j t);
     length := value (_check_length t) |}.

Definition check_issues (set_iter : list str -> list str) (j : pydict) (t : str)
  : list (list ATSIssue) :=
  [ raised (_check_file_text_extractable t);
    raised (_check_layout j t);
    raised (_check_headers set_iter j t);
    raised (_check_contact j t);
    raised (_check_skills j t);
    raised (_check_experience j t);
    raised (_check_dates j t);
    raised (_check_fonts_images j t);
    raised (_check_length t) ].

Definition severities : list str := [u "critical"; u "major"; u "minor"].

(** An issue of category [c] with one of the three severities. *)
Definition belongs_to (c : str) (i : ATSIssue) : bool :=
  str_eqb (category i) c && mem (severity i) severities.

(** The severities of the contact issues that go with a contact score. *)
Definition contact_verdict (score : Q) : list str :=
  if Qle_bool score 0 then [u "critical"]
  else if Qltb score 40 then [u "major"]
  else [].

(** For each category, in the order of the checks: its score in a
    breakdown and the score below which the category has an issue. *)
Definition flag_thresholds : list (str * (ATSBreakdown -> Q) * Q) :=
  [ (u "file_text_extractable", file_text_extractable, 100%Q);
    (u "layout", layout, 100%Q);
    (u "headers", headers, 80%Q);
    (u "contact", contact, 40%Q);
    (u "skills", skills, 60%Q);
    (u "experience", experience, 50%Q);
    (u "dates", dates, 60%Q);
    (u "fonts_images", fonts_images, 100%Q);
    (u "length", length, 100%Q) ].

Definition has_issue_in (c : str) (r : ATSReport) : bool :=
  existsb (fun i => str_eqb (category i) c) (issues r).

Definition issues_in (c : str) (r : ATSReport) : list ATSIssue :=
  filter (fun i => str_eqb (category i) c) (issues r).

(** For each category, in the order of the checks: the most issues one
    run can raise in it. *)
Definition check_limits : list (str * nat) :=
  [ (u "file_text_extractable", 1); (u "layout", 3); (u "headers", 1);
    (u "contact", 1); (u "skills", 1); (u "experience", 1); (u "dates", 1);
    (u "fonts_images", 2); (u "length", 1) ].

(** A text that every check marks down as far as it can, and a resume
    that every check marks as high as it can. *)
Definition lowest_scoring_text : str := u "|||||||||||  img©©©©©©".

Definition highest_scoring_text : str :=
  u "contact summary experience education skills jo@ex.io 555-123-4567 python java react sql aws docker git agile scrum django"
    ++ [LF]
    ++ concat (repeat (u "senior engineer in 2020 did nine more words here ok"
                         ++ [LF]) 40).

Definition highest_scoring_json : pydict :=
  [ (u "address", PyStr (u "x"));
    (u "experience", PyList [PyStr (u "x")]) ].

(** Two issues that differ at most in the message of a headers issue. *)
Definition same_but_headers_message (a b : ATSIssue) : Prop :=
  category a = category b
  /\ severity a = severity b
  /\ recommendation a = recommendation b
  /\ (category a <> u "headers" -> message a = message b).

(** A text without a capital letter A-Z. *)
Definition no_capital (s : str) : Prop :=
  Forall (fun c => is_upper_ascii c = false) s.

(** The breakdown of an empty resume, and a better one. *)
Definition poor_breakdown : ATSBreakdown :=
  {| file_text_extractable := 0; layout := 80; headers := 0; contact := 0;
     skills := 0; experience := 0; dates := 0; fonts_images := 100;
     length := 60 |}.

(** A breakdown off the multiples of ten:
    [ATSBreakdown(1.0, 0.0, 0.0, 0.0, 0.0, 0.0, 0.0, 0.0, 0.0)]. *)
Definition one_point_breakdown : ATSBreakdown :=
  {| file_text_extractable := 1; layout := 0; headers := 0; contact := 0;
     skills := 0; experience := 0; dates := 0; fonts_images := 0;
     length := 0 |}.

(** The breakdown of [test_weighted_scoring]. *)
Definition weighted_scoring_breakdown : ATSBreakdown :=
  {| file_text_extractable := 100; layout := 80; headers := 90;
     contact := 70; skills := 85; experience := 75; dates := 60;
     fonts_images := 100; length := 80 |}.

Definition fair_breakdown : ATSBreakdown :=
  {| file_text_extractable := 30; layout := 80; headers := 40; contact := 20;
     skills := 20; experience := 20; dates := 0; fonts_images := 100;
     length := 60 |}.

(** ** Vocabulary of the further properties of the tools *)

(** A result that is a success without an error, or a failure without
    an output. *)
Definition well_formed (r : ToolResult) : Prop :=
  if success r then error r = [] else output r = [].

(** A computation that ends in a well-formed result, never in an
    exception. *)
Definition returns_result (m : IO ToolResult) : Prop :=
  forall tr, exists r tr', m tr = (inr r, tr') /\ well_formed r.

(** The properties the schema of a tool declares, and the keys of a call
    that are not among them. *)
Definition declared_parameters (w : World) (tool : str) : list str :=
  match get_tool w tool with
  | Some d => map fst (properties (parameters d))
  | None => []
  end.

Definition undeclared_keys (w : World) (tool : str) (args : pydict)
  : list str :=
  filter (fun k => negb (mem k (declared_parameters w tool))) (dict_keys args).

(** A call of one of the module-level functions of executor.py, and the
    global instance after a sequence of them in a fresh process. *)
Inductive api_call :=
| CallRunTool (tool : str) (args : pydict) (timeout : Z)
| CallGetExecutor
| CallShutdownExecutor.

Definition api_step (w : World) (instance : option ToolExecutor)
           (c : api_call) : option ToolExecutor :=
  match c with
  | CallRunTool tool args timeout =>
    snd (run_tool w instance tool args timeout)
  | CallGetExecutor => snd (get_executor instance)
  | CallShutdownExecutor => shutdown_executor instance
  end.

Definition after_calls (w : World) (calls : list api_call)
  : option ToolExecutor :=
  fold_left (api_step w) calls None.

Definition is_scheduling_failure (o : outcome) : bool :=
  match o with SchedulingFailure => true | _ => false end.

(** An open or a directory listing that the checks of read_file and
    list_files allow for the argument of the call: of the path the
    argument resolves to, inside the working directory, a regular file of
    at most 1 MiB read as UTF-8, or a directory. *)
Definition permitted (w : World) (argument : pyvalue) (ev : event) : Prop :=
  match ev with
  | EvOpen p enc =>
    enc = UTF8
    /\ exists name st,
         argument = PyStr name
         /\ contains (u "..") name = false
         /\ isabs name = false
         /\ os_resolve w name = inr p
         /\ is_relative_to p (os_getcwd w) = true
         /\ os_stat w p = inr (Some st)
         /\ st_kind st = RegularFile
         /\ (st_size st <= 1024 * 1024)%N
  | EvIterdir p =>
    exists name st,
      argument = PyStr name
      /\ contains (u "..") name = false
      /\ isabs name = false
      /\ os_resolve w name = inr p
      /\ is_relative_to p (os_getcwd w) = true
      /\ os_stat w p = inr (Some st)
      /\ st_kind st = Directory
  | _ => True
  end.

Definition reads_or_lists (ev : event) : bool :=
  match ev with
  | EvOpen _ _ | EvIterdir _ => true
  | _ => false
  end.

(** The order [items.sort()] sorts by. *)
Definition str_le (a b : str) : Prop := str_ltb b a = false.

(** The lines of a listing. *)
Definition DIR_line (name : str) : str := u "DIR:  " ++ name.
Definition FILE_line (name : str) : str := u "FILE: " ++ name.

Definition is_line (x : str) : Prop :=
  exists name, x = DIR_line name \/ x = FILE_line name.

(** A machine where every name is a directory of five entries. *)
Definition listing_world : World :=
  {| py_eval := py_eval demo_world;
     os_getcwd := demo_cwd;
     os_resolve := fun directory => inr (demo_cwd ++ [directory]);
     os_stat := fun _ => inr (Some {| st_kind := Directory; st_size := 0 |});
     os_read := os_read demo_world;
     os_iterdir := fun _ =>
       inr [ (u "b.txt", RegularFile); (u "src", Directory);
             (u "a.txt", RegularFile); (u "socket", OtherKind);
             (u "docs", Directory) ];
     pdf_to_text := pdf_to_text demo_world;
     validation_error_str := validation_error_str demo_world;
     pool_submit_error := pool_submit_error demo_world;
     future_result := future_result demo_world;
     int_max_str_digits := int_max_str_digits demo_world;
     int_max_str_digits_error := int_max_str_digits_error demo_world |}.

(** A call of echo with a keyword echo_tool does not have. *)
Definition echo_call_with_extra : pydict :=
  [(u "text", PyStr (u "x")); (u "colour", PyStr (u "red"))].

(** ** Vocabulary of the properties of pdf_tools.py *)

Definition pdf_methods : list str :=
  [u "pdfminer"; u "pypdf"; u "ocr"; u "error"; u "fallback"].

Definition pdf_confidences : list str := [u "high"; u "medium"; u "low"].

(** There is an error exactly when there is no text, the confidence is
    low exactly then, and method and confidence are among the known
    ones. *)
Definition consistent_result (d : PdfTextDict) : Prop :=
  nonempty (d_text d)
  = match d_error d with None => true | Some _ => false end
  /\ nonempty (d_text d) = negb (str_eqb (d_confidence d) (u "low"))
  /\ In (d_confidence d) pdf_confidences
  /\ In (d_method d) pdf_methods.

(** The [method] entry each extraction function fills in. *)
Definition method_name (m : extraction_method) : str :=
  match m with
  | ByPdfminer => u "pdfminer"
  | ByPypdf => u "pypdf"
  | ByOcr => u "ocr"
  end.

(** The method gave no meaningful text for the file. *)
Definition gave_up (lib : PdfLibraries) (file_path : str)
           (m : extraction_method) : Prop :=
  meaningful (res_text (run_method lib m file_path)) = false.

(* ================================================================= *)
(** * Proof tools *)

Ltac break_if :=
  match goal with
  | |- context [if ?c then _ else _] => destruct c
  end.

Ltac closed_range := unfold in_range; split; vm_compute; discriminate.

Ltac closed_tens :=
  match goal with
  | |- tens ?q =>
    let k := eval vm_compute in (Qfloor q / 10)%Z in
    exists k; vm_compute; reflexivity
  end.

Ltac split_binds :=
  unfold bind, ret, reset_state, get_issues, get_recommended_actions;
  repeat match goal with
         | |- context [let (_, _) := ?m in _] => destruct m
         end.

Ltac run_step lemma :=
  match goal with
  | |- context [let (_, _) := ?c in _] =>
    let F := fresh "F" in
    pose proof lemma as F; destruct c; cbn [fst] in F
  end.

Ltac io_unfold :=
  cbv [io_run io_try io_bind io_ret io_raise io_os io_call io_emit
       read_text path_exists path_is_file path_is_dir path_size].

Ltac settle :=
  repeat match goal with
         | |- context [exn_of_os_failure ?f] => is_var f; destruct f
         end;
  cbn [snd negb exn_of_os_failure caught_by exn_is exn_class_eqb orb app
       forallb inside andb];
  repeat match goal with
         | H : ?b = true |- context [?b] => rewrite H
         end;
  reflexivity.

Ltac refused :=
  do 2 eexists; (split; [reflexivity|]);
  (split; [vm_compute; discriminate | reflexivity]).

(* ================================================================= *)
(** * The patterns are those of the source *)

Example email_pattern_text :
  pattern_text email_pattern
  = u "\b[A-Za-z0-9._%+-]+@[A-Za-z0-9.-]+\.[A-Z|a-z]{2,}\b".
Proof. vm_compute. reflexivity. Qed.

Example phone_pattern_text :
  pattern_text phone_pattern
  = u "(\+?1[-.\s]?)?(\(?[0-9]{3}\)?[-.\s]?[0-9]{3}[-.\s]?[0-9]{4})".
Proof. vm_compute. reflexivity. Qed.

Example location_patterns_text :
  map pattern_text location_patterns
  = [ u "\b[A-Z][a-z]+,\s*[A-Z]{2}\b";
      u "\b[A-Z][a-z]+\s+[A-Z][a-z]+\b";
      u "\b(address|location):\s*[^\n]+\b" ].
Proof. vm_compute. reflexivity. Qed.

Example job_patterns_text :
  map pattern_text job_patterns
  = [ u "\b(at|@)\s+[A-Z][a-zA-Z\s&]+";
      u "\b(software|engineer|developer|manager|analyst|specialist|coordinator|director|lead|senior|junior)\b" ].
Proof. vm_compute. reflexivity. Qed.

Example date_patterns_text :
  map pattern_text date_patterns
  = [ u "\b(19|20)\d{2}\b";
      u "\b(Jan|Feb|Mar|Apr|May|Jun|Jul|Aug|Sep|Oct|Nov|Dec)[a-z]*\s+\d{4}\b";
      u "\b\d{1,2}[/-]\d{4}\b";
      u "\b(January|February|March|April|May|June|July|August|September|October|November|December)\s+\d{4}\b" ].
Proof. vm_compute. reflexivity. Qed.

Example source_literals :
  table_indicators
  = [ [124]; [0x250C]; [0x2510]; [0x2514]; [0x2518]; [0x251C]; [0x2524];
      [0x252C]; [0x2534] ]%N
  /\ special_chars
     = [ [0xA9]; [0xAE]; [0x2122]; [0x25E6]; [0x25AA]; [0x25AB]; [0x25C6];
         [0x25C7]; [0x2605]; [0x2606] ]%N.
Proof. split; vm_compute; reflexivity. Qed.

(* ================================================================= *)
(** * Properties of the ATS checker *)

Lemma round_half_even_comp (x y : Q) :
  (x == y)%Q -> round_half_even x = round_half_even y.
Proof.
  intros E. unfold round_half_even.
  rewrite (Qfloor_comp _ _ E).
  assert (C : ((x - inject_Z (Qfloor y)) ?= (1 # 2))%Q
              = ((y - inject_Z (Qfloor y)) ?= (1 # 2))%Q).
  { apply Qcompare_comp; [rewrite E; reflexivity | reflexivity]. }
  rewrite C. reflexivity.
Qed.

Lemma round_half_even_near (q : Q) :
  (Qabs (inject_Z (round_half_even q) - q) <= 1 # 2)%Q.
Proof.
  unfold round_half_even.
  pose proof (Qfloor_le q) as L. pose proof (Qlt_floor q) as U.
  set (f := Qfloor q) in *.
  rewrite inject_Z_plus in U. change (inject_Z 1) with 1%Q in U.
  destruct (Qcompare_spec (q - inject_Z f) (1 # 2)) as [E|E|E];
    [destruct (Z.even f)| |];
    rewrite ?inject_Z_plus; change (inject_Z 1) with 1%Q;
    generalize dependent (inject_Z f); intros F L U E;
    apply Qabs_Qle_condition; split; lra.
Qed.

Lemma round_half_even_Z (m : Z) : round_half_even (inject_Z m) = m.
Proof.
  unfold round_half_even. rewrite Qfloor_Z.
  assert (E : (inject_Z m - inject_Z m == 0)%Q) by ring.
  rewrite (Qcompare_comp _ _ E _ _ (Qeq_refl (1 # 2))). reflexivity.
Qed.

Lemma round_half_even_monotone (x y : Q) :
  (x <= y)%Q -> (round_half_even x <= round_half_even y)%Z.
Proof.
  intros L.
  destruct (Z_le_gt_dec (round_half_even x) (round_half_even y)) as [H|H];
    [exact H | exfalso].
  pose proof (round_half_even_near x) as Nx.
  pose proof (round_half_even_near y) as Ny.
  apply Qabs_Qle_condition in Nx. apply Qabs_Qle_condition in Ny.
  assert (G : (inject_Z (round_half_even y) + 1
               <= inject_Z (round_half_even x))%Q).
  { change 1%Q with (inject_Z 1). rewrite <- inject_Z_plus.
    rewrite <- Zle_Qle. lia. }
  assert (E : (x == y)%Q).
  { generalize dependent (inject_Z (round_half_even x)).
    generalize dependent (inject_Z (round_half_even y)).
    intros a Ny b Nx G. lra. }
  rewrite (round_half_even_comp E) in H. lia.
Qed.

(** [round_half_even q] is the integer nearest to q, the even one of the
    two when q lies halfway. *)
Lemma round_half_even_spec (q : Q) :
  (Qabs (inject_Z (round_half_even q) - q) < 1 # 2)%Q
  \/ ((Qabs (inject_Z (round_half_even q) - q) == 1 # 2)%Q
      /\ Z.even (round_half_even q) = true).
Proof.
  unfold round_half_even.
  pose proof (Qfloor_le q) as F1. pose proof (Qlt_floor q) as F2.
  rewrite inject_Z_plus in F2. change (inject_Z 1) with 1%Q in F2.
  destruct (Qcompare (q - inject_Z (Qfloor q)) (1 # 2)) eqn:C.
  - apply Qeq_alt in C.
    destruct (Z.even (Qfloor q)) eqn:E.
    + right. split; [|exact E].
      rewrite Qabs_neg by lra. lra.
    + right. split.
      * rewrite inject_Z_plus. change (inject_Z 1) with 1%Q.
        rewrite Qabs_pos by lra. lra.
      * rewrite Z.even_add, E. reflexivity.
  - apply Qlt_alt in C. left. apply Qabs_Qlt_condition. split; lra.
  - apply Qgt_alt in C. left. rewrite inject_Z_plus.
    change (inject_Z 1) with 1%Q. apply Qabs_Qlt_condition. split; lra.
Qed.

Lemma round_half_even_unique (q : Q) (n : Z) :
  (Qabs (inject_Z n - q) < 1 # 2)%Q
  \/ ((Qabs (inject_Z n - q) == 1 # 2)%Q /\ Z.even n = true) ->
  round_half_even q = n.
Proof.
  intros H. pose proof (round_half_even_spec q) as S.
  set (m := round_half_even q) in *.
  assert (D : forall a b : Z,
             (inject_Z a - inject_Z b < 1)%Q -> (a - b < 1)%Z).
  { intros a b L. rewrite Zlt_Qlt. unfold Zminus.
    rewrite inject_Z_plus, inject_Z_opp. exact L. }
  assert (D1 : forall a b : Z,
             (inject_Z a - inject_Z b <= 1)%Q -> (a - b <= 1)%Z).
  { intros a b L. rewrite Zle_Qle. unfold Zminus.
    rewrite inject_Z_plus, inject_Z_opp. exact L. }
  destruct H as [H|[H En]], S as [S|[S Em]].
  - apply Qabs_Qlt_condition in H, S.
    assert (A : (m - n < 1)%Z) by (apply D; lra).
    assert (B : (n - m < 1)%Z) by (apply D; lra). lia.
  - apply Qabs_Qlt_condition in H.
    assert (S' : (Qabs (inject_Z m - q) <= 1 # 2)%Q) by (rewrite S; apply Qle_refl).
    apply Qabs_Qle_condition in S'.
    assert (A : (m - n < 1)%Z) by (apply D; lra).
    assert (B : (n - m < 1)%Z) by (apply D; lra). lia.
  - apply Qabs_Qlt_condition in S.
    assert (H' : (Qabs (inject_Z n - q) <= 1 # 2)%Q) by (rewrite H; apply Qle_refl).
    apply Qabs_Qle_condition in H'.
    assert (A : (m - n < 1)%Z) by (apply D; lra).
    assert (B : (n - m < 1)%Z) by (apply D; lra). lia.
  - assert (S' : (Qabs (inject_Z m - q) <= 1 # 2)%Q) by (rewrite S; apply Qle_refl).
    assert (H' : (Qabs (inject_Z n - q) <= 1 # 2)%Q) by (rewrite H; apply Qle_refl).
    apply Qabs_Qle_condition in S', H'.
    assert (A : (m - n <= 1)%Z) by (apply D1; lra).
    assert (B : (n - m <= 1)%Z) by (apply D1; lra).
    destruct (Z.eq_dec m n) as [E|NE]; [exact E|exfalso].
    assert (O : m = (n + 1)%Z \/ n = (m + 1)%Z) by lia.
    destruct O as [O|O]; rewrite O in *.
    + rewrite Z.even_add, En in Em. discriminate Em.
    + rewrite Z.even_add, Em in En. discriminate En.
Qed.

Lemma round_half_even_opp (q : Q) :
  round_half_even (- q) = (- round_half_even q)%Z.
Proof.
  apply round_half_even_unique.
  assert (E : (Qabs (inject_Z (- round_half_even q) - - q)
               == Qabs (inject_Z (round_half_even q) - q))%Q).
  { rewrite inject_Z_opp, <- (Qabs_opp (inject_Z (round_half_even q) - q)).
    apply Qabs_wd. ring. }
  rewrite E, Z.even_opp. apply round_half_even_spec.
Qed.

(** ** Rounding to the nearest double *)

Lemma pow2_pos (e : Z) : (0 < 2 ^ e)%Q.
Proof. apply Qpower_0_lt. reflexivity. Qed.

Lemma pow2_inject (n : Z) : (0 <= n)%Z -> (inject_Z (2 ^ n) == 2 ^ n)%Q.
Proof. intros H. rewrite Zpower_Qpower by exact H. reflexivity. Qed.

Lemma pow2_plus (n m : Z) : (2 ^ (n + m) == 2 ^ n * 2 ^ m)%Q.
Proof. apply Qpower_plus. discriminate. Qed.

Lemma pow2_le (n m : Z) : (n <= m)%Z -> (2 ^ n <= 2 ^ m)%Q.
Proof. intros H. apply Qpower_le_compat_l; [exact H | discriminate]. Qed.

Lemma pow2_lt_inv (n m : Z) : (2 ^ n < 2 ^ m)%Q -> (n < m)%Z.
Proof. intros H. apply Qpower_lt_compat_l_inv with (q := 2%Q); [exact H | reflexivity]. Qed.

Lemma binade_comp (x y : Q) : (x == y)%Q -> binade x = binade y.
Proof.
  intros E. unfold binade.
  assert (A : (Qabs x == Qabs y)%Q) by (rewrite E; reflexivity).
  assert (B : Qle_bool 1 (Qabs x) = Qle_bool 1 (Qabs y)).
  { destruct (Qle_bool 1 (Qabs x)) eqn:P, (Qle_bool 1 (Qabs y)) eqn:R;
      try reflexivity.
    - rewrite Qle_bool_iff in P. rewrite A, <- Qle_bool_iff in P. congruence.
    - rewrite Qle_bool_iff in R. rewrite <- A, <- Qle_bool_iff in R.
      congruence. }
  rewrite B. destruct (Qle_bool 1 (Qabs y)).
  - rewrite (Qfloor_comp _ _ A). reflexivity.
  - assert (C : (/ Qabs x == / Qabs y)%Q) by (rewrite A; reflexivity).
    rewrite (Qceiling_comp _ _ C). reflexivity.
Qed.

Lemma binade_opp (q : Q) : binade (- q) = binade q.
Proof.
  unfold binade.
  assert (A : Qabs (- q) = Qabs q).
  { destruct q as [n d]. unfold Qabs, Qopp. cbn. rewrite Z.abs_opp.
    reflexivity. }
  rewrite A. reflexivity.
Qed.

(** [binade q] is the exponent of the power of two at or below |q|. *)
Lemma binade_spec (q : Q) :
  ~ (q == 0)%Q ->
  (2 ^ binade q <= Qabs q)%Q /\ (Qabs q < 2 ^ (binade q + 1))%Q.
Proof.
  intros NZ. unfold binade.
  assert (P : (0 < Qabs q)%Q).
  { destruct (Qlt_le_dec 0 (Qabs q)) as [H|H]; [exact H|].
    exfalso. apply NZ.
    pose proof (Qabs_nonneg q) as H0.
    assert (E : (Qabs q == 0)%Q) by (apply Qle_antisym; assumption).
    revert E. apply Qabs_case; intros ? E; lra. }
  generalize dependent (Qabs q). intros a P.
  destruct (Qle_bool 1 a) eqn:C.
  - rewrite Qle_bool_iff in C.
    pose proof (Qfloor_le a) as F1. pose proof (Qlt_floor a) as F2.
    assert (N : (1 <= Qfloor a)%Z).
    { change 1%Z with (Qfloor 1). apply Qfloor_resp_le. exact C. }
    pose proof (Z.log2_spec (Qfloor a) ltac:(lia)) as [L1 L2].
    pose proof (Z.log2_nonneg (Qfloor a)) as L0.
    rewrite Zle_Qle, pow2_inject in L1 by exact L0.
    assert (L3 : (Qfloor a + 1 <= 2 ^ Z.succ (Z.log2 (Qfloor a)))%Z) by lia.
    rewrite Zle_Qle, pow2_inject in L3 by lia.
    unfold Z.succ in L3. split; lra.
  - assert (C' : (a < 1)%Q).
    { destruct (Qlt_le_dec a 1) as [H|H]; [exact H|].
      rewrite <- Qle_bool_iff in H. congruence. }
    clear C.
    assert (R : (a * / a == 1)%Q) by (field; lra).
    assert (R0 : (0 < / a)%Q) by (apply Qinv_lt_0_compat; exact P).
    assert (R1 : (1 < / a)%Q).
    { apply Qlt_shift_inv_l; lra. }
    generalize dependent (/ a)%Q. intros r R R0 R1.
    pose proof (Qle_ceiling r) as F1. pose proof (Qceiling_lt r) as F2.
    assert (N : (1 < Qceiling r)%Z).
    { rewrite Zlt_Qlt. change (inject_Z 1) with 1%Q. lra. }
    pose proof (Z.log2_up_spec (Qceiling r) N) as [L1 L2].
    pose proof (Z.log2_up_pos (Qceiling r) N) as L0.
    set (k := Z.log2_up (Qceiling r)) in *.
    rewrite Zle_Qle, pow2_inject in L2 by lia.
    assert (L3 : (2 ^ Z.pred k <= Qceiling r - 1)%Z) by lia.
    rewrite Zle_Qle, pow2_inject in L3 by lia.
    pose proof (pow2_pos k) as K1. pose proof (pow2_pos (Z.pred k)) as K2.
    split.
    + rewrite Qpower_opp. apply Qle_shift_inv_r; [exact K1|].
      assert (M : (a * r <= a * 2 ^ k)%Q).
      { apply Qmult_le_l; [exact P | lra]. }
      lra.
    + replace (- k + 1)%Z with (- Z.pred k)%Z by lia.
      rewrite Qpower_opp. apply Qlt_shift_inv_l; [exact K2|].
      assert (M : (a * 2 ^ Z.pred k < a * r)%Q).
      { apply Qmult_lt_l; [exact P | lra]. }
      lra.
Qed.

Lemma ulp_exponent_comp (x y : Q) :
  (x == y)%Q -> ulp_exponent x = ulp_exponent y.
Proof. intros E. unfold ulp_exponent. rewrite (binade_comp E). reflexivity. Qed.

Lemma binary64_comp (x y : Q) : (x == y)%Q -> binary64 x = binary64 y.
Proof.
  intros E. unfold binary64. rewrite (ulp_exponent_comp E).
  rewrite (@round_half_even_comp (x / 2 ^ ulp_exponent y)
                                 (y / 2 ^ ulp_exponent y));
    [reflexivity|].
  rewrite E. reflexivity.
Qed.

Lemma binary64_opp (q : Q) : (binary64 (- q) == - binary64 q)%Q.
Proof.
  unfold binary64, ulp_exponent. rewrite binade_opp.
  set (e := Z.max (binade q - 52) (-1074)).
  rewrite (@round_half_even_comp (- q / 2 ^ e) (- (q / 2 ^ e)));
    [| unfold Qdiv; ring].
  rewrite round_half_even_opp, inject_Z_opp. ring.
Qed.

Lemma binary64_nonneg (q : Q) : (0 <= q)%Q -> (0 <= binary64 q)%Q.
Proof.
  intros H. unfold binary64.
  pose proof (pow2_pos (ulp_exponent q)) as P.
  apply Qmult_le_0_compat; [|lra].
  change 0%Q with (inject_Z 0). rewrite <- Zle_Qle.
  rewrite <- (round_half_even_Z 0). apply round_half_even_monotone.
  change (inject_Z 0) with 0%Q.
  apply Qle_shift_div_l; [exact P | lra].
Qed.

Lemma binary64_le_pow2 (x : Q) (k : Z) :
  (x <= 2 ^ k)%Q -> (ulp_exponent x <= k)%Z -> (binary64 x <= 2 ^ k)%Q.
Proof.
  intros L E. unfold binary64. set (e := ulp_exponent x) in *.
  pose proof (pow2_pos e) as P.
  assert (S : (2 ^ k == inject_Z (2 ^ (k - e)) * 2 ^ e)%Q).
  { rewrite pow2_inject by lia. rewrite <- pow2_plus.
    replace (k - e + e)%Z with k by lia. reflexivity. }
  rewrite S. apply Qmult_le_compat_r; [|lra].
  rewrite <- Zle_Qle.
  rewrite <- (round_half_even_Z (2 ^ (k - e))).
  apply round_half_even_monotone.
  apply Qle_shift_div_r; [exact P|]. rewrite <- S. exact L.
Qed.

Lemma binary64_ge_pow2 (y : Q) (k : Z) :
  (2 ^ k <= y)%Q -> (ulp_exponent y <= k)%Z -> (2 ^ k <= binary64 y)%Q.
Proof.
  intros L E. unfold binary64. set (e := ulp_exponent y) in *.
  pose proof (pow2_pos e) as P.
  assert (S : (2 ^ k == inject_Z (2 ^ (k - e)) * 2 ^ e)%Q).
  { rewrite pow2_inject by lia. rewrite <- pow2_plus.
    replace (k - e + e)%Z with k by lia. reflexivity. }
  rewrite S. apply Qmult_le_compat_r; [|lra].
  rewrite <- Zle_Qle.
  rewrite <- (round_half_even_Z (2 ^ (k - e))).
  apply round_half_even_monotone.
  apply Qle_shift_div_l; [exact P|]. rewrite <- S. exact L.
Qed.

Lemma binary64_monotone_pos (x y : Q) :
  (0 < x)%Q -> (x <= y)%Q -> (binary64 x <= binary64 y)%Q.
Proof.
  intros P L.
  assert (NX : ~ (x == 0)%Q) by lra.
  assert (NY : ~ (y == 0)%Q) by lra.
  pose proof (binade_spec NX) as [X1 X2].
  pose proof (binade_spec NY) as [Y1 Y2].
  rewrite Qabs_pos in X1, X2, Y1, Y2 by lra.
  assert (B : (binade x <= binade y)%Z).
  { assert (T : (2 ^ binade x < 2 ^ (binade y + 1))%Q) by lra.
    apply pow2_lt_inv in T. lia. }
  destruct (Z.eq_dec (ulp_exponent x) (ulp_exponent y)) as [E|NE].
  - unfold binary64. rewrite E. set (e := ulp_exponent y).
    pose proof (pow2_pos e) as Pe.
    apply Qmult_le_compat_r; [|lra].
    rewrite <- Zle_Qle. apply round_half_even_monotone.
    apply Qmult_le_compat_r; [exact L|].
    apply Qinv_le_0_compat. lra.
  - assert (U : (ulp_exponent x <= binade y - 53)%Z
                /\ ulp_exponent y = (binade y - 52)%Z)
      by (unfold ulp_exponent in *; lia).
    destruct U as [U1 U2].
    apply Qle_trans with (2 ^ binade y)%Q.
    + apply binary64_le_pow2; [|lia].
      assert (T : (2 ^ (binade x + 1) <= 2 ^ binade y)%Q).
      { apply pow2_le. unfold ulp_exponent in *. lia. }
      lra.
    + apply binary64_ge_pow2; [exact Y1 | lia].
Qed.

(** Rounding to the nearest double is monotone. *)
Lemma binary64_monotone (x y : Q) :
  (x <= y)%Q -> (binary64 x <= binary64 y)%Q.
Proof.
  intros L.
  destruct (Qlt_le_dec 0 x) as [P|N].
  - apply binary64_monotone_pos; assumption.
  - destruct (Qlt_le_dec y 0) as [P'|N'].
    + assert (M : (binary64 (- y) <= binary64 (- x))%Q)
        by (apply binary64_monotone_pos; lra).
      rewrite !binary64_opp in M. lra.
    + pose proof (binary64_nonneg N') as A.
      assert (B : (0 <= binary64 (- x))%Q) by (apply binary64_nonneg; lra).
      rewrite binary64_opp in B. lra.
Qed.

(** A double is at most half a unit in the last place away. *)
Lemma binary64_near_ulp (q : Q) :
  (Qabs (binary64 q - q) <= 2 ^ (ulp_exponent q - 1))%Q.
Proof.
  unfold binary64. set (e := ulp_exponent q).
  pose proof (pow2_pos e) as P.
  pose proof (round_half_even_near (q / 2 ^ e)) as H.
  assert (E : (inject_Z (round_half_even (q / 2 ^ e)) * 2 ^ e - q
               == (inject_Z (round_half_even (q / 2 ^ e)) - q / 2 ^ e)
                  * 2 ^ e)%Q) by (field; lra).
  rewrite E, Qabs_Qmult, (Qabs_pos (2 ^ e)) by lra.
  unfold Zminus. rewrite pow2_plus. change (2 ^ (-1))%Q with (1 # 2)%Q.
  rewrite (Qmult_comm (2 ^ e)).
  apply Qmult_le_compat_r; [exact H | lra].
Qed.

Lemma binary64_near (q : Q) (k : Z) :
  (-1021 <= k)%Z -> (Qabs q < 2 ^ k)%Q ->
  (Qabs (binary64 q - q) <= 2 ^ (k - 54))%Q.
Proof.
  intros K L.
  destruct (Qeq_dec q 0) as [Z0|NZ].
  - rewrite (binary64_comp Z0).
    assert (E : (binary64 0 - q == 0)%Q) by (rewrite Z0; reflexivity).
    rewrite E. pose proof (pow2_pos (k - 54)) as P. cbn. lra.
  - pose proof (binade_spec NZ) as [B1 _].
    assert (B : (binade q < k)%Z) by (apply pow2_lt_inv; lra).
    eapply Qle_trans; [apply binary64_near_ulp|].
    apply pow2_le. unfold ulp_exponent. lia.
Qed.

Lemma ulp_exponent_le (x : Q) (k : Z) :
  (Qabs x <= 2 ^ k)%Q -> (-52 <= k)%Z -> (ulp_exponent x <= k)%Z.
Proof.
  intros L K. unfold ulp_exponent.
  destruct (Qeq_dec x 0) as [Z0|NZ].
  - rewrite (binade_comp Z0). change (binade 0) with 0%Z. lia.
  - destruct (binade_spec NZ) as [B _].
    assert (T : (2 ^ binade x <= 2 ^ k)%Q) by lra.
    apply Qpower_le_compat_l_inv in T; [lia | reflexivity].
Qed.

Lemma binary64_pow2_bound (x : Q) (k : Z) :
  (0 <= x)%Q -> (x <= 2 ^ k)%Q -> (-52 <= k)%Z -> (binary64 x <= 2 ^ k)%Q.
Proof.
  intros P L K. apply binary64_le_pow2; [exact L|].
  apply ulp_exponent_le; [|exact K]. rewrite Qabs_pos; assumption.
Qed.

(** The product of a length with a float of at most 1/8 stays below the
    next whole number. *)
Lemma int_times_float_below (n : nat) (x : Q) :
  (0 <= x)%Q -> (x <= 1 # 8)%Q -> (int_times_float n x < Qnat n + 1)%Q.
Proof.
  intros X0 X1. unfold int_times_float, fmul.
  assert (N0 : (0 <= Qnat n)%Q).
  { unfold Qnat. change 0%Q with (inject_Z 0). rewrite <- Zle_Qle. lia. }
  destruct (Qeq_dec (Qnat n) 0) as [Z0|NZ].
  - rewrite (binary64_comp Z0).
    assert (E : (binary64 0 * x == 0)%Q) by (vm_compute; reflexivity).
    rewrite (binary64_comp E), Z0. vm_compute. reflexivity.
  - destruct (binade_spec NZ) as [B1 B2].
    rewrite Qabs_pos in B1, B2 by exact N0.
    set (E := binade (Qnat n)) in *.
    assert (E0 : (0 <= E)%Z).
    { assert (I : (1 <= Qnat n)%Q).
      { unfold Qnat in *. change 1%Q with (inject_Z 1).
        rewrite <- Zle_Qle.
        assert (Z.of_nat n <> 0)%Z; [|lia].
        intros C. apply NZ. rewrite C. reflexivity. }
      assert (T : (2 ^ 0 < 2 ^ (E + 1))%Q)
        by (change (2 ^ 0)%Q with 1%Q; lra).
      apply pow2_lt_inv in T. lia. }
    assert (A1 : (binary64 (Qnat n) <= 2 ^ (E + 1))%Q)
      by (apply binary64_pow2_bound; [exact N0 | lra | lia]).
    pose proof (binary64_nonneg N0) as A0.
    set (a := binary64 (Qnat n)) in *.
    pose proof (pow2_pos (E - 2)) as P.
    assert (S : (2 ^ (E + 1) == 2 ^ (E - 2) * 8)%Q).
    { replace (E + 1)%Z with (E - 2 + 3)%Z by lia. rewrite pow2_plus.
      reflexivity. }
    assert (M : (a * x <= a * (1 # 8))%Q).
    { rewrite (Qmult_comm a x), (Qmult_comm a (1 # 8)).
      apply Qmult_le_compat_r; assumption. }
    assert (M0 : (0 <= a * x)%Q) by (apply Qmult_le_0_compat; assumption).
    assert (F : (binary64 (a * x) <= 2 ^ (E - 2))%Q)
      by (apply binary64_pow2_bound; [exact M0 | lra | lia]).
    assert (L : (2 ^ (E - 2) <= 2 ^ E)%Q) by (apply pow2_le; lia).
    lra.
Qed.

(** ** The weighted sum in floating point *)

Lemma round1_monotone (x y : Q) : (x <= y)%Q -> (round1 x <= round1 y)%Q.
Proof.
  intros L. unfold round1. apply binary64_monotone.
  assert (M : (x * 10 <= y * 10)%Q) by lra.
  apply round_half_even_monotone in M. rewrite Zle_Qle in M.
  generalize dependent (inject_Z (round_half_even (x * 10))).
  generalize dependent (inject_Z (round_half_even (y * 10))).
  intros a b M. unfold Qdiv. change (/ 10)%Q with (1 # 10)%Q. lra.
Qed.

(** Where q is not within 1/10^11 of the middle between two tenths,
    [round(x, 1)] of a float x within 1/10^12 of q is the double nearest
    to q rounded to one decimal place. *)
Lemma round1_off_the_middle (x q : Q) (m : Z) :
  (Qabs (q * 10 - inject_Z m) <= (1 # 2) - (1 # 10000000000))%Q ->
  (Qabs (x - q) <= 1 # 1000000000000)%Q ->
  round_half_even (q * 10) = m /\ round1 x = binary64 (inject_Z m / 10).
Proof.
  intros M N. unfold round1.
  apply Qabs_Qle_condition in N. apply Qabs_Qle_condition in M.
  assert (R : round_half_even (x * 10) = m).
  { apply round_half_even_unique. left.
    apply Qabs_Qlt_condition. split; lra. }
  split; [|rewrite R; reflexivity].
  apply round_half_even_unique. left.
  apply Qabs_Qlt_condition. split; lra.
Qed.

(** [round(x, 1)] of a float within 1/10^12 of a whole number of
    tenths is the double nearest to that number. *)
Lemma round1_of_tenths (x q : Q) (m : Z) :
  (q * 10 == inject_Z m)%Q -> (Qabs (x - q) <= 1 # 1000000000000)%Q ->
  round1 x = binary64 q.
Proof.
  intros M N.
  assert (A : (Qabs (q * 10 - inject_Z m)
               <= (1 # 2) - (1 # 10000000000))%Q).
  { apply Qabs_Qle_condition. rewrite M. split; lra. }
  destruct (round1_off_the_middle A N) as [_ R].
  rewrite R. apply binary64_comp. rewrite <- M. field.
Qed.

(** The doubles that the nine weights are. *)
Lemma WEIGHTS_values :
  WEIGHTS_get (u "file_text_extractable")
  = (5404319552844595 # 36028797018963968)%Q
  /\ WEIGHTS_get (u "layout") = (5404319552844595 # 36028797018963968)%Q
  /\ WEIGHTS_get (u "headers") = (8646911284551352 # 72057594037927936)%Q
  /\ WEIGHTS_get (u "contact") = (7205759403792794 # 72057594037927936)%Q
  /\ WEIGHTS_get (u "skills") = (5404319552844595 # 36028797018963968)%Q
  /\ WEIGHTS_get (u "experience") = (5404319552844595 # 36028797018963968)%Q
  /\ WEIGHTS_get (u "dates") = (5764607523034235 # 72057594037927936)%Q
  /\ WEIGHTS_get (u "fonts_images")
     = (7205759403792794 # 144115188075855872)%Q
  /\ WEIGHTS_get (u "length") = (7205759403792794 # 144115188075855872)%Q.
Proof. repeat split; vm_compute; reflexivity. Qed.

Lemma fmul_monotone (s s' w : Q) :
  (0 <= w)%Q -> (s <= s')%Q -> (fmul s w <= fmul s' w)%Q.
Proof.
  intros W L. apply binary64_monotone. apply Qmult_le_compat_r; assumption.
Qed.

Lemma fadd_monotone (a a' b b' : Q) :
  (a <= a')%Q -> (b <= b')%Q -> (fadd a b <= fadd a' b')%Q.
Proof. intros A B. apply binary64_monotone. lra. Qed.

Lemma fmul_near (s w : Q) :
  in_range s -> (0 <= w)%Q -> (w <= 31 # 200)%Q ->
  (Qabs (fmul s w - s * w) <= 2 ^ (-50))%Q.
Proof.
  intros [S0 S1] W0 W1. apply (@binary64_near (s * w) 4); [lia|].
  assert (A : (0 <= s * w)%Q) by (apply Qmult_le_0_compat; assumption).
  assert (B : (s * w <= 100 * w)%Q)
    by (apply Qmult_le_compat_r; assumption).
  rewrite Qabs_pos by exact A. change (2 ^ 4)%Q with 16%Q. lra.
Qed.

Lemma fadd_near (a b : Q) :
  (Qabs (a + b) < 128)%Q -> (Qabs (fadd a b - (a + b)) <= 2 ^ (-47))%Q.
Proof. intros H. apply (@binary64_near (a + b) 7); [lia | exact H]. Qed.

Ltac step_fmul s W :=
  let P := fresh "P" in
  let p := fresh "p" in
  match goal with
  | R : in_range s |- _ =>
    assert (P : (Qabs (fmul s W - s * W) <= 2 ^ (-50))%Q)
      by (apply fmul_near; [exact R | discriminate | discriminate]);
    apply Qabs_Qle_condition in P;
    change (2 ^ (-50))%Q with (1 # 1125899906842624)%Q in P;
    set (p := fmul s W) in *
  end.

Ltac step_fadd a b :=
  let T := fresh "T" in
  let t := fresh "t" in
  assert (T : (Qabs (fadd a b - (a + b)) <= 2 ^ (-47))%Q)
    by (apply fadd_near; apply Qabs_Qlt_condition; split; lra);
  apply Qabs_Qle_condition in T;
  change (2 ^ (-47))%Q with (1 # 140737488355328)%Q in T;
  set (t := fadd a b) in *.

(** The sum formed in floating point is within 1/10^12 of the dot product
    with the weights of the specification. *)
Lemma weighted_sum_error (b : ATSBreakdown) :
  Forall in_range (breakdown_scores b) ->
  exists total_score : Q,
    _calculate_overall_score b = round1 total_score
    /\ (Qabs (total_score - dot_product (breakdown_scores b) stated_weights)
        <= 1 # 1000000000000)%Q.
Proof.
  unfold breakdown_scores. intros H.
  inversion_clear H as [|? ? R1 H1]. inversion_clear H1 as [|? ? R2 H2].
  inversion_clear H2 as [|? ? R3 H3]. inversion_clear H3 as [|? ? R4 H4].
  inversion_clear H4 as [|? ? R5 H5]. inversion_clear H5 as [|? ? R6 H6].
  inversion_clear H6 as [|? ? R7 H7]. inversion_clear H7 as [|? ? R8 H8].
  inversion_clear H8 as [|? ? R9 _].
  unfold _calculate_overall_score. cbv zeta.
  destruct WEIGHTS_values as (W1 & W2 & W3 & W4 & W5 & W6 & W7 & W8 & W9).
  rewrite W1, W2, W3, W4, W5, W6, W7, W8, W9.
  clear W1 W2 W3 W4 W5 W6 W7 W8 W9.
  eexists. split; [reflexivity|].
  cbn [dot_product stated_weights].
  generalize dependent (file_text_extractable b). intros s1 R1.
  generalize dependent (layout b). intros s2 R2.
  generalize dependent (headers b). intros s3 R3.
  generalize dependent (contact b). intros s4 R4.
  generalize dependent (skills b). intros s5 R5.
  generalize dependent (experience b). intros s6 R6.
  generalize dependent (dates b). intros s7 R7.
  generalize dependent (fonts_images b). intros s8 R8.
  generalize dependent (length b). intros s9 R9.
  step_fmul s1 (5404319552844595 # 36028797018963968)%Q.
  step_fmul s2 (5404319552844595 # 36028797018963968)%Q.
  step_fmul s3 (8646911284551352 # 72057594037927936)%Q.
  step_fmul s4 (7205759403792794 # 72057594037927936)%Q.
  step_fmul s5 (5404319552844595 # 36028797018963968)%Q.
  step_fmul s6 (5404319552844595 # 36028797018963968)%Q.
  step_fmul s7 (5764607523034235 # 72057594037927936)%Q.
  step_fmul s8 (7205759403792794 # 144115188075855872)%Q.
  step_fmul s9 (7205759403792794 # 144115188075855872)%Q.
  unfold in_range in *.
  step_fadd 0%Q p. step_fadd t p0. step_fadd t0 p1. step_fadd t1 p2.
  step_fadd t2 p3. step_fadd t3 p4. step_fadd t4 p5. step_fadd t5 p6.
  step_fadd t6 p7.
  apply Qabs_Qle_condition. split; lra.
Qed.

Lemma run_report set_iter resume_json raw_text self :
  let r := fst (ATSChecker_run_ats_checks set_iter resume_json raw_text self) in
  score r = _calculate_overall_score (breakdown r)
  /\ confidence r
     = _determine_confidence (breakdown r)
                             (List.length (text_or_empty raw_text)).
Proof.
  unfold ATSChecker_run_ats_checks. split_binds.
  cbv zeta. cbn [fst score confidence breakdown].
  split; reflexivity.
Qed.

Lemma Qsum_stated_weights : (Qsum stated_weights == 1)%Q.
Proof. reflexivity. Qed.

Lemma py_min_100_range (s : Q) : (0 <= s)%Q -> in_range (py_min 100 s).
Proof.
  intros H. unfold py_min, Qltb, in_range.
  destruct (Qle_bool 100 s) eqn:E; cbn [negb].
  - split; [vm_compute; discriminate | apply Qle_refl].
  - split; [exact H|].
    destruct (Qlt_le_dec s 100) as [L|L]; [apply Qlt_le_weak; exact L|].
    apply Qle_bool_iff in L. congruence.
Qed.

Lemma py_max_0_range (s : Q) : (s <= 100)%Q -> in_range (py_max 0 s).
Proof.
  intros H. unfold py_max, Qltb, in_range.
  destruct (Qle_bool s 0) eqn:E; cbn [negb].
  - split; [apply Qle_refl | vm_compute; discriminate].
  - split; [|exact H].
    destruct (Qlt_le_dec 0 s) as [L|L]; [apply Qlt_le_weak; exact L|].
    apply Qle_bool_iff in L. congruence.
Qed.

Lemma contact_scan_keys_nonneg keys resume_json found (sc : Q) :
  (0 <= sc)%Q ->
  (0 <= snd (contact_scan_keys keys resume_json found sc))%Q.
Proof.
  revert found sc.
  induction keys as [|key keys IH]; intros found sc H; cbn [contact_scan_keys snd].
  - exact H.
  - repeat break_if; apply IH; lra.
Qed.

Lemma file_text_extractable_range raw_text self :
  in_range (fst (_check_file_text_extractable raw_text self)).
Proof.
  unfold _check_file_text_extractable, bind, ret, issues_append.
  repeat break_if; cbn [fst]; closed_range.
Qed.

Lemma layout_range resume_json raw_text self :
  in_range (fst (_check_layout resume_json raw_text self)).
Proof.
  unfold _check_layout, bind, ret, issues_append.
  repeat break_if; cbn [fst]; closed_range.
Qed.

Lemma headers_range set_iter resume_json raw_text self :
  in_range (fst (_check_headers set_iter resume_json raw_text self)).
Proof.
  unfold _check_headers, bind, ret, issues_append.
  repeat break_if; cbn [fst]; closed_range.
Qed.

Lemma contact_range resume_json raw_text self :
  in_range (fst (_check_contact resume_json raw_text self)).
Proof.
  unfold _check_contact.
  set (c1 := (0 <? re_findall_count false email_pattern raw_text)%nat).
  set (c2 := (0 <? re_findall_count false phone_pattern raw_text)%nat).
  set (c3 := existsb _ location_patterns).
  destruct c1, c2, c3; cbv beta iota zeta;
    (destruct (dict_truthy resume_json);
     [ match goal with
       | |- context [contact_scan_keys ?k ?j ?f ?s] =>
         assert (K : (0 <= snd (contact_scan_keys k j f s))%Q)
           by (apply contact_scan_keys_nonneg; vm_compute; discriminate);
         destruct (contact_scan_keys k j f s) as [cf s']
       end;
       cbn [snd] in K; unfold bind, ret, issues_append;
       destruct cf; [|break_if]; cbn [fst]; apply py_min_100_range; exact K
     | unfold bind, ret, issues_append; cbn [app List.length Nat.ltb Nat.leb];
       cbv iota; cbn [fst]; apply py_min_100_range; vm_compute; discriminate ]).
Qed.

Lemma skills_range resume_json raw_text self :
  in_range (fst (_check_skills resume_json raw_text self)).
Proof.
  unfold _check_skills, bind, ret, issues_append.
  repeat break_if; cbn [fst]; closed_range.
Qed.

Lemma experience_range resume_json raw_text self :
  in_range (fst (_check_experience resume_json raw_text self)).
Proof.
  unfold _check_experience, bind, ret, issues_append.
  repeat break_if; cbn [fst]; closed_range.
Qed.

Lemma dates_range resume_json raw_text self :
  in_range (fst (_check_dates resume_json raw_text self)).
Proof.
  unfold _check_dates, bind, ret, issues_append.
  repeat break_if; cbn [fst]; closed_range.
Qed.

Lemma fonts_images_range resume_json raw_text self :
  in_range (fst (_check_fonts_images resume_json raw_text self)).
Proof.
  unfold _check_fonts_images, bind, ret, issues_append.
  repeat break_if; cbn [fst]; closed_range.
Qed.

Lemma length_range raw_text self :
  in_range (fst (_check_length raw_text self)).
Proof.
  unfold _check_length, bind, ret, issues_append.
  repeat break_if; cbn [fst]; closed_range.
Qed.

(** C2.  Whatever the resume mapping, the raw text and the state of the
    checker, each of the nine category checks returns a score between 0
    and 100. *)
Theorem category_scores_in_range :
  forall (set_iter : list str -> list str) (resume_json : pydict)
         (raw_text : str) (self : ATSChecker),
    in_range (fst (_check_file_text_extractable raw_text self))
    /\ in_range (fst (_check_layout resume_json raw_text self))
    /\ in_range (fst (_check_headers set_iter resume_json raw_text self))
    /\ in_range (fst (_check_contact resume_json raw_text self))
    /\ in_range (fst (_check_skills resume_json raw_text self))
    /\ in_range (fst (_check_experience resume_json raw_text self))
    /\ in_range (fst (_check_dates resume_json raw_text self))
    /\ in_range (fst (_check_fonts_images resume_json raw_text self))
    /\ in_range (fst (_check_length raw_text self)).
Proof.
  intros.
  split; [apply file_text_extractable_range|].
  split; [apply layout_range|].
  split; [apply headers_range|].
  split; [apply contact_range|].
  split; [apply skills_range|].
  split; [apply experience_range|].
  split; [apply dates_range|].
  split; [apply fonts_images_range|].
  apply length_range.
Qed.

(** C3.  The confidence of a report is decided by the length of the raw
    text alone: below 200 characters it is low, from 200 to 499 medium,
    from 500 on high; two runs on texts of the same length give the same
    confidence, whatever else differs. *)
Theorem confidence_from_length :
  forall (set_iter : list str -> list str) (resume_json : option pydict)
         (raw_text : option str) (self : ATSChecker),
    (List.length (text_or_empty raw_text) < 200 ->
     confidence (fst (ATSChecker_run_ats_checks set_iter resume_json
                                                raw_text self)) = LOW)
    /\ (200 <= List.length (text_or_empty raw_text) < 500 ->
        confidence (fst (ATSChecker_run_ats_checks set_iter resume_json
                                                   raw_text self)) = MEDIUM)
    /\ (500 <= List.length (text_or_empty raw_text) ->
        confidence (fst (ATSChecker_run_ats_checks set_iter resume_json
                                                   raw_text self)) = HIGH)
    /\ (forall (set_iter' : list str -> list str)
               (resume_json' : option pydict) (raw_text' : option str)
               (self' : ATSChecker),
           List.length (text_or_empty raw_text')
           = List.length (text_or_empty raw_text) ->
           confidence (fst (ATSChecker_run_ats_checks set_iter' resume_json'
                                                      raw_text' self'))
           = confidence (fst (ATSChecker_run_ats_checks set_iter resume_json
                                                        raw_text self))).
Proof.
  intros.
  assert (C : forall si j t s,
             confidence (fst (ATSChecker_run_ats_checks si j t s))
             = (if List.length (text_or_empty t) <? 200 then LOW
                else if List.length (text_or_empty t) <? 500 then MEDIUM
                     else HIGH)).
  { intros. rewrite (proj2 (run_report si j t s)). reflexivity. }
  rewrite C. repeat split.
  - intros H. apply Nat.ltb_lt in H. rewrite H. reflexivity.
  - intros [H1 H2].
    apply Nat.ltb_ge in H1. apply Nat.ltb_lt in H2. rewrite H1, H2. reflexivity.
  - intros H.
    assert (H' : (List.length (text_or_empty raw_text) <? 200) = false)
      by (apply Nat.ltb_ge; lia).
    apply Nat.ltb_ge in H. rewrite H, H'. reflexivity.
  - intros. rewrite C. rewrite H. reflexivity.
Qed.

(** C3 at two texts of eight characters. *)
Lemma confidence_from_length_witness :
  confidence (fst (ATSChecker_run_ats_checks
                     (fun l => l) (Some []) (Some (u "John Doe")) ATSChecker_init))
  = LOW
  /\ confidence (fst (ATSChecker_run_ats_checks
                        (fun l => l) None (Some (u "Jane Roe")) ATSChecker_init))
     = confidence (fst (ATSChecker_run_ats_checks
                     (fun l => l) (Some []) (Some (u "John Doe")) ATSChecker_init)).
Proof.
  pose proof (confidence_from_length (fun l => l) (Some []) (Some (u "John Doe"))
                                     ATSChecker_init) as [H1 [_ [_ H4]]].
  split.
  - apply H1. vm_compute. lia.
  - apply H4. reflexivity.
Defined.

Lemma bind_reset_state (A : Type) (k : unit -> Method A) (self : ATSChecker) :
  bind reset_state k self = k tt ATSChecker_init.
Proof. reflexivity. Qed.

Lemma run_ignores_prior_state set_iter resume_json raw_text self :
  ATSChecker_run_ats_checks set_iter resume_json raw_text self
  = ATSChecker_run_ats_checks set_iter resume_json raw_text ATSChecker_init.
Proof.
  unfold ATSChecker_run_ats_checks. cbv zeta.
  rewrite !bind_reset_state. reflexivity.
Qed.

Lemma run_returns_own_issues set_iter resume_json raw_text self :
  issues (fst (ATSChecker_run_ats_checks set_iter resume_json raw_text self))
  = self_issues (snd (ATSChecker_run_ats_checks set_iter resume_json
                                                raw_text self))
  /\ recommended_actions
       (fst (ATSChecker_run_ats_checks set_iter resume_json raw_text self))
     = self_recommended_actions
         (snd (ATSChecker_run_ats_checks set_iter resume_json raw_text self)).
Proof.
  unfold ATSChecker_run_ats_checks. split_binds.
  cbv zeta. cbn [fst snd issues recommended_actions].
  split; reflexivity.
Qed.

Lemma extends_refl s : extends s s.
Proof. split; [reflexivity | exists []; symmetry; apply app_nil_r]. Qed.

Lemma extends_trans s1 s2 s3 : extends s1 s2 -> extends s2 s3 -> extends s1 s3.
Proof.
  intros [R1 [n1 I1]] [R2 [n2 I2]]. split; [congruence|].
  exists (n1 ++ n2). rewrite I2, I1, app_assoc. reflexivity.
Qed.

Lemma append_only_ret (A : Type) (a : A) : append_only (ret a).
Proof. intros s. apply extends_refl. Qed.

Lemma append_only_issues_append i : append_only (issues_append i).
Proof. intros s. split; [reflexivity | exists [i]; reflexivity]. Qed.

Lemma append_only_bind (A B : Type) (m : Method A) (k : A -> Method B) :
  append_only m -> (forall a, append_only (k a)) -> append_only (bind m k).
Proof.
  intros Hm Hk s. unfold bind. specialize (Hm s).
  destruct (m s) as [a s']. cbn [snd] in Hm.
  eapply extends_trans; [exact Hm | apply Hk].
Qed.

Ltac append_only_step :=
  first [ apply append_only_ret
        | apply append_only_issues_append
        | apply append_only_bind; [|intros ?] ].

Ltac prove_append_only :=
  repeat first [ append_only_step | break_if ].

Lemma append_only_file_text_extractable raw_text :
  append_only (_check_file_text_extractable raw_text).
Proof. unfold _check_file_text_extractable. prove_append_only. Qed.

Lemma append_only_layout resume_json raw_text :
  append_only (_check_layout resume_json raw_text).
Proof. unfold _check_layout. prove_append_only. Qed.

Lemma append_only_headers set_iter resume_json raw_text :
  append_only (_check_headers set_iter resume_json raw_text).
Proof. unfold _check_headers. prove_append_only. Qed.

Lemma append_only_contact resume_json raw_text :
  append_only (_check_contact resume_json raw_text).
Proof.
  unfold _check_contact.
  repeat match goal with
         | |- context [let '(_, _) := ?p in _] => destruct p
         end.
  match goal with
  | |- context [match ?found with [] => _ | _ :: _ => _ end] =>
    destruct found
  end; prove_append_only.
Qed.

Lemma append_only_skills resume_json raw_text :
  append_only (_check_skills resume_json raw_text).
Proof. unfold _check_skills. prove_append_only. Qed.

Lemma append_only_experience resume_json raw_text :
  append_only (_check_experience resume_json raw_text).
Proof. unfold _check_experience. prove_append_only. Qed.

Lemma append_only_dates resume_json raw_text :
  append_only (_check_dates resume_json raw_text).
Proof. unfold _check_dates. prove_append_only. Qed.

Lemma append_only_fonts_images resume_json raw_text :
  append_only (_check_fonts_images resume_json raw_text).
Proof. unfold _check_fonts_images. prove_append_only. Qed.

Lemma append_only_length raw_text : append_only (_check_length raw_text).
Proof. unfold _check_length. prove_append_only. Qed.

Lemma append_only_get_issues : append_only get_issues.
Proof. intros s. apply extends_refl. Qed.

Lemma append_only_get_recommended_actions :
  append_only get_recommended_actions.
Proof. intros s. apply extends_refl. Qed.

Lemma run_final_state set_iter resume_json raw_text self :
  extends ATSChecker_init
          (snd (ATSChecker_run_ats_checks set_iter resume_json raw_text self)).
Proof.
  unfold ATSChecker_run_ats_checks. cbv zeta. rewrite bind_reset_state.
  cbv beta.
  refine ((_ : append_only _) ATSChecker_init).
  apply append_only_bind; [apply append_only_file_text_extractable | intros ?].
  apply append_only_bind; [apply append_only_layout | intros ?].
  apply append_only_bind; [apply append_only_headers | intros ?].
  apply append_only_bind; [apply append_only_contact | intros ?].
  apply append_only_bind; [apply append_only_skills | intros ?].
  apply append_only_bind; [apply append_only_experience | intros ?].
  apply append_only_bind; [apply append_only_dates | intros ?].
  apply append_only_bind; [apply append_only_fonts_images | intros ?].
  apply append_only_bind; [apply append_only_length | intros ?].
  apply append_only_bind; [apply append_only_get_issues | intros ?].
  apply append_only_bind;
    [apply append_only_get_recommended_actions | intros ?].
  apply append_only_ret.
Qed.

(** C8.  A second call of run_ats_checks on the same checker with the
    same arguments returns the report of the first call; more generally
    the report does not depend on what the checker held before the call.
    The issues of a report are those collected during its own call and
    its recommended actions are empty. *)
Theorem repeated_run_gives_same_report :
  forall (set_iter : list str -> list str) (resume_json : option pydict)
         (raw_text : option str),
    fst (ATSChecker_run_ats_checks
           set_iter resume_json raw_text
           (snd (ATSChecker_run_ats_checks set_iter resume_json raw_text
                                           ATSChecker_init)))
    = fst (ATSChecker_run_ats_checks set_iter resume_json raw_text
                                     ATSChecker_init)
    /\ (forall self : ATSChecker,
           fst (ATSChecker_run_ats_checks set_iter resume_json raw_text self)
           = run_ats_checks set_iter resume_json raw_text)
    /\ (forall self : ATSChecker,
           issues (fst (ATSChecker_run_ats_checks set_iter resume_json
                                                  raw_text self))
           = self_issues (snd (ATSChecker_run_ats_checks set_iter resume_json
                                                         raw_text self))
           /\ recommended_actions
                (fst (ATSChecker_run_ats_checks set_iter resume_json
                                                raw_text self)) = []).
Proof.
  intros. split; [|split].
  - rewrite run_ignores_prior_state. reflexivity.
  - intros self. unfold run_ats_checks.
    rewrite run_ignores_prior_state. reflexivity.
  - intros self.
    destruct (run_returns_own_issues set_iter resume_json raw_text self)
      as [HI HR].
    split; [exact HI|]. rewrite HR.
    apply (run_final_state set_iter resume_json raw_text self).
Qed.

(** C9.  On an empty resume mapping and the text "John Doe Software
    Engineer" the report has score 25 and low confidence, but its contact
    issue is a major one: the second location pattern, read without
    regard to case, matches "John Doe", so the contact score is 20 and
    the only critical issue belongs to file_text_extractable. *)
Theorem scenario_A_has_no_critical_contact_issue :
  forall set_iter : list str -> list str,
    (score (run_ats_checks set_iter (Some []) (Some scenario_A_text)) == 25)%Q
    /\ confidence (run_ats_checks set_iter (Some []) (Some scenario_A_text))
       = LOW
    /\ contact (breakdown (run_ats_checks set_iter (Some [])
                                          (Some scenario_A_text))) = 20%Q
    /\ map (fun i => (category i, severity i))
           (issues (run_ats_checks set_iter (Some []) (Some scenario_A_text)))
       = [ (u "file_text_extractable", u "critical");
           (u "layout", u "major");
           (u "headers", u "major");
           (u "contact", u "major");
           (u "skills", u "major");
           (u "experience", u "major");
           (u "dates", u "major");
           (u "length", u "major") ]
    /\ existsb is_critical_contact_issue
               (issues (run_ats_checks set_iter (Some [])
                                       (Some scenario_A_text))) = false
    /\ re_search true (nth 1 location_patterns REmpty) (u "John Doe") = true.
Proof.
  intros set_iter.
  split; [vm_compute; reflexivity|].
  split; [vm_compute; reflexivity|].
  split; [vm_compute; reflexivity|].
  split; [vm_compute; reflexivity|].
  split; vm_compute; reflexivity.
Qed.

Lemma tens_plus (a b : Q) : tens a -> tens b -> tens (a + b).
Proof.
  intros [k Hk] [l Hl]. exists (k + l)%Z.
  rewrite Hk, Hl, <- inject_Z_plus.
  apply inject_Z_injective. lia.
Qed.

Lemma tens_py_min_100 (s : Q) : tens s -> tens (py_min 100 s).
Proof. intros H. unfold py_min. destruct (Qltb s 100); [exact H | closed_tens]. Qed.

Lemma contact_scan_keys_tens keys resume_json found (sc : Q) :
  tens sc -> tens (snd (contact_scan_keys keys resume_json found sc)).
Proof.
  revert found sc.
  induction keys as [|key keys IH]; intros found sc H;
    cbn [contact_scan_keys snd].
  - exact H.
  - repeat break_if; apply IH; try exact H;
      (apply tens_plus; [exact H | closed_tens]).
Qed.

Lemma file_text_extractable_tens raw_text self :
  tens (fst (_check_file_text_extractable raw_text self)).
Proof.
  unfold _check_file_text_extractable, bind, ret, issues_append.
  repeat break_if; cbn [fst]; closed_tens.
Qed.

Lemma layout_tens resume_json raw_text self :
  tens (fst (_check_layout resume_json raw_text self)).
Proof.
  unfold _check_layout, bind, ret, issues_append.
  repeat break_if; cbn [fst]; closed_tens.
Qed.

Lemma headers_tens set_iter resume_json raw_text self :
  tens (fst (_check_headers set_iter resume_json raw_text self)).
Proof.
  unfold _check_headers, bind, ret, issues_append.
  repeat break_if; cbn [fst]; closed_tens.
Qed.

Lemma contact_tens resume_json raw_text self :
  tens (fst (_check_contact resume_json raw_text self)).
Proof.
  unfold _check_contact.
  set (c1 := (0 <? re_findall_count false email_pattern raw_text)%nat).
  set (c2 := (0 <? re_findall_count false phone_pattern raw_text)%nat).
  set (c3 := existsb _ location_patterns).
  destruct c1, c2, c3; cbv beta iota zeta;
    (destruct (dict_truthy resume_json);
     [ match goal with
       | |- context [contact_scan_keys ?k ?j ?f ?s] =>
         assert (K : tens (snd (contact_scan_keys k j f s)))
           by (apply contact_scan_keys_tens; closed_tens);
         destruct (contact_scan_keys k j f s) as [cf s']
       end;
       cbn [snd] in K; unfold bind, ret, issues_append;
       destruct cf; [|break_if]; cbn [fst]; apply tens_py_min_100; exact K
     | unfold bind, ret, issues_append; cbn [app List.length Nat.ltb Nat.leb];
       cbv iota; cbn [fst]; closed_tens ]).
Qed.

Lemma skills_tens resume_json raw_text self :
  tens (fst (_check_skills resume_json raw_text self)).
Proof.
  unfold _check_skills, bind, ret, issues_append.
  repeat break_if; cbn [fst]; closed_tens.
Qed.

Lemma experience_tens resume_json raw_text self :
  tens (fst (_check_experience resume_json raw_text self)).
Proof.
  unfold _check_experience, bind, ret, issues_append.
  repeat break_if; cbn [fst]; closed_tens.
Qed.

Lemma dates_tens resume_json raw_text self :
  tens (fst (_check_dates resume_json raw_text self)).
Proof.
  unfold _check_dates, bind, ret, issues_append.
  repeat break_if; cbn [fst]; closed_tens.
Qed.

Lemma fonts_images_tens resume_json raw_text self :
  tens (fst (_check_fonts_images resume_json raw_text self)).
Proof.
  unfold _check_fonts_images, bind, ret, issues_append.
  repeat break_if; cbn [fst]; closed_tens.
Qed.

Lemma length_tens raw_text self :
  tens (fst (_check_length raw_text self)).
Proof.
  unfold _check_length, bind, ret, issues_append.
  repeat break_if; cbn [fst]; closed_tens.
Qed.

Lemma run_breakdown_all (P : Q -> Prop) :
  (forall t s, P (fst (_check_file_text_extractable t s))) ->
  (forall j t s, P (fst (_check_layout j t s))) ->
  (forall i j t s, P (fst (_check_headers i j t s))) ->
  (forall j t s, P (fst (_check_contact j t s))) ->
  (forall j t s, P (fst (_check_skills j t s))) ->
  (forall j t s, P (fst (_check_experience j t s))) ->
  (forall j t s, P (fst (_check_dates j t s))) ->
  (forall j t s, P (fst (_check_fonts_images j t s))) ->
  (forall t s, P (fst (_check_length t s))) ->
  forall set_iter resume_json raw_text self,
    Forall P (breakdown_scores
                (breakdown (fst (ATSChecker_run_ats_checks
                                   set_iter resume_json raw_text self)))).
Proof.
  intros H1 H2 H3 H4 H5 H6 H7 H8 H9 set_iter resume_json raw_text self.
  unfold ATSChecker_run_ats_checks. cbv zeta. rewrite bind_reset_state.
  cbv beta.
  change (match resume_json with Some d => d | None => [] end)
    with (resume_or_empty resume_json).
  change (match raw_text with Some t => t | None => [] end)
    with (text_or_empty raw_text).
  generalize (resume_or_empty resume_json) (text_or_empty raw_text).
  intros j t. unfold bind, get_issues, get_recommended_actions, ret.
  run_step (H1 t ATSChecker_init).
  match goal with a : ATSChecker |- _ => run_step (H2 j t a); clear a end.
  match goal with a : ATSChecker |- _ => run_step (H3 set_iter j t a); clear a end.
  match goal with a : ATSChecker |- _ => run_step (H4 j t a); clear a end.
  match goal with a : ATSChecker |- _ => run_step (H5 j t a); clear a end.
  match goal with a : ATSChecker |- _ => run_step (H6 j t a); clear a end.
  match goal with a : ATSChecker |- _ => run_step (H7 j t a); clear a end.
  match goal with a : ATSChecker |- _ => run_step (H8 j t a); clear a end.
  match goal with a : ATSChecker |- _ => run_step (H9 t a); clear a end.
  cbn [fst breakdown breakdown_scores file_text_extractable layout headers
       contact skills experience dates fonts_images length].
  repeat (apply Forall_cons; [assumption|]). apply Forall_nil.
Qed.

Lemma dot_product_of_tens (b : ATSBreakdown) :
  Forall tens (breakdown_scores b) ->
  exists m : Z,
    (dot_product (breakdown_scores b) stated_weights * 10 == inject_Z m)%Q.
Proof.
  unfold breakdown_scores. intros H.
  inversion_clear H as [|? ? [k1 K1] H1].
  inversion_clear H1 as [|? ? [k2 K2] H2].
  inversion_clear H2 as [|? ? [k3 K3] H3].
  inversion_clear H3 as [|? ? [k4 K4] H4].
  inversion_clear H4 as [|? ? [k5 K5] H5].
  inversion_clear H5 as [|? ? [k6 K6] H6].
  inversion_clear H6 as [|? ? [k7 K7] H7].
  inversion_clear H7 as [|? ? [k8 K8] H8].
  inversion_clear H8 as [|? ? [k9 K9] _].
  cbn [dot_product stated_weights].
  exists (15 * k1 + 15 * k2 + 12 * k3 + 10 * k4 + 15 * k5 + 15 * k6
          + 8 * k7 + 5 * k8 + 5 * k9)%Z.
  rewrite K1, K2, K3, K4, K5, K6, K7, K8, K9.
  rewrite !inject_Z_plus, !inject_Z_mult.
  change (inject_Z 10) with 10%Q. change (inject_Z 15) with 15%Q.
  change (inject_Z 12) with 12%Q. change (inject_Z 8) with 8%Q.
  change (inject_Z 5) with 5%Q.
  field.
Qed.

Lemma report_scores_are_tens set_iter resume_json raw_text self :
  Forall tens
         (breakdown_scores
            (breakdown (fst (ATSChecker_run_ats_checks
                               set_iter resume_json raw_text self)))).
Proof.
  apply run_breakdown_all;
    [ apply file_text_extractable_tens | apply layout_tens
    | apply headers_tens | apply contact_tens | apply skills_tens
    | apply experience_tens | apply dates_tens
    | apply fonts_images_tens | apply length_tens ].
Qed.

Lemma report_scores_in_range set_iter resume_json raw_text self :
  Forall in_range
         (breakdown_scores
            (breakdown (fst (ATSChecker_run_ats_checks
                               set_iter resume_json raw_text self)))).
Proof.
  apply run_breakdown_all;
    [ apply file_text_extractable_range | apply layout_range
    | apply headers_range | apply contact_range | apply skills_range
    | apply experience_range | apply dates_range
    | apply fonts_images_range | apply length_range ].
Qed.

(** On category scores that are multiples of ten the floating-point sum
    is close enough to the dot product, a whole number of tenths, for
    [round(x, 1)] to return the double nearest to the dot product. *)
Lemma overall_score_of_tens (b : ATSBreakdown) :
  Forall in_range (breakdown_scores b) -> Forall tens (breakdown_scores b) ->
  _calculate_overall_score b
  = binary64 (dot_product (breakdown_scores b) stated_weights).
Proof.
  intros R T.
  destruct (weighted_sum_error R) as (total_score & E & N).
  destruct (dot_product_of_tens T) as [m M].
  rewrite E. exact (round1_of_tenths M N).
Qed.

Lemma report_score_is_exact set_iter resume_json raw_text self :
  score (fst (ATSChecker_run_ats_checks set_iter resume_json raw_text self))
  = binary64
      (dot_product
         (breakdown_scores
            (breakdown (fst (ATSChecker_run_ats_checks
                               set_iter resume_json raw_text self))))
         stated_weights).
Proof.
  pose proof (run_report set_iter resume_json raw_text self) as [S _].
  rewrite S. apply overall_score_of_tens.
  - apply report_scores_in_range.
  - apply report_scores_are_tens.
Qed.

(** Between two doubles the nearest double stays. *)
Lemma binary64_between (lo hi q : Q) :
  (binary64 lo == lo)%Q -> (binary64 hi == hi)%Q ->
  (lo <= q)%Q -> (q <= hi)%Q ->
  (lo <= binary64 q)%Q /\ (binary64 q <= hi)%Q.
Proof.
  intros L H A B. split.
  - apply Qle_trans with (binary64 lo);
      [rewrite L; apply Qle_refl | apply binary64_monotone; exact A].
  - apply Qle_trans with (binary64 hi);
      [apply binary64_monotone; exact B | rewrite H; apply Qle_refl].
Qed.

(** The overall score of a report is on the scale 0..100 as well. *)
Lemma report_score_in_range set_iter resume_json raw_text self :
  in_range
    (score (fst (ATSChecker_run_ats_checks set_iter resume_json raw_text
                                           self))).
Proof.
  unfold in_range. rewrite report_score_is_exact.
  pose proof (report_scores_in_range set_iter resume_json raw_text self) as H.
  unfold breakdown_scores in *.
  inversion_clear H as [|? ? [L1 U1] H1].
  inversion_clear H1 as [|? ? [L2 U2] H2].
  inversion_clear H2 as [|? ? [L3 U3] H3].
  inversion_clear H3 as [|? ? [L4 U4] H4].
  inversion_clear H4 as [|? ? [L5 U5] H5].
  inversion_clear H5 as [|? ? [L6 U6] H6].
  inversion_clear H6 as [|? ? [L7 U7] H7].
  inversion_clear H7 as [|? ? [L8 U8] H8].
  inversion_clear H8 as [|? ? [L9 U9] _].
  cbn [dot_product stated_weights].
  apply binary64_between;
    [vm_compute; reflexivity | vm_compute; reflexivity | lra | lra].
Qed.

(** C1, amended.  The weights .15 .15 .12 .10 .15 .15 .08 .05 .05 sum
    to one.  For every breakdown with scores between 0 and 100 the
    overall score is the double nearest to a whole number of tenths that
    lies within 1/20 + 1/10^12 of the dot product of the scores with the
    weights; it is the double nearest to the dot product rounded to one
    decimal place whenever ten times the dot product is at least 1/10^10
    away from the middle between two whole numbers.  When the scores are
    multiples of ten, the dot product is a whole number of tenths and the
    overall score is the double nearest to it.  The report of every run
    is such a case: its category scores are multiples of ten between 0
    and 100 and its score is the double nearest to the dot product. *)
Theorem overall_score_is_rounded_weighted_sum :
  forall (set_iter : list str -> list str) (resume_json : option pydict)
         (raw_text : option str) (self : ATSChecker) (b : ATSBreakdown),
    (Qsum stated_weights == 1)%Q
    /\ (Forall in_range (breakdown_scores b) ->
        exists n : Z,
          _calculate_overall_score b = binary64 (inject_Z n / 10)
          /\ (Qabs (inject_Z n / 10
                    - dot_product (breakdown_scores b) stated_weights)
              <= (1 # 20) + (1 # 1000000000000))%Q)
    /\ (Forall in_range (breakdown_scores b) ->
        forall m : Z,
          (Qabs (dot_product (breakdown_scores b) stated_weights * 10
                 - inject_Z m)
           <= (1 # 2) - (1 # 10000000000))%Q ->
          round_half_even
            (dot_product (breakdown_scores b) stated_weights * 10) = m
          /\ _calculate_overall_score b = binary64 (inject_Z m / 10))
    /\ (Forall in_range (breakdown_scores b) ->
        Forall tens (breakdown_scores b) ->
        (exists m : Z,
            (dot_product (breakdown_scores b) stated_weights * 10
             == inject_Z m)%Q)
        /\ _calculate_overall_score b
           = binary64 (dot_product (breakdown_scores b) stated_weights))
    /\ (let r := fst (ATSChecker_run_ats_checks set_iter resume_json raw_text
                                                self) in
        Forall in_range (breakdown_scores (breakdown r))
        /\ Forall tens (breakdown_scores (breakdown r))
        /\ score r = _calculate_overall_score (breakdown r)
        /\ score r
           = binary64 (dot_product (breakdown_scores (breakdown r))
                                   stated_weights)).
Proof.
  intros set_iter resume_json raw_text self b.
  split; [apply Qsum_stated_weights|].
  split; [|split; [|split]].
  - intros R. destruct (weighted_sum_error R) as (total_score & E & N).
    exists (round_half_even (total_score * 10)).
    split; [exact E|].
    pose proof (round_half_even_near (total_score * 10)) as H.
    apply Qabs_Qle_condition in H. apply Qabs_Qle_condition in N.
    generalize dependent (inject_Z (round_half_even (total_score * 10))).
    intros F H. unfold Qdiv. change (/ 10)%Q with (1 # 10)%Q.
    apply Qabs_Qle_condition. split; lra.
  - intros R m M. destruct (weighted_sum_error R) as (total_score & E & N).
    rewrite E. exact (round1_off_the_middle M N).
  - intros R T. split.
    + exact (dot_product_of_tens T).
    + exact (overall_score_of_tens R T).
  - cbv zeta.
    split; [apply report_scores_in_range|].
    split; [apply report_scores_are_tens|].
    split; [apply run_report | apply report_score_is_exact].
Qed.

(** C1 at the breakdown of an empty resume, whose dot product is 20. *)
Lemma overall_score_is_rounded_weighted_sum_witness :
  (exists n : Z,
      _calculate_overall_score poor_breakdown = binary64 (inject_Z n / 10)
      /\ (Qabs (inject_Z n / 10
                - dot_product (breakdown_scores poor_breakdown)
                              stated_weights)
          <= (1 # 20) + (1 # 1000000000000))%Q)
  /\ (round_half_even
        (dot_product (breakdown_scores poor_breakdown) stated_weights * 10)
      = 200%Z
      /\ _calculate_overall_score poor_breakdown
         = binary64 (inject_Z 200 / 10))
  /\ ((exists m : Z,
          (dot_product (breakdown_scores poor_breakdown) stated_weights * 10
           == inject_Z m)%Q)
      /\ _calculate_overall_score poor_breakdown
         = binary64 (dot_product (breakdown_scores poor_breakdown)
                                 stated_weights)).
Proof.
  destruct (overall_score_is_rounded_weighted_sum
              (fun l => l) None None ATSChecker_init poor_breakdown)
    as (_ & A & B & C & _).
  assert (R : Forall in_range (breakdown_scores poor_breakdown)).
  { unfold breakdown_scores, poor_breakdown.
    cbn [file_text_extractable layout headers contact skills experience
         dates fonts_images length].
    repeat (apply Forall_cons; [split; vm_compute; discriminate|]).
    apply Forall_nil. }
  assert (T : Forall tens (breakdown_scores poor_breakdown)).
  { unfold breakdown_scores, poor_breakdown.
    cbn [file_text_extractable layout headers contact skills experience
         dates fonts_images length].
    repeat (apply Forall_cons;
            [first [ exists 0%Z; vm_compute; reflexivity
                   | exists 6%Z; vm_compute; reflexivity
                   | exists 8%Z; vm_compute; reflexivity
                   | exists 10%Z; vm_compute; reflexivity ]|]).
    apply Forall_nil. }
  split; [exact (A R)|].
  split; [apply (B R); vm_compute; discriminate | exact (C R T)].
Defined.

(** The statement of C1 for every breakdown between 0 and 100 fails off
    the multiples of ten.  With a file_text_extractable score of 1.0 and
    the other scores 0 the dot product is 0.15, which rounds to 0.2 at
    one decimal place; the product [1.0 * 0.15] formed in floating point
    is the double below 0.15, and the overall score is the double nearest
    to 0.1. *)
Lemma overall_score_of_one_point_is_rounded_down :
  Forall in_range (breakdown_scores one_point_breakdown)
  /\ (dot_product (breakdown_scores one_point_breakdown) stated_weights
      == 0.15)%Q
  /\ (inject_Z (round_half_even
                  (dot_product (breakdown_scores one_point_breakdown)
                               stated_weights * 10)) / 10 == 0.2)%Q
  /\ _calculate_overall_score one_point_breakdown = binary64 0.1
  /\ ~ (_calculate_overall_score one_point_breakdown == binary64 0.2)%Q
  /\ (_calculate_overall_score one_point_breakdown < 0.11)%Q.
Proof.
  split.
  { unfold breakdown_scores, one_point_breakdown.
    cbn [file_text_extractable layout headers contact skills experience dates
         fonts_images length].
    repeat (apply Forall_cons; [split; vm_compute; discriminate|]).
    apply Forall_nil. }
  split; [vm_compute; reflexivity|].
  split; [vm_compute; reflexivity|].
  split; [vm_compute; reflexivity|].
  split; [vm_compute; discriminate | vm_compute; reflexivity].
Qed.

(* ================================================================= *)
(** * Properties of the tools and of the executor *)

Lemma find_dangerous (expression pattern : str) :
  In pattern dangerous_patterns ->
  contains pattern (lower expression) = true ->
  exists named,
    find (fun p => contains p (lower expression)) dangerous_patterns
    = Some named
    /\ In named dangerous_patterns
    /\ contains named (lower expression) = true.
Proof.
  intros HI HC.
  destruct (find (fun p => contains p (lower expression)) dangerous_patterns)
    as [named|] eqn:F.
  - exists named. split; [reflexivity|].
    apply find_some in F. exact F.
  - pose proof (find_none _ _ F pattern HI) as N. cbv beta in N. congruence.
Qed.

(** C5.  When the lower-cased expression contains one of the patterns
    __, import, exec, eval, open, file, input, the calc tool fails with
    an error that names a pattern the expression contains, and the trace
    is empty: the evaluator is never called. *)
Theorem calc_rejects_dangerous_patterns :
  forall (w : World) (expression pattern : str),
    In pattern dangerous_patterns ->
    contains pattern (lower expression) = true ->
    exists named : str,
      In named dangerous_patterns
      /\ contains named (lower expression) = true
      /\ io_run (calc_tool w (PyStr expression))
         = (inr (tool_fail (u "Dangerous pattern '" ++ named
                              ++ u "' detected in expression")), []).
Proof.
  intros w expression pattern HI HC.
  destruct (find_dangerous expression HI HC) as [named [F [HI' HC']]].
  exists named. split; [exact HI'|]. split; [exact HC'|].
  unfold io_run, calc_tool, io_try. rewrite F. reflexivity.
Qed.

(** C5 at an upper-case use of import. *)
Lemma calc_rejects_dangerous_patterns_witness :
  exists named : str,
    In named dangerous_patterns
    /\ contains named (lower (u "__IMPORT__('os')")) = true
    /\ io_run (calc_tool demo_world (PyStr (u "__IMPORT__('os')")))
       = (inr (tool_fail (u "Dangerous pattern '" ++ named
                            ++ u "' detected in expression")), []).
Proof.
  apply (@calc_rejects_dangerous_patterns demo_world (u "__IMPORT__('os')")
                                          (u "import")).
  - vm_compute. tauto.
  - vm_compute. reflexivity.
Defined.

Lemma calc_reaches_eval (w : World) (expression : str) :
  find (fun p => contains p (lower expression)) dangerous_patterns = None ->
  snd (io_run (calc_tool w (PyStr expression))) = [EvEval expression].
Proof.
  intros F. unfold io_run, calc_tool, io_try, io_bind, io_call, io_of.
  rewrite F. cbn [app].
  destruct (py_eval w expression) as [e|v];
    [|destruct (format_result w v) as [e|output]; [|reflexivity]];
    repeat break_if; reflexivity.
Qed.

(** C4.  The allow-list of characters is never consulted: "7 % 3" holds
    a character outside of it, contains no dangerous pattern, and is
    handed to the evaluator on every machine; where the evaluator answers
    1 the tool succeeds with output "1". *)
Theorem calc_evaluates_outside_allow_list :
  existsb (fun c => negb (existsb (cp_eqb c) allowed_chars)) (u "7 % 3") = true
  /\ (forall w : World,
         snd (io_run (calc_tool w (PyStr (u "7 % 3")))) = [EvEval (u "7 % 3")])
  /\ io_run (calc_tool demo_world (PyStr (u "7 % 3")))
     = (inr (tool_ok (u "1")), [EvEval (u "7 % 3")]).
Proof.
  split; [vm_compute; reflexivity|].
  split; [|vm_compute; reflexivity].
  intros w. apply calc_reaches_eval. vm_compute. reflexivity.
Qed.

Lemma read_file_refuses (w : World) (filepath : str) :
  contains (u "..") filepath = true \/ isabs filepath = true
  \/ escapes w filepath ->
  exists msg tr,
    io_run (read_file_tool w (PyStr filepath)) = (inr (tool_fail msg), tr)
    /\ (msg = traversal_message
        \/ msg = u "File must be in current directory or subdirectories")
    /\ existsb touches_files tr = false.
Proof.
  intros H. unfold io_run, read_file_tool, io_try.
  destruct (contains (u "..") filepath || isabs filepath) eqn:G.
  - exists traversal_message, []. repeat split; auto.
  - destruct H as [H|[H|[p [R O]]]].
    + rewrite H in G. discriminate.
    + rewrite H, orb_true_r in G. discriminate.
    + exists (u "File must be in current directory or subdirectories"),
        [EvResolve filepath].
      unfold io_bind, io_os, io_call. rewrite R. cbn [app]. rewrite O.
      cbn [negb]. repeat split; auto.
Qed.

Lemma list_files_refuses (w : World) (directory : str) :
  contains (u "..") directory = true \/ isabs directory = true
  \/ escapes w directory ->
  exists msg tr,
    io_run (list_files_tool w (PyStr directory)) = (inr (tool_fail msg), tr)
    /\ (msg = traversal_message
        \/ msg = u "Directory must be in current directory or subdirectories")
    /\ existsb touches_files tr = false.
Proof.
  intros H. unfold io_run, list_files_tool, io_try.
  destruct (contains (u "..") directory || isabs directory) eqn:G.
  - exists traversal_message, []. repeat split; auto.
  - destruct H as [H|[H|[p [R O]]]].
    + rewrite H in G. discriminate.
    + rewrite H, orb_true_r in G. discriminate.
    + exists (u "Directory must be in current directory or subdirectories"),
        [EvResolve directory].
      unfold io_bind, io_os, io_call. rewrite R. cbn [app]. rewrite O.
      cbn [negb]. repeat split; auto.
Qed.

(** C6.  A path that contains "..", or is absolute, or resolves to a
    place outside the working directory makes read_file and list_files
    fail with the path-traversal message or the containment message, and
    the trace shows no stat, open or directory listing. *)
Theorem path_traversal_is_refused :
  forall (w : World) (p : str),
    contains (u "..") p = true \/ isabs p = true \/ escapes w p ->
    (exists msg tr,
        io_run (read_file_tool w (PyStr p)) = (inr (tool_fail msg), tr)
        /\ (msg = traversal_message
            \/ msg = u "File must be in current directory or subdirectories")
        /\ existsb touches_files tr = false)
    /\ (exists msg tr,
           io_run (list_files_tool w (PyStr p)) = (inr (tool_fail msg), tr)
           /\ (msg = traversal_message
               \/ msg
                  = u "Directory must be in current directory or subdirectories")
           /\ existsb touches_files tr = false).
Proof.
  intros w p H. split.
  - apply read_file_refuses. exact H.
  - apply list_files_refuses. exact H.
Qed.

(** C6 at a symbolic link that leaves the working directory. *)
Lemma path_traversal_is_refused_witness :
  (exists msg tr,
      io_run (read_file_tool demo_world (PyStr (u "shortcut")))
      = (inr (tool_fail msg), tr)
      /\ (msg = traversal_message
          \/ msg = u "File must be in current directory or subdirectories")
      /\ existsb touches_files tr = false)
  /\ (exists msg tr,
         io_run (list_files_tool demo_world (PyStr (u "shortcut")))
         = (inr (tool_fail msg), tr)
         /\ (msg = traversal_message
             \/ msg
                = u "Directory must be in current directory or subdirectories")
         /\ existsb touches_files tr = false).
Proof.
  apply (@path_traversal_is_refused demo_world (u "shortcut")).
  right. right. exists [u "etc"; u "passwd"].
  split; vm_compute; reflexivity.
Defined.

(** The three paths the specification names. *)
Lemma traversal_examples (w : World) :
  io_run (read_file_tool w (PyStr (u "../x")))
  = (inr (tool_fail traversal_message), [])
  /\ io_run (read_file_tool w (PyStr (u "/etc/passwd")))
     = (inr (tool_fail traversal_message), [])
  /\ io_run (list_files_tool w (PyStr (u "../")))
     = (inr (tool_fail traversal_message), []).
Proof.
  split; [|split]; vm_compute; reflexivity.
Qed.

(** Decoding with [errors='ignore'] always yields a string. *)
Lemma utf8_decode_ignore_total_upto (n : nat) :
  forall bs, List.length bs <= n -> exists s, utf8_decode Ignore bs = inr s.
Proof.
  induction n as [|n IH]; intros bs L.
  - destruct bs; [exists []; reflexivity | cbn in L; lia].
  - destruct bs as [|b0 t0]; [exists []; reflexivity|].
    cbn [List.length] in L.
    assert (R : forall t, List.length t <= List.length t0 ->
                          exists s, utf8_decode Ignore t = inr s)
      by (intros t Lt; apply IH; lia).
    cbn [utf8_decode].
    destruct (b0 <? 128)%N.
    { destruct (R t0 (le_n _)) as [s ->]. eexists; reflexivity. }
    destruct (between 194 223 b0).
    { destruct t0 as [|b1 t1]; [eexists; reflexivity|].
      destruct (is_cont b1).
      - destruct (R t1) as [s ->]; [cbn; lia | eexists; reflexivity].
      - apply R. lia. }
    destruct (between 224 239 b0).
    { destruct t0 as [|b1 t1]; [eexists; reflexivity|].
      destruct (negb (second_ok b0 b1)); [apply R; lia|].
      destruct t1 as [|b2 t2]; [eexists; reflexivity|].
      destruct (is_cont b2).
      - destruct (R t2) as [s ->]; [cbn; lia | eexists; reflexivity].
      - apply R. cbn. lia. }
    destruct (between 240 244 b0).
    { destruct t0 as [|b1 t1]; [eexists; reflexivity|].
      destruct (negb (second_ok b0 b1)); [apply R; lia|].
      destruct t1 as [|b2 t2]; [eexists; reflexivity|].
      destruct (negb (is_cont b2)); [apply R; cbn; lia|].
      destruct t2 as [|b3 t3]; [eexists; reflexivity|].
      destruct (is_cont b3).
      - destruct (R t3) as [s ->]; [cbn; lia | eexists; reflexivity].
      - apply R. cbn. lia. }
    apply R. lia.
Qed.

Lemma utf8_decode_ignore_total (raw : bytes) :
  exists content, decode UTF8 Ignore raw = inr content.
Proof.
  unfold decode.
  apply (utf8_decode_ignore_total_upto (n := List.length (byte_values raw))).
  lia.
Qed.

Lemma read_file_never_falls_back (w : World) (filepath : pyvalue) :
  exists r tr,
    io_run (read_file_tool w filepath) = (inr r, tr)
    /\ error r <> invalid_characters_message
    /\ existsb opens_utf16 tr = false.
Proof.
  unfold read_file_tool.
  destruct filepath as [| | | |filepath| |]; try (io_unfold; refused).
  io_unfold.
  destruct (contains (u "..") filepath || isabs filepath); [refused|].
  cbn [app].
  destruct (os_resolve w filepath) as [f|p]; [destruct f; refused|].
  destruct (negb (is_relative_to p (os_getcwd w))); [refused|].
  destruct (os_stat w p) as [f|[st|]];
    [destruct f; refused | | cbn [negb]; refused].
  cbn [negb]. destruct st as [kind size].
  destruct kind; cbn [negb]; try refused.
  cbn [st_size]. destruct (1024 * 1024 <? size)%N; [refused|].
  destruct (os_read w p) as [f|raw]; [destruct f; refused|].
  destruct (utf8_decode_ignore_total raw) as [content ->].
  refused.
Qed.

(** Whatever the argument, every stat, open and listing that read_file
    and list_files perform is of a path inside the working directory. *)
Lemma read_file_stays_inside (w : World) (filepath : pyvalue) :
  forallb (inside w) (snd (io_run (read_file_tool w filepath))) = true.
Proof.
  unfold read_file_tool.
  destruct filepath as [| | | |filepath| |]; try (io_unfold; reflexivity).
  io_unfold.
  destruct (contains (u "..") filepath || isabs filepath); [reflexivity|].
  cbn [app].
  destruct (os_resolve w filepath) as [f|p]; [settle|].
  destruct (is_relative_to p (os_getcwd w)) eqn:I; [|reflexivity].
  cbn [negb].
  destruct (os_stat w p) as [f|[st|]]; [settle| |settle].
  cbn [negb]. destruct st as [kind size].
  destruct kind; cbn [negb]; try solve [settle].
  cbn [st_size]. destruct (1024 * 1024 <? size)%N; [settle|].
  destruct (os_read w p) as [f|raw]; [settle|].
  destruct (utf8_decode_ignore_total raw) as [content ->]. settle.
Qed.

Lemma list_files_stays_inside (w : World) (directory : pyvalue) :
  forallb (inside w) (snd (io_run (list_files_tool w directory))) = true.
Proof.
  unfold list_files_tool.
  destruct directory as [| | | |directory| |]; try (io_unfold; reflexivity).
  io_unfold.
  destruct (contains (u "..") directory || isabs directory); [reflexivity|].
  cbn [app].
  destruct (os_resolve w directory) as [f|p]; [settle|].
  destruct (is_relative_to p (os_getcwd w)) eqn:I; [|reflexivity].
  cbn [negb].
  destruct (os_stat w p) as [f|[st|]]; [settle| |settle].
  cbn [negb]. destruct st as [kind size].
  destruct kind; cbn [negb]; try solve [settle].
  destruct (os_iterdir w p) as [f|entries]; [settle|].
  destruct (sort_strs (list_items entries)); settle.
Qed.



Example read_file_skips_invalid_byte :
  io_run (read_file_tool demo_world (PyStr (u "notes.txt")))
  = (inr (tool_ok (u "hi")),
     [EvResolve (u "notes.txt");
      EvStat (demo_cwd ++ [u "notes.txt"]);
      EvStat (demo_cwd ++ [u "notes.txt"]);
      EvStat (demo_cwd ++ [u "notes.txt"]);
      EvOpen (demo_cwd ++ [u "notes.txt"]) UTF8]).
Proof. vm_compute. reflexivity. Qed.

Lemma explains_functional w self tool args timeout o1 r1 tr1 o2 r2 tr2 :
  explains w self tool args timeout o1 r1 tr1 ->
  explains w self tool args timeout o2 r2 tr2 ->
  o1 = o2 /\ r1 = r2 /\ tr1 = tr2.
Proof.
  intros E1 E2.
  destruct E1; destruct E2;
    repeat match goal with
           | H : get_tool _ _ = Some _, H' : get_tool _ _ = Some _ |- _ =>
             rewrite H in H'; injection H' as H'; try subst
           end;
    try congruence;
    repeat match goal with
           | H : function _ _ _ = _, H' : function _ _ _ = _ |- _ =>
             rewrite H in H'; inversion H'; subst; clear H'
           | H : future_result _ _ _ _ = _, H' : future_result _ _ _ _ = _
             |- _ =>
             rewrite H in H'; inversion H'; subst; clear H'
           | H : str_of_int _ _ = _, H' : str_of_int _ _ = _ |- _ =>
             rewrite H in H'; inversion H'; subst; clear H'
           | H : pool_submit_error _ _ _ = _,
             H' : pool_submit_error _ _ _ = _ |- _ =>
             rewrite H in H'; inversion H'; subst; clear H'
           end;
    auto.
Qed.

Lemma run_tool_explained w self tool args timeout :
  exists o r tr,
    io_run (ToolExecutor_run_tool w self tool args timeout) = (inr r, tr)
    /\ explains w self tool args timeout o r tr.
Proof.
  unfold ToolExecutor_run_tool, io_run.
  destruct (get_tool w tool) as [d|] eqn:G.
  2:{ exists RegistryMiss. do 2 eexists. split; [reflexivity|].
      apply explains_miss. exact G. }
  destruct (validate_tool_parameters w tool args) eqn:V.
  2:{ exists ValidationFailure. do 2 eexists. split; [reflexivity|].
      eapply explains_invalid; eauto. }
  cbn [negb]. unfold submit, _execute_tool_safely.
  cbv [io_try io_bind io_ret io_raise io_call io_emit]. cbn [app].
  destruct (pool_is_shutdown self) eqn:P.
  { exists SchedulingFailure. do 2 eexists. split; [reflexivity|].
    eapply explains_refused; eauto. }
  destruct (pool_submit_error w tool args) as [e|] eqn:Q.
  { exists WorkerStartFailure. do 2 eexists. split; [reflexivity|].
    eapply explains_not_started; eauto. }
  destruct (future_result w tool args timeout) as [| |e] eqn:D.
  2:{ cbv [io_of].
      destruct (str_of_int w timeout) as [e|seconds] eqn:S.
      - exists TimeoutReportFailure. do 2 eexists. split; [reflexivity|].
        eapply explains_timeout_unreported; eauto.
      - exists TimedOut. do 2 eexists. split; [reflexivity|].
        eapply explains_timeout; eauto. }
  2:{ exists WaitFailure. do 2 eexists. split; [reflexivity|].
      eapply explains_wait_raised; eauto. }
  destruct (function d args [EvSubmit tool args]) as [[e|[r|]] tr] eqn:F.
  - exists ImplementationFailure. do 2 eexists. split; [reflexivity|].
    eapply explains_raised; eauto.
  - exists NormalSuccess, r, tr. split; [destruct r; reflexivity|].
    eapply explains_success; eauto.
  - exists ImplementationFailure. do 2 eexists. split; [reflexivity|].
    eapply explains_not_a_result; eauto.
Qed.

Lemma run_tool_on_global_executor w instance tool args timeout :
  fst (run_tool w instance tool args timeout)
  = ToolExecutor_run_tool w (fst (get_executor instance)) tool args timeout.
Proof. unfold run_tool. destruct (get_executor instance). reflexivity. Qed.

(** C7, amended.  Every call of run_tool returns a result and raises
    no exception that derives from [Exception]; exactly one of nine
    outcomes explains the result and the trace: registry miss, validation
    failure, a tool result passed through, a failure of the
    implementation, timeout, and the four results of the outer handler,
    "Tool execution error: ...": refusal of a pool that was shut down to
    schedule, failure of an open pool to start a worker, a wait for the
    worker that raises something other than a timeout (as
    [future.result] does for a timeout above threading.TIMEOUT_MAX while
    the worker is running), and a timeout that expired but is too long
    to print in the message.  After a registry miss or a validation
    failure the trace is empty: nothing was submitted to the pool. *)
Theorem run_tool_has_exactly_one_outcome :
  forall (w : World) (self : ToolExecutor) (tool : str) (args : pydict)
         (timeout : Z),
    exists (o : outcome) (r : ToolResult) (tr : list event),
      io_run (ToolExecutor_run_tool w self tool args timeout) = (inr r, tr)
      /\ explains w self tool args timeout o r tr
      /\ (forall o' r' tr',
             explains w self tool args timeout o' r' tr' ->
             o' = o /\ r' = r /\ tr' = tr)
      /\ (o = RegistryMiss \/ o = ValidationFailure -> tr = []).
Proof.
  intros.
  destruct (run_tool_explained w self tool args timeout) as [o [r [tr [R E]]]].
  exists o, r, tr. split; [exact R|]. split; [exact E|]. split.
  - intros o' r' tr' E'. apply (explains_functional E' E).
  - intros [H|H]; subst o; inversion E; reflexivity.
Qed.

(** C7 as stated fails on a pool that was shut down: the call of echo
    ends in "Tool execution error", which none of the five outcomes of
    the claim explains. *)
Lemma shut_down_pool_is_a_sixth_outcome :
  io_run (ToolExecutor_run_tool demo_world closed_executor (u "echo")
                                echo_call 6)
  = (inr (tool_fail
            (u "Tool execution error: cannot schedule new futures after shutdown")),
     [EvSubmit (u "echo") echo_call])
  /\ io_run (fst (run_tool demo_world (Some closed_executor) (u "echo")
                           echo_call 6))
     = (inr (tool_fail
               (u "Tool execution error: cannot schedule new futures after shutdown")),
        [EvSubmit (u "echo") echo_call])
  /\ ~ (exists o r tr,
           o <> SchedulingFailure
           /\ explains demo_world closed_executor (u "echo") echo_call 6
                       o r tr).
Proof.
  split; [vm_compute; reflexivity|].
  split; [vm_compute; reflexivity|].
  intros [o [r [tr [N E]]]].
  inversion E; subst;
    try congruence;
    match goal with
    | H : get_tool _ _ = None |- _ => vm_compute in H; discriminate H
    | H : validate_tool_parameters _ _ _ = false |- _ =>
      vm_compute in H; discriminate H
    | H : pool_is_shutdown _ = false |- _ => vm_compute in H; discriminate H
    end.
Qed.

(** C7 at a name the registry does not have. *)
Lemma run_tool_has_exactly_one_outcome_witness :
  exists (o : outcome) (r : ToolResult) (tr : list event),
    io_run (ToolExecutor_run_tool demo_world (ToolExecutor_init 4) (u "non_existent") [] 6)
    = (inr r, tr)
    /\ explains demo_world (ToolExecutor_init 4) (u "non_existent") [] 6
                o r tr
    /\ (forall o' r' tr',
           explains demo_world (ToolExecutor_init 4) (u "non_existent") [] 6
                    o' r' tr' ->
           o' = o /\ r' = r /\ tr' = tr)
    /\ (o = RegistryMiss \/ o = ValidationFailure -> tr = []).
Proof.
  exact (run_tool_has_exactly_one_outcome
           demo_world (ToolExecutor_init 4) (u "non_existent") [] 6).
Defined.

(** The other results of the outer handler, on a machine whose workers
    never finish: a wait of 6 seconds expires, a wait of 10^10 seconds
    raises, the expired wait with a timeout of 641 digits cannot be
    reported, and no worker can be started for calc. *)
Example run_tool_outer_handler_vectors :
  io_run (ToolExecutor_run_tool busy_world (ToolExecutor_init 4) (u "echo")
                                echo_call 6)
  = (inr (tool_fail (u "Tool 'echo' execution timed out after 6 seconds")),
     [EvSubmit (u "echo") echo_call; EvCancel (u "echo")])
  /\ io_run (ToolExecutor_run_tool busy_world (ToolExecutor_init 4)
                                   (u "echo") echo_call (10 ^ 10))
     = (inr (tool_fail
               (u "Tool execution error: timestamp too large to convert to C _PyTime_t")),
        [EvSubmit (u "echo") echo_call])
  /\ io_run (ToolExecutor_run_tool busy_world (ToolExecutor_init 4)
                                   (u "echo") echo_call (- 10 ^ 640))
     = (inr (tool_fail
               (u "Tool execution error: "
                  ++ int_max_str_digits_error busy_world)),
        [EvSubmit (u "echo") echo_call; EvCancel (u "echo")])
  /\ io_run (ToolExecutor_run_tool busy_world (ToolExecutor_init 4)
                                   (u "calc")
                                   [(u "expression", PyStr (u "1"))] 6)
     = (inr (tool_fail (u "Tool execution error: can't start new thread")),
        [EvSubmit (u "calc") [(u "expression", PyStr (u "1"))]]).
Proof. split; [|split; [|split]]; vm_compute; reflexivity. Qed.

(** An int of 641 digits is beyond the limit of [str(result)] there. *)
Example calc_int_beyond_digit_limit :
  io_run (calc_tool busy_world (PyStr (u "10 ** 640")))
  = (inr (tool_fail
            (u "Invalid value: " ++ int_max_str_digits_error busy_world)),
     [EvEval (u "10 ** 640")]).
Proof. vm_compute. reflexivity. Qed.

(* ================================================================= *)
(** * Vectors of the test suite *)

Example validate_vectors (w : World) :
  validate_tool_parameters w (u "echo") [(u "text", PyStr (u "x"))] = true
  /\ validate_tool_parameters w (u "echo") [] = false
  /\ validate_tool_parameters w (u "calc") [(u "expression", PyInt 5)] = false
  /\ validate_tool_parameters w (u "unknown") [] = false.
Proof. split; [|split; [|split]]; vm_compute; reflexivity. Qed.

Example echo_vectors (w : World) :
  io_run (echo_tool (PyStr (u "Hello" ++ [NUL] ++ u "World")))
  = (inr (tool_ok (u "HelloWorld")), [])
  /\ io_run (echo_tool (PyInt 123))
     = (inr (tool_fail (u "Input must be a string")), []).
Proof. split; vm_compute; reflexivity. Qed.

Example weighted_scoring_vector :
  _calculate_overall_score weighted_scoring_breakdown = binary64 82.6
  /\ (dot_product (breakdown_scores weighted_scoring_breakdown)
                  stated_weights == 82.6)%Q.
Proof. split; vm_compute; reflexivity. Qed.

Example run_tool_vectors :
  io_run (ToolExecutor_run_tool demo_world (ToolExecutor_init 4) (u "echo")
                                [(u "text", PyStr (u "Hello"))] 6)
  = (inr (tool_ok (u "Hello")),
     [EvSubmit (u "echo") [(u "text", PyStr (u "Hello"))]])
  /\ io_run (ToolExecutor_run_tool demo_world (ToolExecutor_init 4)
                                   (u "non_existent") [] 6)
     = (inr (tool_fail (u "Tool 'non_existent' not found in registry")), [])
  /\ io_run (ToolExecutor_run_tool demo_world (ToolExecutor_init 4)
                                   (u "echo") [] 6)
     = (inr (tool_fail (u "Invalid parameters for tool 'echo'")), []).
Proof. split; [|split]; vm_compute; reflexivity. Qed.

(* ================================================================= *)
(** * Further properties of the ATS checker *)

Lemma add_issues_nil self : add_issues self [] = self.
Proof. destruct self. unfold add_issues. cbn. rewrite app_nil_r. reflexivity. Qed.

Lemma add_issues_app self a b :
  add_issues (add_issues self a) b = add_issues self (a ++ b).
Proof. unfold add_issues. cbn. rewrite app_assoc. reflexivity. Qed.

Lemma issues_append_add i self :
  issues_append i self = (tt, add_issues self [i]).
Proof. reflexivity. Qed.

Lemma pure_check_ret (A : Type) (a : A) : pure_check (ret a).
Proof. intros s. unfold value, raised, ret. cbn. rewrite add_issues_nil. reflexivity. Qed.

Lemma pure_check_issues_append i : pure_check (issues_append i).
Proof. intros s. reflexivity. Qed.

Lemma pure_check_bind (A B : Type) (m : Method A) (k : A -> Method B) :
  pure_check m -> (forall a, pure_check (k a)) -> pure_check (bind m k).
Proof.
  intros Hm Hk s. unfold value, raised, bind.
  rewrite (Hm s), (Hm ATSChecker_init).
  rewrite (Hk (value m) (add_issues s (raised m))).
  rewrite (Hk (value m) (add_issues ATSChecker_init (raised m))).
  cbn [fst snd]. rewrite add_issues_app. reflexivity.
Qed.

Ltac pure_check_step :=
  first [ apply pure_check_ret
        | apply pure_check_issues_append
        | apply pure_check_bind; [|intros ?] ].

Ltac prove_pure_check := repeat first [ pure_check_step | break_if ].

Lemma pure_check_file_text_extractable raw_text :
  pure_check (_check_file_text_extractable raw_text).
Proof. unfold _check_file_text_extractable. prove_pure_check. Qed.

Lemma pure_check_layout resume_json raw_text :
  pure_check (_check_layout resume_json raw_text).
Proof. unfold _check_layout. prove_pure_check. Qed.

Lemma pure_check_headers set_iter resume_json raw_text :
  pure_check (_check_headers set_iter resume_json raw_text).
Proof. unfold _check_headers. prove_pure_check. Qed.

Lemma pure_check_contact resume_json raw_text :
  pure_check (_check_contact resume_json raw_text).
Proof.
  unfold _check_contact.
  repeat match goal with
         | |- context [let '(_, _) := ?p in _] => destruct p
         end.
  match goal with
  | |- context [match ?found with [] => _ | _ :: _ => _ end] =>
    destruct found
  end; prove_pure_check.
Qed.

Lemma pure_check_skills resume_json raw_text :
  pure_check (_check_skills resume_json raw_text).
Proof. unfold _check_skills. prove_pure_check. Qed.

Lemma pure_check_experience resume_json raw_text :
  pure_check (_check_experience resume_json raw_text).
Proof. unfold _check_experience. prove_pure_check. Qed.

Lemma pure_check_dates resume_json raw_text :
  pure_check (_check_dates resume_json raw_text).
Proof. unfold _check_dates. prove_pure_check. Qed.

Lemma pure_check_fonts_images resume_json raw_text :
  pure_check (_check_fonts_images resume_json raw_text).
Proof. unfold _check_fonts_images. prove_pure_check. Qed.

Lemma pure_check_length raw_text : pure_check (_check_length raw_text).
Proof. unfold _check_length. prove_pure_check. Qed.

(* ================================================================= *)
(** * Further properties of the ATS checker *)

Lemma run_decomposition set_iter resume_json raw_text self :
  let j := resume_or_empty resume_json in
  let t := text_or_empty raw_text in
  fst (ATSChecker_run_ats_checks set_iter resume_json raw_text self)
  = {| score := _calculate_overall_score (check_values set_iter j t);
       breakdown := check_values set_iter j t;
       issues := concat (check_issues set_iter j t);
       recommended_actions := [];
       confidence :=
         _determine_confidence (check_values set_iter j t) (List.length t) |}.
Proof.
  unfold ATSChecker_run_ats_checks. cbv zeta. rewrite bind_reset_state.
  cbv beta.
  change (match resume_json with Some d => d | None => [] end)
    with (resume_or_empty resume_json).
  change (match raw_text with Some t => t | None => [] end)
    with (text_or_empty raw_text).
  generalize (resume_or_empty resume_json) (text_or_empty raw_text).
  intros j t. unfold bind, get_issues, get_recommended_actions, ret.
  rewrite (pure_check_file_text_extractable t ATSChecker_init).
  rewrite (pure_check_layout j t _).
  rewrite (pure_check_headers set_iter j t _).
  rewrite (pure_check_contact j t _).
  rewrite (pure_check_skills j t _).
  rewrite (pure_check_experience j t _).
  rewrite (pure_check_dates j t _).
  rewrite (pure_check_fonts_images j t _).
  rewrite (pure_check_length t _).
  rewrite !add_issues_app.
  cbn [fst add_issues self_issues self_recommended_actions ATSChecker_init app].
  unfold check_values, check_issues. cbn [concat]. rewrite app_nil_r.
  reflexivity.
Qed.

(* ================================================================= *)
(** * Further properties of the ATS checker *)

Lemma Qltb_lt (a b : Q) : Qltb a b = true <-> (a < b)%Q.
Proof.
  unfold Qltb. rewrite negb_true_iff. split; intros H.
  - apply Qnot_le_lt. intros L. apply Qle_bool_iff in L. congruence.
  - destruct (Qle_bool b a) eqn:E; [|reflexivity].
    apply Qle_bool_iff in E. exfalso. exact (Qlt_not_le _ _ H E).
Qed.

Lemma Qltb_ge (a b : Q) : Qltb a b = false <-> (b <= a)%Q.
Proof.
  unfold Qltb. rewrite negb_false_iff. apply Qle_bool_iff.
Qed.

Ltac break_if_eq :=
  match goal with
  | |- context [if ?c then _ else _] =>
    lazymatch type of c with
    | bool =>
      lazymatch c with
      | Qltb _ _ => fail
      | _ => destruct c eqn:?
      end
    end
  end.

Ltac nat_facts :=
  repeat match goal with
         | H : (_ <=? _) = true |- _ => apply Nat.leb_le in H
         | H : (_ <=? _) = false |- _ => apply Nat.leb_gt in H
         | H : (_ <? _) = true |- _ => apply Nat.ltb_lt in H
         | H : (_ <? _) = false |- _ => apply Nat.ltb_ge in H
         end.

Ltac hide_messages :=
  repeat match goal with
         | |- context [mk_issue ?c ?s ?m ?r] =>
           first [ is_var m; fail 1 | generalize m; intro ]
         end;
  repeat match goal with
         | |- context [mk_issue ?c ?s ?m ?r] =>
           first [ is_var r; fail 1 | generalize r; intro ]
         end.

Ltac summarise :=
  unfold raised, value, bind, ret, issues_append;
  repeat break_if_eq;
  cbn [fst snd self_issues ATSChecker_init app];
  hide_messages;
  first [ split; [vm_compute; reflexivity|];
          split; [vm_compute; lia|];
          vm_compute; reflexivity
        | exfalso; nat_facts; lia ].

Lemma summary_layout j t :
  forallb (belongs_to (u "layout")) (raised (_check_layout j t)) = true
  /\ List.length (raised (_check_layout j t)) <= 3
  /\ (match raised (_check_layout j t) with [] => false | _ => true end)
     = Qltb (value (_check_layout j t)) 100.
Proof. unfold _check_layout. summarise. Qed.

Lemma summary_headers i j t :
  forallb (belongs_to (u "headers")) (raised (_check_headers i j t)) = true
  /\ List.length (raised (_check_headers i j t)) <= 1
  /\ (match raised (_check_headers i j t) with [] => false | _ => true end)
     = Qltb (value (_check_headers i j t)) 80.
Proof. unfold _check_headers. summarise. Qed.

Lemma garbled_count_exceeds (raw_text : str) :
  Qltb (int_times_float (List.length raw_text) (binary64 0.05))
       (Qnat (sum_counts raw_text garbled_indicators)) = true.
Proof.
  unfold Qltb. apply negb_true_iff.
  destruct (Qle_bool _ _) eqn:E; [|reflexivity].
  apply Qle_bool_iff in E. exfalso.
  assert (B : (int_times_float (List.length raw_text) (binary64 0.05)
               < Qnat (List.length raw_text) + 1)%Q)
    by (apply int_times_float_below; vm_compute; discriminate).
  assert (G : (Qnat (List.length raw_text) + 1
               <= Qnat (sum_counts raw_text garbled_indicators))%Q).
  { unfold sum_counts, garbled_indicators.
    cbn [map list_sum fold_right count].
    generalize (count raw_text (u "cid:")) (count_from [NUL] 0 raw_text)
               (count_from [REPLACEMENT_CHARACTER] 0 raw_text).
    intros c1 c2 c3. unfold Qnat. change 1%Q with (inject_Z 1).
    rewrite <- inject_Z_plus, <- Zle_Qle. lia. }
  lra.
Qed.

Lemma summary_file_text_extractable t :
  forallb (belongs_to (u "file_text_extractable"))
          (raised (_check_file_text_extractable t)) = true
  /\ List.length (raised (_check_file_text_extractable t)) <= 1
  /\ (match raised (_check_file_text_extractable t) with
      | [] => false | _ => true end)
     = Qltb (value (_check_file_text_extractable t)) 100.
Proof.
  unfold _check_file_text_extractable. rewrite garbled_count_exceeds.
  summarise.
Qed.

Lemma summary_skills j t :
  forallb (belongs_to (u "skills")) (raised (_check_skills j t)) = true
  /\ List.length (raised (_check_skills j t)) <= 1
  /\ (match raised (_check_skills j t) with [] => false | _ => true end)
     = Qltb (value (_check_skills j t)) 60.
Proof. unfold _check_skills. summarise. Qed.

Lemma summary_experience j t :
  forallb (belongs_to (u "experience")) (raised (_check_experience j t)) = true
  /\ List.length (raised (_check_experience j t)) <= 1
  /\ (match raised (_check_experience j t) with [] => false | _ => true end)
     = Qltb (value (_check_experience j t)) 50.
Proof. unfold _check_experience. summarise. Qed.

Lemma summary_dates j t :
  forallb (belongs_to (u "dates")) (raised (_check_dates j t)) = true
  /\ List.length (raised (_check_dates j t)) <= 1
  /\ (match raised (_check_dates j t) with [] => false | _ => true end)
     = Qltb (value (_check_dates j t)) 60.
Proof. unfold _check_dates. summarise. Qed.

Lemma summary_fonts_images j t :
  forallb (belongs_to (u "fonts_images")) (raised (_check_fonts_images j t))
  = true
  /\ List.length (raised (_check_fonts_images j t)) <= 2
  /\ (match raised (_check_fonts_images j t) with [] => false | _ => true end)
     = Qltb (value (_check_fonts_images j t)) 100.
Proof. unfold _check_fonts_images. summarise. Qed.

Lemma summary_length t :
  forallb (belongs_to (u "length")) (raised (_check_length t)) = true
  /\ List.length (raised (_check_length t)) <= 1
  /\ (match raised (_check_length t) with [] => false | _ => true end)
     = Qltb (value (_check_length t)) 100.
Proof. unfold _check_length. summarise. Qed.

(* ================================================================= *)
(** * Further properties of the ATS checker *)

Lemma Qnat_S (n : nat) : (Qnat (S n) == Qnat n + 1)%Q.
Proof.
  unfold Qnat. rewrite Nat2Z.inj_succ. unfold Z.succ.
  rewrite inject_Z_plus. reflexivity.
Qed.

Lemma contact_scan_keys_found keys resume_json found (sc : Q) :
  (20 * Qnat (List.length found) <= sc)%Q ->
  (sc <= 30 * Qnat (List.length found))%Q ->
  let r := contact_scan_keys keys resume_json found sc in
  (20 * Qnat (List.length (fst r)) <= snd r)%Q
  /\ (snd r <= 30 * Qnat (List.length (fst r)))%Q.
Proof.
  revert found sc.
  induction keys as [|key keys IH]; intros found sc L U;
    cbn [contact_scan_keys].
  - cbn [fst snd]. split; assumption.
  - assert (G : (20 * Qnat (List.length (found ++ [lower key])) <= sc + 20)%Q
                /\ (sc + 20 <= 30 * Qnat (List.length (found ++ [lower key])))%Q).
    { rewrite length_app. cbn [List.length]. rewrite Nat.add_1_r, Qnat_S.
      assert (0 <= Qnat (List.length found))%Q.
      { unfold Qnat. change 0%Q with (inject_Z 0). rewrite <- Zle_Qle. lia. }
      split; lra. }
    destruct G as [GL GU].
    repeat break_if; apply IH; assumption.
Qed.

Lemma py_min_100_below (s thr : Q) :
  (thr <= 100)%Q -> Qltb (py_min 100 s) thr = Qltb s thr.
Proof.
  intros T. unfold py_min. destruct (Qltb s 100) eqn:E; [reflexivity|].
  apply Qltb_ge in E.
  transitivity false; [|symmetry]; apply Qltb_ge; lra.
Qed.

Lemma py_min_100_zero (s : Q) :
  Qle_bool (py_min 100 s) 0 = Qle_bool s 0.
Proof.
  unfold py_min. destruct (Qltb s 100) eqn:E; [reflexivity|].
  apply Qltb_ge in E.
  transitivity false; [reflexivity|].
  symmetry. destruct (Qle_bool s 0) eqn:F; [|reflexivity].
  apply Qle_bool_iff in F. lra.
Qed.

Lemma summary_contact j t :
  forallb (belongs_to (u "contact")) (raised (_check_contact j t)) = true
  /\ List.length (raised (_check_contact j t)) <= 1
  /\ (match raised (_check_contact j t) with [] => false | _ => true end)
     = Qltb (value (_check_contact j t)) 40
  /\ map severity (raised (_check_contact j t))
     = contact_verdict (value (_check_contact j t)).
Proof.
  assert (K : exists found sc,
             (20 * Qnat (List.length found) <= sc)%Q
             /\ (sc <= 30 * Qnat (List.length found))%Q
             /\ _check_contact j t
                = bind (match found with
                        | [] =>
                          issues_append
                            (mk_issue (u "contact") (u "critical")
                               (u "No contact information found")
                               (u "Add email, phone number, and location to your resume"))
                        | _ =>
                          if List.length found <? 2
                          then
                            issues_append
                              (mk_issue (u "contact") (u "major")
                                 (u "Limited contact information. Found: "
                                    ++ repr_word_list found)
                                 (u "Add missing contact details (email, phone, location)"))
                          else ret tt
                        end)
                       (fun _ => ret (py_min 100 sc))).
  { unfold _check_contact.
    set (c1 := (0 <? re_findall_count false email_pattern t)%nat).
    set (c2 := (0 <? re_findall_count false phone_pattern t)%nat).
    set (c3 := existsb _ location_patterns).
    destruct c1, c2, c3; cbv beta iota zeta;
      (destruct (dict_truthy j);
       [ match goal with
         | |- context [contact_scan_keys ?k ?j ?f ?s] =>
           assert (K : (20 * Qnat (List.length f) <= s)%Q
                       /\ (s <= 30 * Qnat (List.length f))%Q)
             by (split; vm_compute; discriminate);
           destruct K as [K1 K2];
           pose proof (contact_scan_keys_found k j f K1 K2) as K;
           destruct (contact_scan_keys k j f s) as [cf s']
         end;
         cbn [fst snd] in K; destruct K as [L U];
         exists cf, s'; split; [exact L|]; split; [exact U|]; reflexivity
       | first [ match goal with
                 | |- context [match ?l with [] => _ | _ :: _ => _ end] =>
                   match goal with
                   | |- context [py_min 100 ?s] => exists l, s
                   end
                 end
               | exists [], 0%Q ];
         split; [vm_compute; discriminate|];
         split; [vm_compute; discriminate | reflexivity] ]). }
  destruct K as [found [sc [L [U E]]]]. rewrite E. clear E.
  unfold raised, value, bind, ret, issues_append, contact_verdict.
  destruct found as [|a [|b found]]; cbn [List.length] in L, U;
    cbv beta iota zeta.
  - cbn [fst snd self_issues ATSChecker_init app map severity mk_issue].
    rewrite py_min_100_below, py_min_100_zero by lra.
    assert (Z : (sc <= 0)%Q).
    { change (Qnat 0) with 0%Q in U. lra. }
    rewrite (proj2 (Qltb_lt sc 40)) by lra.
    rewrite (proj2 (Qle_bool_iff sc 0)) by exact Z.
    split; [reflexivity|]. split; [cbn; lia|]. split; reflexivity.
  - cbn [List.length Nat.ltb Nat.leb fst snd self_issues ATSChecker_init app map severity
         mk_issue].
    rewrite py_min_100_below, py_min_100_zero by lra.
    change (Qnat 1) with 1%Q in *.
    rewrite (proj2 (Qltb_lt sc 40)) by lra.
    destruct (Qle_bool sc 0) eqn:F; [apply Qle_bool_iff in F; lra|].
    split; [reflexivity|]. split; [cbn; lia|]. split; reflexivity.
  - cbn [List.length Nat.ltb Nat.leb fst snd self_issues ATSChecker_init app map severity].
    rewrite py_min_100_below, py_min_100_zero by lra.
    assert (G : (40 <= sc)%Q).
    { rewrite !Qnat_S in L.
      assert (0 <= Qnat (List.length found))%Q.
      { unfold Qnat. change 0%Q with (inject_Z 0). rewrite <- Zle_Qle. lia. }
      lra. }
    rewrite (proj2 (Qltb_ge sc 40)) by exact G.
    destruct (Qle_bool sc 0) eqn:F; [apply Qle_bool_iff in F; lra|].
    split; [reflexivity|]. split; [cbn; lia|]. split; reflexivity.
Qed.

(* ================================================================= *)
(** * Further properties of the ATS checker *)

Lemma str_eqb_eq (a b : str) : str_eqb a b = true <-> a = b.
Proof.
  revert b. induction a as [|x a IH]; intros [|y b]; cbn [str_eqb];
    try (split; [discriminate | discriminate]); try (split; reflexivity).
  unfold cp_eqb. rewrite andb_true_iff, N.eqb_eq, IH.
  split; [intros [-> ->]; reflexivity | intros E; inversion E; auto].
Qed.

Lemma belongs_to_category c i : belongs_to c i = true -> category i = c.
Proof.
  unfold belongs_to. rewrite andb_true_iff. intros [H _].
  apply str_eqb_eq. exact H.
Qed.

Lemma belongs_to_severity c i :
  belongs_to c i = true -> In (severity i) severities.
Proof.
  unfold belongs_to, mem. rewrite andb_true_iff. intros [_ H].
  apply existsb_exists in H. destruct H as [x [I E]].
  apply str_eqb_eq in E. subst x. exact I.
Qed.

Lemma existsb_in_group c c' g :
  forallb (belongs_to c) g = true ->
  existsb (fun i => str_eqb (category i) c') g
  = str_eqb c c' && match g with [] => false | _ => true end.
Proof.
  intros H. induction g as [|i g IH]; cbn [existsb].
  - rewrite andb_false_r. reflexivity.
  - cbn [forallb] in H. apply andb_true_iff in H. destruct H as [Hi Hg].
    rewrite (belongs_to_category _ _ Hi), (IH Hg).
    destruct (str_eqb c c'); cbn [andb orb]; reflexivity.
Qed.

Lemma filter_in_group c c' g :
  forallb (belongs_to c) g = true ->
  filter (fun i => str_eqb (category i) c') g
  = if str_eqb c c' then g else [].
Proof.
  intros H. induction g as [|i g IH]; cbn [filter].
  - destruct (str_eqb c c'); reflexivity.
  - cbn [forallb] in H. apply andb_true_iff in H. destruct H as [Hi Hg].
    rewrite (belongs_to_category _ _ Hi), (IH Hg).
    destruct (str_eqb c c'); reflexivity.
Qed.

Ltac eval_str_eqb :=
  repeat match goal with
         | |- context [str_eqb (u ?a) (u ?b)] =>
           let v := eval vm_compute in (str_eqb (u a) (u b)) in
           change (str_eqb (u a) (u b)) with v
         end.

(** X1.  In every report a category has an issue exactly when its score
    is below the threshold of the category: 100 for file_text_extractable,
    layout, fonts_images and length, 80 for headers, 40 for contact, 60
    for skills and dates, 50 for experience. *)
Theorem category_is_flagged_iff_score_is_low :
  forall (set_iter : list str -> list str) (resume_json : option pydict)
         (raw_text : option str) (self : ATSChecker),
    let r := fst (ATSChecker_run_ats_checks set_iter resume_json raw_text
                                            self) in
    Forall (fun e => has_issue_in (fst (fst e)) r
                     = Qltb (snd (fst e) (breakdown r)) (snd e))
           flag_thresholds.
Proof.
  intros set_iter resume_json raw_text self. cbv zeta. rewrite run_decomposition.
  generalize (resume_or_empty resume_json) (text_or_empty raw_text).
  intros j t. unfold has_issue_in, flag_thresholds.
  cbn [issues breakdown check_values check_issues concat fst snd
       file_text_extractable layout headers contact skills experience dates
       fonts_images length].
  destruct (summary_file_text_extractable t) as [A1 [_ B1]].
  destruct (summary_layout j t) as [A2 [_ B2]].
  destruct (summary_headers set_iter j t) as [A3 [_ B3]].
  destruct (summary_contact j t) as [A4 [_ [B4 _]]].
  destruct (summary_skills j t) as [A5 [_ B5]].
  destruct (summary_experience j t) as [A6 [_ B6]].
  destruct (summary_dates j t) as [A7 [_ B7]].
  destruct (summary_fonts_images j t) as [A8 [_ B8]].
  destruct (summary_length t) as [A9 [_ B9]].
  repeat (apply Forall_cons;
          [ cbn [fst snd]; rewrite !existsb_app;
            rewrite (@existsb_in_group _ _ _ A1), (@existsb_in_group _ _ _ A2),
              (@existsb_in_group _ _ _ A3), (@existsb_in_group _ _ _ A4),
              (@existsb_in_group _ _ _ A5), (@existsb_in_group _ _ _ A6),
              (@existsb_in_group _ _ _ A7), (@existsb_in_group _ _ _ A8),
              (@existsb_in_group _ _ _ A9);
            eval_str_eqb; cbn [andb orb existsb]; rewrite ?orb_false_r;
            assumption
          | ]).
  apply Forall_nil.
Qed.

(** X2.  The contact issues of a report follow from its contact score:
    one critical issue when the score is 0, one major issue when it is
    above 0 and below 40, none from 40 on. *)
Theorem contact_severity_follows_score :
  forall (set_iter : list str -> list str) (resume_json : option pydict)
         (raw_text : option str) (self : ATSChecker),
    let r := fst (ATSChecker_run_ats_checks set_iter resume_json raw_text
                                            self) in
    map severity (issues_in (u "contact") r)
    = contact_verdict (contact (breakdown r)).
Proof.
  intros set_iter resume_json raw_text self. cbv zeta. rewrite run_decomposition.
  generalize (resume_or_empty resume_json) (text_or_empty raw_text).
  intros j t. unfold issues_in.
  cbn [issues breakdown check_values check_issues concat contact].
  destruct (summary_file_text_extractable t) as [A1 _].
  destruct (summary_layout j t) as [A2 _].
  destruct (summary_headers set_iter j t) as [A3 _].
  destruct (summary_contact j t) as [A4 [_ [_ B4]]].
  destruct (summary_skills j t) as [A5 _].
  destruct (summary_experience j t) as [A6 _].
  destruct (summary_dates j t) as [A7 _].
  destruct (summary_fonts_images j t) as [A8 _].
  destruct (summary_length t) as [A9 _].
  rewrite !filter_app.
  rewrite (@filter_in_group _ _ _ A1), (@filter_in_group _ _ _ A2),
    (@filter_in_group _ _ _ A3), (@filter_in_group _ _ _ A4),
    (@filter_in_group _ _ _ A5), (@filter_in_group _ _ _ A6),
    (@filter_in_group _ _ _ A7), (@filter_in_group _ _ _ A8),
    (@filter_in_group _ _ _ A9).
  eval_str_eqb. cbn [app filter]. rewrite app_nil_r. exact B4.
Qed.

Lemma forallb_belongs_to c g :
  forallb (belongs_to c) g = true ->
  Forall (fun i => category i = c /\ In (severity i) severities) g.
Proof.
  intros H. apply Forall_forall. intros i I.
  rewrite forallb_forall in H. specialize (H i I).
  split; [exact (belongs_to_category _ _ H) | exact (belongs_to_severity _ _ H)].
Qed.

Lemma file_text_extractable_values raw_text self :
  let r := _check_file_text_extractable raw_text self in
  let short := List.length (strip raw_text) <? 50 in
  fst r = (if short then 0%Q else 30%Q)
  /\ exists i,
       self_issues (snd r) = self_issues self ++ [i]
       /\ category i = u "file_text_extractable"
       /\ severity i = (if short then u "critical" else u "major").
Proof.
  cbv zeta. unfold _check_file_text_extractable.
  rewrite garbled_count_exceeds.
  assert (E : match raw_text with [] => true | _ => false end
              || (List.length (strip raw_text) <? 50)
              = (List.length (strip raw_text) <? 50)).
  { destruct raw_text; reflexivity. }
  rewrite E. unfold bind, ret, issues_append.
  destruct (List.length (strip raw_text) <? 50); cbn [fst snd self_issues];
    (split; [reflexivity|]); eexists; (split; [reflexivity|]);
    split; reflexivity.
Qed.

(** X3.  The first of the garbled-text indicators is the empty string,
    which [str.count] finds len(text) + 1 times, more than 5% of the
    length: a text of at least 50 characters after stripping always takes
    the branch that returns 30 with a major issue, and the branches that
    return 60 and 100 are never reached.  The check returns 0 with a
    critical issue for a shorter text and 30 with a major issue otherwise,
    and appends exactly one issue. *)
Theorem text_extractable_score_is_zero_or_thirty :
  forall (raw_text : str) (self : ATSChecker),
    let r := _check_file_text_extractable raw_text self in
    let short := List.length (strip raw_text) <? 50 in
    List.length raw_text
    < sum_counts raw_text garbled_indicators
    /\ fst r = (if short then 0%Q else 30%Q)
    /\ (exists i,
           self_issues (snd r) = self_issues self ++ [i]
           /\ category i = u "file_text_extractable"
           /\ severity i = (if short then u "critical" else u "major"))
    /\ ~ (fst r == 60)%Q
    /\ ~ (fst r == 100)%Q.
Proof.
  intros raw_text self. cbv zeta.
  destruct (file_text_extractable_values raw_text self) as [E I].
  split.
  { unfold sum_counts, garbled_indicators.
    cbn [map list_sum fold_right count]. lia. }
  split; [exact E|]. split; [exact I|].
  rewrite E. destruct (List.length (strip raw_text) <? 50);
    split; vm_compute; discriminate.
Qed.

(** X4.  The issues of a report come in nine groups, one for each check
    in the order the checks run; the issues of a group carry the category
    of its check and one of the severities critical, major, minor; a
    group holds at most three issues for layout, two for fonts_images and
    one for any other check.  The first issue of every report is of
    category file_text_extractable: no report is free of issues. *)
Theorem report_issues_are_grouped_by_check :
  forall (set_iter : list str -> list str) (resume_json : option pydict)
         (raw_text : option str) (self : ATSChecker),
  let r := fst (ATSChecker_run_ats_checks set_iter resume_json raw_text self) in
  exists groups,
    issues r = concat groups
    /\ Forall2 (fun g c =>
                  Forall (fun i => category i = fst c
                                   /\ In (severity i) severities) g
                  /\ List.length g <= snd c)
               groups check_limits
    /\ exists i rest,
         issues r = i :: rest /\ category i = u "file_text_extractable".
Proof.
  intros set_iter resume_json raw_text self. cbv zeta. rewrite run_decomposition.
  generalize (resume_or_empty resume_json) (text_or_empty raw_text).
  intros j t. exists (check_issues set_iter j t).
  cbn [issues]. split; [reflexivity|].
  destruct (summary_file_text_extractable t) as [A1 [L1 _]].
  destruct (summary_layout j t) as [A2 [L2 _]].
  destruct (summary_headers set_iter j t) as [A3 [L3 _]].
  destruct (summary_contact j t) as [A4 [L4 _]].
  destruct (summary_skills j t) as [A5 [L5 _]].
  destruct (summary_experience j t) as [A6 [L6 _]].
  destruct (summary_dates j t) as [A7 [L7 _]].
  destruct (summary_fonts_images j t) as [A8 [L8 _]].
  destruct (summary_length t) as [A9 [L9 _]].
  split.
  - unfold check_issues, check_limits.
    apply Forall2_cons; [split; [apply forallb_belongs_to; exact A1 | exact L1]|].
    apply Forall2_cons; [split; [apply forallb_belongs_to; exact A2 | exact L2]|].
    apply Forall2_cons; [split; [apply forallb_belongs_to; exact A3 | exact L3]|].
    apply Forall2_cons; [split; [apply forallb_belongs_to; exact A4 | exact L4]|].
    apply Forall2_cons; [split; [apply forallb_belongs_to; exact A5 | exact L5]|].
    apply Forall2_cons; [split; [apply forallb_belongs_to; exact A6 | exact L6]|].
    apply Forall2_cons; [split; [apply forallb_belongs_to; exact A7 | exact L7]|].
    apply Forall2_cons; [split; [apply forallb_belongs_to; exact A8 | exact L8]|].
    apply Forall2_cons; [split; [apply forallb_belongs_to; exact A9 | exact L9]|].
    apply Forall2_nil.
  - unfold check_issues. cbn [concat].
    destruct (file_text_extractable_values t ATSChecker_init) as [_ [i [I [C _]]]].
    unfold raised at 1. rewrite I. cbn [ATSChecker_init self_issues app].
    exists i. eexists. split; [reflexivity | exact C].
Qed.

(* ================================================================= *)
(** * Further properties of the ATS checker *)

Lemma layout_at_least_40 j t self :
  (40 <= fst (_check_layout j t self))%Q.
Proof.
  unfold _check_layout, bind, ret, issues_append.
  repeat break_if; cbn [fst]; vm_compute; discriminate.
Qed.

Lemma fonts_images_at_least_70 j t self :
  (70 <= fst (_check_fonts_images j t self))%Q.
Proof.
  unfold _check_fonts_images, bind, ret, issues_append.
  repeat break_if; cbn [fst]; vm_compute; discriminate.
Qed.

Lemma length_at_least_60 t self : (60 <= fst (_check_length t self))%Q.
Proof.
  unfold _check_length, bind, ret, issues_append.
  repeat break_if; cbn [fst]; vm_compute; discriminate.
Qed.

Lemma file_text_extractable_at_most_30 t self :
  (fst (_check_file_text_extractable t self) <= 30)%Q.
Proof.
  destruct (file_text_extractable_values t self) as [E _]. rewrite E.
  break_if; vm_compute; discriminate.
Qed.

(** X5.  The overall score of every report lies between 12.5 and 89.5,
    and both ends are reached: no resume scores 90 or more, because the
    file_text_extractable score never exceeds 30, and none scores below
    12.5, because layout, fonts_images and length never fall below 40, 70
    and 60. *)
Theorem report_score_between_12_5_and_89_5 :
  forall set_iter : list str -> list str,
  (forall resume_json raw_text self,
      let r := fst (ATSChecker_run_ats_checks set_iter resume_json raw_text
                                              self) in
      (12.5 <= score r)%Q /\ (score r <= 89.5)%Q)
  /\ (score (run_ats_checks set_iter None (Some lowest_scoring_text))
      == 12.5)%Q
  /\ (score (run_ats_checks set_iter (Some highest_scoring_json)
                            (Some highest_scoring_text))
      == 89.5)%Q.
Proof.
  intros set_iter. split; [|split].
  - intros resume_json raw_text self. cbv zeta.
    rewrite report_score_is_exact.
    apply binary64_between;
      [vm_compute; reflexivity | vm_compute; reflexivity | |];
      rewrite run_decomposition;
      generalize (resume_or_empty resume_json) (text_or_empty raw_text);
      intros j t; cbn [breakdown];
      unfold check_values, breakdown_scores, value;
      cbn [file_text_extractable layout headers contact skills experience
           dates fonts_images length dot_product stated_weights];
      pose proof (file_text_extractable_range t ATSChecker_init) as [L1 _];
      pose proof (file_text_extractable_at_most_30 t ATSChecker_init) as U1;
      pose proof (layout_at_least_40 j t ATSChecker_init) as L2;
      pose proof (layout_range j t ATSChecker_init) as [_ U2];
      pose proof (headers_range set_iter j t ATSChecker_init) as [L3 U3];
      pose proof (contact_range j t ATSChecker_init) as [L4 U4];
      pose proof (skills_range j t ATSChecker_init) as [L5 U5];
      pose proof (experience_range j t ATSChecker_init) as [L6 U6];
      pose proof (dates_range j t ATSChecker_init) as [L7 U7];
      pose proof (fonts_images_at_least_70 j t ATSChecker_init) as L8;
      pose proof (fonts_images_range j t ATSChecker_init) as [_ U8];
      pose proof (length_at_least_60 t ATSChecker_init) as L9;
      pose proof (length_range t ATSChecker_init) as [_ U9];
      lra.
  - vm_compute. reflexivity.
  - vm_compute. reflexivity.
Qed.

(* ================================================================= *)
(** * Further properties of the ATS checker *)

Lemma same_but_headers_message_refl l :
  Forall2 same_but_headers_message l l.
Proof.
  induction l as [|i l IH]; constructor; [|exact IH].
  repeat split; reflexivity.
Qed.

Lemma headers_ignore_set_order i1 i2 j t :
  value (_check_headers i1 j t) = value (_check_headers i2 j t)
  /\ Forall2 same_but_headers_message
             (raised (_check_headers i1 j t)) (raised (_check_headers i2 j t)).
Proof.
  unfold _check_headers, raised, value, bind, ret, issues_append.
  break_if; cbn [fst snd self_issues ATSChecker_init app].
  - split; [reflexivity|]. constructor; [|constructor].
    split; [reflexivity|]. split; [reflexivity|]. split; [reflexivity|].
    intros N. exfalso. apply N. reflexivity.
  - split; [reflexivity | constructor].
Qed.


Lemma match_here_fails (A : Type) (ic : bool) (P : str -> Prop) (r : regex) :
  (forall c s, P (c :: s) -> P s) ->
  forall prev s (k : option codepoint -> str -> option A),
    P s -> (forall p s', P s' -> k p s' = None) ->
    match_here ic r prev s k = None.
Proof.
  intros Tail.
  induction r as [|neg items|r1 IH1 r2 IH2|r1 IH1 r2 IH2|lo hi body IH|r1 IH|];
    intros prev s k HP Hk; cbn [match_here].
  - apply Hk. exact HP.
  - destruct s as [|c s']; [reflexivity|].
    destruct (xorb neg (set_has ic items c)); [|reflexivity].
    apply Hk. exact (Tail _ _ HP).
  - apply IH1; [exact HP|]. intros p s' HP'. apply IH2; assumption.
  - rewrite (IH1 prev s k HP Hk). apply IH2; assumption.
  - generalize (List.length s) as fuel. generalize 0 as n.
    match goal with
    | |- forall n fuel, ?f fuel n prev s = None => set (rounds := f)
    end.
    assert (R : forall fuel n prev s,
               rounds fuel n prev s
               = let stop := if lo <=? n then k prev s else None in
                 match fuel with
                 | O => stop
                 | S fuel' =>
                   match (if may_repeat n hi
                          then match_here ic body prev s
                                 (fun p' s' =>
                                    if List.length s' <? List.length s
                                    then rounds fuel' (S n) p' s'
                                    else None)
                          else None) with
                   | Some x => Some x
                   | None => stop
                   end
                 end).
    { intros [|fuel] n p t; reflexivity. }
    clearbody rounds.
    intros n fuel. revert n prev s HP.
    induction fuel as [|fuel IHf]; intros n prev s HP; rewrite R; cbv zeta.
    + destruct (lo <=? n); [apply Hk; exact HP | reflexivity].
    + assert (M : (if may_repeat n hi
                   then match_here ic body prev s
                          (fun p' s' =>
                             if List.length s' <? List.length s
                             then rounds fuel (S n) p' s'
                             else None)
                   else None) = None).
      { destruct (may_repeat n hi); [|reflexivity].
        apply IH; [exact HP|]. intros p s' HP'.
        destruct (List.length s' <? List.length s); [|reflexivity].
        apply IHf. exact HP'. }
      rewrite M.
      destruct (lo <=? n); [apply Hk; exact HP | reflexivity].
  - apply IH; assumption.
  - destruct (at_boundary prev s); [apply Hk; exact HP | reflexivity].
Qed.

Lemma no_capital_tail c s : no_capital (c :: s) -> no_capital s.
Proof. intros H. inversion H. assumption. Qed.

Lemma match_here_cat_fails (A : Type) (r1 r2 : regex) :
  (forall prev s (k : option codepoint -> str -> option A),
      no_capital s -> match_here false r2 prev s k = None) ->
  forall prev s (k : option codepoint -> str -> option A),
    no_capital s -> match_here false (RCat r1 r2) prev s k = None.
Proof.
  intros H prev s k HP. cbn [match_here].
  apply (@match_here_fails A false no_capital r1 no_capital_tail);
    [exact HP|].
  intros p s' HP'. apply H. exact HP'.
Qed.

Lemma capital_needs_capital (A : Type) (rest : regex) prev s
      (k : option codepoint -> str -> option A) :
  no_capital s -> match_here false (RCat upper_AZ rest) prev s k = None.
Proof.
  intros HP. cbn [match_here upper_AZ cset].
  destruct s as [|c s']; [reflexivity|].
  inversion_clear HP as [|? ? Hc _].
  assert (E : set_has false [rng "A" "Z"] c = false).
  { unfold set_has. cbn [existsb andb]. rewrite !orb_false_r.
    exact Hc. }
  rewrite E. reflexivity.
Qed.

Lemma lower_no_capital (s : str) : no_capital (lower s).
Proof.
  unfold no_capital, lower. apply Forall_forall. intros c I.
  apply in_map_iff in I. destruct I as [x [E _]]. subst c.
  unfold lower_cp, is_upper_ascii, between.
  destruct ((65 <=? x)%N && (x <=? 90)%N) eqn:U.
  - apply andb_true_iff in U. destruct U as [U1 U2].
    apply N.leb_le in U1, U2.
    apply andb_false_iff. right. apply N.leb_gt. lia.
  - exact U.
Qed.

Lemma first_job_pattern_fails (A : Type) prev s
      (k : option codepoint -> str -> option A) :
  no_capital s -> match_here false (nth 0 job_patterns REmpty) prev s k = None.
Proof.
  cbn [nth job_patterns seq].
  apply match_here_cat_fails. intros p1 s1 k1.
  apply match_here_cat_fails. intros p2 s2 k2.
  apply match_here_cat_fails. intros p3 s3 k3.
  apply capital_needs_capital.
Qed.

Lemma search_span_first_job_pattern prev s :
  no_capital s -> search_span false (nth 0 job_patterns REmpty) prev s = None.
Proof.
  revert prev. induction s as [|c s IH]; intros prev HP;
    cbn [search_span]; rewrite (first_job_pattern_fails _ _ HP).
  - reflexivity.
  - apply IH. exact (no_capital_tail HP).
Qed.

(** X7.  The experience check searches its patterns in the lower-cased
    text, and the first of them, \b(at|@)\s+[A-Z][a-zA-Z\s&]+, asks for a
    capital letter: it never matches, and the number of pattern matches
    that enters the experience score is the number of matches of the
    second pattern, the job-title words. *)
Theorem first_job_pattern_never_matches :
  forall raw_text : str,
  re_findall_count false (nth 0 job_patterns REmpty) (lower raw_text) = 0
  /\ list_sum (map (fun pattern =>
                      re_findall_count false pattern (lower raw_text))
                   job_patterns)
     = re_findall_count false (nth 1 job_patterns REmpty) (lower raw_text).
Proof.
  intros raw_text.
  assert (Z : re_findall_count false (nth 0 job_patterns REmpty)
                               (lower raw_text) = 0).
  { unfold re_findall_count. cbn [findall_from].
    rewrite (search_span_first_job_pattern _ (lower_no_capital raw_text)).
    reflexivity. }
  split; [exact Z|].
  change job_patterns
    with [nth 0 job_patterns REmpty; nth 1 job_patterns REmpty] at 1.
  cbn [map list_sum fold_right]. rewrite Z. lia.
Qed.

Lemma Forall2_Qle_dot_product (xs ys ws : list Q) :
  Forall2 Qle xs ys -> Forall (Qle 0) ws ->
  (dot_product xs ws <= dot_product ys ws)%Q.
Proof.
  intros H. revert ws.
  induction H as [|x y xs ys L H IH]; intros ws W.
  - apply Qle_refl.
  - destruct ws as [|w ws]; [apply Qle_refl|].
    inversion_clear W as [|? ? W0 W1]. cbn [dot_product].
    specialize (IH ws W1).
    apply Qplus_le_compat; [|exact IH].
    apply Qmult_le_compat_r; assumption.
Qed.

Lemma stated_weights_nonneg : Forall (Qle 0) stated_weights.
Proof.
  unfold stated_weights.
  repeat (apply Forall_cons; [vm_compute; discriminate|]). apply Forall_nil.
Qed.

(** X8.  Raising category scores never lowers the overall score: when
    each of the nine scores of one breakdown is at most the score of the
    same category in another, so are the weighted sums and the rounded
    overall scores. *)
Theorem overall_score_is_monotone (b b' : ATSBreakdown) :
  Forall2 Qle (breakdown_scores b) (breakdown_scores b') ->
  (dot_product (breakdown_scores b) stated_weights
   <= dot_product (breakdown_scores b') stated_weights)%Q
  /\ (_calculate_overall_score b <= _calculate_overall_score b')%Q.
Proof.
  intros H. split.
  - apply Forall2_Qle_dot_product; [exact H | apply stated_weights_nonneg].
  - unfold breakdown_scores in H.
    inversion_clear H as [|? ? ? ? L1 H1]. inversion_clear H1 as [|? ? ? ? L2 H2].
    inversion_clear H2 as [|? ? ? ? L3 H3]. inversion_clear H3 as [|? ? ? ? L4 H4].
    inversion_clear H4 as [|? ? ? ? L5 H5]. inversion_clear H5 as [|? ? ? ? L6 H6].
    inversion_clear H6 as [|? ? ? ? L7 H7]. inversion_clear H7 as [|? ? ? ? L8 H8].
    inversion_clear H8 as [|? ? ? ? L9 _].
    unfold _calculate_overall_score. cbv zeta.
    destruct WEIGHTS_values as (W1 & W2 & W3 & W4 & W5 & W6 & W7 & W8 & W9).
    rewrite W1, W2, W3, W4, W5, W6, W7, W8, W9.
    apply round1_monotone.
    repeat (apply fadd_monotone;
            [| apply fmul_monotone; [discriminate | assumption]]).
    apply Qle_refl.
Qed.

(** X8 at the breakdown of an empty resume and a slightly better one. *)
Lemma overall_score_is_monotone_witness :
  (dot_product (breakdown_scores poor_breakdown) stated_weights
   <= dot_product (breakdown_scores fair_breakdown) stated_weights)%Q
  /\ (_calculate_overall_score poor_breakdown
      <= _calculate_overall_score fair_breakdown)%Q.
Proof.
  apply (@overall_score_is_monotone poor_breakdown fair_breakdown).
  unfold breakdown_scores, poor_breakdown, fair_breakdown.
  cbn [file_text_extractable layout headers contact skills experience dates
       fonts_images length].
  repeat (apply Forall2_cons; [vm_compute; discriminate|]).
  apply Forall2_nil.
Defined.

(* ================================================================= *)
(** * Further properties of the tools and of the executor *)

Lemma well_formed_ok out : well_formed (tool_ok out).
Proof. reflexivity. Qed.

Lemma well_formed_fail err : well_formed (tool_fail err).
Proof. reflexivity. Qed.

Ltac returned :=
  do 2 eexists; split;
  [reflexivity | first [apply well_formed_ok | apply well_formed_fail]].

Lemma echo_returns_result text : returns_result (echo_tool text).
Proof.
  intros tr. unfold echo_tool. io_unfold. destruct text; returned.
Qed.

Lemma calc_returns_result w expression :
  returns_result (calc_tool w expression).
Proof.
  intros tr. unfold calc_tool. io_unfold.
  destruct expression as [| | | |expression| |]; try returned.
  destruct (find _ dangerous_patterns); [returned|].
  destruct (py_eval w expression) as [e|v];
    [|unfold io_of; destruct (format_result w v) as [e|output]; [|returned]];
    repeat break_if; returned.
Qed.

Lemma read_file_returns_result w filepath :
  returns_result (read_file_tool w filepath).
Proof.
  intros tr. unfold read_file_tool.
  destruct filepath as [| | | |filepath| |]; try (io_unfold; returned).
  io_unfold.
  destruct (contains (u "..") filepath || isabs filepath); [returned|].
  destruct (os_resolve w filepath) as [f|p];
    [destruct f; cbn [exn_of_os_failure]; repeat break_if; returned|].
  destruct (negb (is_relative_to p (os_getcwd w))); [returned|].
  destruct (os_stat w p) as [f|[st|]];
    [destruct f; cbn [exn_of_os_failure]; repeat break_if; returned
    | | cbn [negb]; returned].
  cbn [negb]. destruct st as [kind size].
  destruct kind; cbn [negb]; try returned.
  cbn [st_size]. destruct (1024 * 1024 <? size)%N; [returned|].
  destruct (os_read w p) as [f|raw];
    [destruct f; cbn [exn_of_os_failure caught_by exn_is exn_class_eqb orb];
     returned|].
  destruct (utf8_decode_ignore_total raw) as [content ->].
  returned.
Qed.

Lemma pdf_to_text_returns_result w filepath :
  returns_result (pdf_to_text_tool w filepath).
Proof.
  intros tr. unfold pdf_to_text_tool. io_unfold.
  destruct filepath as [| | | |filepath| |]; try returned.
  destruct (pdf_to_text w filepath) as [e|result]; [returned|].
  destruct (pdf_text result); [|returned].
  destruct (pdf_error result); returned.
Qed.

Lemma list_files_returns_result w directory :
  returns_result (list_files_tool w directory).
Proof.
  intros tr. unfold list_files_tool.
  destruct directory as [| | | |directory| |]; try (io_unfold; returned).
  io_unfold.
  destruct (contains (u "..") directory || isabs directory); [returned|].
  destruct (os_resolve w directory) as [f|p]; [returned|].
  destruct (negb (is_relative_to p (os_getcwd w))); [returned|].
  destruct (os_stat w p) as [f|[st|]]; [returned| |cbn [negb]; returned].
  cbn [negb]. destruct st as [kind size].
  destruct kind; cbn [negb]; try returned.
  destruct (os_iterdir w p) as [f|entries].
  - destruct f; cbn [exn_of_os_failure caught_by exn_is exn_class_eqb orb];
      returned.
  - destruct (sort_strs (list_items entries)); returned.
Qed.

(** X9.  None of the five tools raises an exception that derives from
    [Exception]: on every argument, of any type, and on every machine
    each of them returns a ToolResult, and the result is well formed, a
    success without an error or a failure without an output.  The scope
    is the one declared at [exn_class]: an exception that derives from
    [BaseException] alone (SystemExit, KeyboardInterrupt), which code
    run by [eval] can raise, passes the handlers of the tools and is not
    part of the model. *)
Theorem tools_never_raise :
  forall (w : World) (argument : pyvalue),
    returns_result (echo_tool argument)
    /\ returns_result (calc_tool w argument)
    /\ returns_result (read_file_tool w argument)
    /\ returns_result (pdf_to_text_tool w argument)
    /\ returns_result (list_files_tool w argument).
Proof.
  intros w argument.
  split; [apply echo_returns_result|].
  split; [apply calc_returns_result|].
  split; [apply read_file_returns_result|].
  split; [apply pdf_to_text_returns_result|].
  apply list_files_returns_result.
Qed.

Lemma str_eqb_sym (a b : str) : str_eqb a b = str_eqb b a.
Proof.
  destruct (str_eqb a b) eqn:E, (str_eqb b a) eqn:F; try reflexivity.
  - apply str_eqb_eq in E. subst b.
    rewrite (proj2 (str_eqb_eq a a) eq_refl) in F. discriminate.
  - apply str_eqb_eq in F. subst b.
    rewrite (proj2 (str_eqb_eq a a) eq_refl) in E. discriminate.
Qed.

Lemma registered_tool (w : World) (tool : str) (d : ToolDefinition) :
  get_tool w tool = Some d ->
  exists param default f,
    function d = call_with_kwargs (tool ++ u "_tool") param default f
    /\ properties (parameters d) = [(param, u "string")]
    /\ (forall v, returns_result (f v))
    /\ match default with
       | None => required (parameters d) = [param]
       | Some v => required (parameters d) = [] /\ exists s, v = PyStr s
       end.
Proof.
  unfold get_tool, TOOLS. cbn [get_tool_in].
  repeat match goal with
         | |- context [if str_eqb ?a tool then _ else _] =>
           destruct (str_eqb a tool) eqn:?
         end;
    try discriminate;
    match goal with
    | H : str_eqb _ tool = true |- _ => apply str_eqb_eq in H; subst tool
    end;
    intros E; injection E as E; subst d;
    cbn [function parameters properties required].
  - exists (u "text"), None, (fun v => echo_tool v).
    split; [reflexivity|]. split; [reflexivity|].
    split; [intros v; apply echo_returns_result | reflexivity].
  - exists (u "expression"), None, (calc_tool w).
    split; [reflexivity|]. split; [reflexivity|].
    split; [intros v; apply calc_returns_result | reflexivity].
  - exists (u "filepath"), None, (read_file_tool w).
    split; [reflexivity|]. split; [reflexivity|].
    split; [intros v; apply read_file_returns_result | reflexivity].
  - exists (u "directory"), (Some (PyStr (u "."))), (list_files_tool w).
    split; [reflexivity|]. split; [reflexivity|].
    split; [intros v; apply list_files_returns_result|].
    split; [reflexivity | eexists; reflexivity].
  - exists (u "filepath"), None, (pdf_to_text_tool w).
    split; [reflexivity|]. split; [reflexivity|].
    split; [intros v; apply pdf_to_text_returns_result | reflexivity].
Qed.

Lemma validated_argument_is_a_string (param : str) (args : pydict) v :
  forallb (fun kv =>
             match properties_get [(param, u "string")] (fst kv) with
             | Some expected_type => type_matches expected_type (snd kv)
             | None => true
             end) args = true ->
  dict_get param args = Some v ->
  exists s, v = PyStr s.
Proof.
  induction args as [|[k x] args IH]; cbn [forallb dict_get]; intros F G;
    [discriminate|].
  apply andb_true_iff in F. destruct F as [F1 F2].
  cbn [fst snd properties_get] in F1.
  rewrite (str_eqb_sym param k) in F1.
  destruct (str_eqb k param).
  - injection G as G. subst x.
    unfold type_matches in F1.
    change (str_eqb (u "string") (u "string")) with true in F1.
    cbv iota in F1. destruct v; try discriminate. eexists. reflexivity.
  - apply IH; assumption.
Qed.

(** X10.  Take a call that passes validation and is accepted by an
    open pool, and whose wait [future.result(timeout=timeout)] ends with
    the worker done (it neither expires nor raises, as it does for a timeout
    above threading.TIMEOUT_MAX while the worker is still running).  The
    call ends in an implementation failure exactly when its arguments
    hold a key the schema does not declare: then the tool function is
    not entered and the error is "Tool execution failed: <tool>_tool()
    got an unexpected keyword argument '<key>'" for the first such key.
    Otherwise the tool runs on a string, the declared argument or the
    default, and its well-formed result is passed on: the type checks
    inside the tools and the "did not return a ToolResult" branch are
    never reached through run_tool. *)
Theorem unexpected_keyword_is_the_implementation_failure :
  forall (w : World) (self : ToolExecutor) (tool : str) (args : pydict)
         (timeout : Z),
  validate_tool_parameters w tool args = true ->
  pool_is_shutdown self = false ->
  pool_submit_error w tool args = None ->
  future_result w tool args timeout = WorkerDone ->
  match undeclared_keys w tool args with
  | [] =>
    exists r tr,
      io_run (ToolExecutor_run_tool w self tool args timeout) = (inr r, tr)
      /\ explains w self tool args timeout NormalSuccess r tr
      /\ well_formed r
  | k :: _ =>
    io_run (ToolExecutor_run_tool w self tool args timeout)
    = (inr (tool_fail
              (u "Tool execution failed: " ++ tool
                 ++ u "_tool() got an unexpected keyword argument '"
                 ++ k ++ u "'")),
       [EvSubmit tool args])
  end.
Proof.
  intros w self tool args timeout V P Q D.
  unfold undeclared_keys, declared_parameters.
  pose proof V as V'. unfold validate_tool_parameters in V'.
  destruct (get_tool w tool) as [d|] eqn:G; [|discriminate].
  destruct (registered_tool w tool G) as [param [default [f [F [Pr [R Df]]]]]].
  rewrite Pr in *. cbn [map fst].
  apply andb_true_iff in V'. destruct V' as [V1 V2].
  assert (U : filter (fun k => negb (mem k [param])) (dict_keys args)
              = filter (fun k => negb (str_eqb k param)) (dict_keys args)).
  { apply filter_ext. intros k. unfold mem. cbn [existsb].
    rewrite orb_false_r. reflexivity. }
  rewrite U.
  assert (C : function d args [EvSubmit tool args]
              = call_with_kwargs (tool ++ u "_tool") param default f args
                                 [EvSubmit tool args])
    by (rewrite F; reflexivity).
  unfold call_with_kwargs in C.
  destruct (filter (fun k => negb (str_eqb k param)) (dict_keys args))
    as [|k rest] eqn:K.
  - assert (N : exists s, function d args [EvSubmit tool args]
                          = io_bind (f (PyStr s))
                                    (fun r => io_ret (ReturnsToolResult r))
                                    [EvSubmit tool args]).
    { destruct (dict_get param args) as [v|] eqn:A.
      - destruct (validated_argument_is_a_string _ _ V2 A) as [s ->].
        exists s. exact C.
      - destruct default as [v|].
        + destruct Df as [_ [s ->]]. exists s. exact C.
        + rewrite Df in V1. cbn [forallb] in V1. unfold dict_has in V1.
          rewrite A in V1. discriminate. }
    destruct N as [s N]. unfold io_bind, io_ret in N.
    destruct (R (PyStr s) [EvSubmit tool args]) as [r [tr [E W]]].
    rewrite E in N.
    exists r, tr. split; [|split; [|exact W]].
    + unfold ToolExecutor_run_tool, io_run. rewrite G, V. cbn [negb].
      unfold submit, _execute_tool_safely.
      cbv [io_try io_bind io_ret io_raise io_call io_emit]. cbn [app].
      rewrite P, Q, D, N. destruct r; reflexivity.
    + eapply explains_success; eauto.
  - unfold ToolExecutor_run_tool, io_run. rewrite G, V. cbn [negb].
    unfold submit, _execute_tool_safely.
    cbv [io_try io_bind io_ret io_raise io_call io_emit]. cbn [app].
    rewrite P, Q, D, C. cbn [exn_str].
    rewrite <- !app_assoc. reflexivity.
Qed.

(** X10 at a call of echo with the extra key colour. *)
Lemma unexpected_keyword_is_the_implementation_failure_witness :
  io_run (ToolExecutor_run_tool demo_world (ToolExecutor_init 4) (u "echo")
                                echo_call_with_extra 6)
  = (inr (tool_fail
            (u "Tool execution failed: echo_tool() got an unexpected keyword argument 'colour'")),
     [EvSubmit (u "echo") echo_call_with_extra]).
Proof.
  exact (@unexpected_keyword_is_the_implementation_failure
           demo_world (ToolExecutor_init 4) (u "echo") echo_call_with_extra 6
           eq_refl eq_refl eq_refl eq_refl).
Defined.

Lemma api_step_keeps_pool_open w instance c :
  match instance with
  | Some ex => pool_is_shutdown ex = false
  | None => True
  end ->
  match api_step w instance c with
  | Some ex => pool_is_shutdown ex = false
  | None => True
  end.
Proof.
  intros H. destruct c; cbn [api_step]; unfold run_tool, get_executor,
    shutdown_executor; destruct instance; cbn [snd]; auto.
Qed.

Lemma after_calls_keeps_pool_open w calls :
  match after_calls w calls with
  | Some ex => pool_is_shutdown ex = false
  | None => True
  end.
Proof.
  unfold after_calls.
  assert (G : forall instance,
             match instance with
             | Some ex => pool_is_shutdown ex = false
             | None => True
             end ->
             match fold_left (api_step w) calls instance with
             | Some ex => pool_is_shutdown ex = false
             | None => True
             end).
  { induction calls as [|c calls IH]; intros instance H; cbn [fold_left].
    - exact H.
    - apply IH. apply api_step_keeps_pool_open. exact H. }
  apply G. exact I.
Qed.

(** X11.  Through the module-level functions get_executor, run_tool and
    shutdown_executor alone the global executor is never one whose pool
    was shut down: after any sequence of such calls, run_tool runs on an
    executor with an open pool, leaves it as the global instance, and
    ends in one of the eight outcomes other than the scheduling failure
    of a pool that was shut down: registry miss, validation failure,
    normal success, implementation failure, timeout, or one of the three
    other results of the outer handler, for a worker that could not be
    started, for a wait that raised (a timeout above
    threading.TIMEOUT_MAX) and for a timeout too long to print. *)
Theorem module_api_never_meets_a_closed_pool :
  forall (w : World) (calls : list api_call) (tool : str) (args : pydict)
         (timeout : Z),
  let instance := after_calls w calls in
  let executor := fst (get_executor instance) in
  pool_is_shutdown executor = false
  /\ snd (run_tool w instance tool args timeout) = Some executor
  /\ exists o r tr,
       io_run (fst (run_tool w instance tool args timeout)) = (inr r, tr)
       /\ explains w executor tool args timeout o r tr
       /\ is_scheduling_failure o = false.
Proof.
  intros w calls tool args timeout. cbv zeta.
  pose proof (after_calls_keeps_pool_open w calls) as H.
  assert (P : pool_is_shutdown (fst (get_executor (after_calls w calls)))
              = false).
  { unfold get_executor. destruct (after_calls w calls); [exact H|reflexivity]. }
  split; [exact P|]. split.
  { unfold run_tool, get_executor. destruct (after_calls w calls); reflexivity. }
  rewrite run_tool_on_global_executor.
  destruct (run_tool_explained w (fst (get_executor (after_calls w calls)))
                               tool args timeout) as [o [r [tr [R E]]]].
  exists o, r, tr. split; [exact R|]. split; [exact E|].
  destruct E; try reflexivity. congruence.
Qed.

Ltac harmless :=
  repeat match goal with
         | |- context [exn_of_os_failure ?f] => is_var f; destruct f
         end;
  cbn [snd negb exn_of_os_failure caught_by exn_is exn_class_eqb orb app];
  repeat (apply Forall_cons; [exact I|]); apply Forall_nil.



Lemma remove_char_absent c s : ~ In c (remove_char c s).
Proof.
  unfold remove_char. intros H. apply filter_In in H. destruct H as [_ H].
  unfold cp_eqb in H. rewrite N.eqb_refl in H. discriminate.
Qed.

Lemma remove_char_same c s : ~ In c s -> remove_char c s = s.
Proof.
  unfold remove_char. induction s as [|x s IH]; intros H; cbn [filter];
    [reflexivity|].
  destruct (cp_eqb x c) eqn:E; cbn [negb].
  - exfalso. apply H. left. apply N.eqb_eq. exact E.
  - rewrite IH; [reflexivity|]. intros I. apply H. right. exact I.
Qed.

(** X14.  echo succeeds on every string and touches nothing: its output
    holds no NUL character, is the input itself unless the input holds
    one, and echoing the output gives the output again. *)
Theorem echo_strips_nul :
  forall (text : str) (tr : list event),
  exists out,
    echo_tool (PyStr text) tr = (inr (tool_ok out), tr)
    /\ ~ In NUL out
    /\ (In NUL text \/ out = text)
    /\ echo_tool (PyStr out) tr = (inr (tool_ok out), tr).
Proof.
  intros text tr. exists (remove_char NUL text). unfold echo_tool. io_unfold.
  split; [reflexivity|].
  split; [apply remove_char_absent|].
  split.
  - destruct (in_dec N.eq_dec NUL text) as [I|I]; [left; exact I|].
    right. apply remove_char_same. exact I.
  - rewrite (@remove_char_same NUL _ (@remove_char_absent NUL text)). reflexivity.
Qed.

Lemma dict_get_app_other key k v (args : pydict) :
  str_eqb k key = false ->
  dict_get key (args ++ [(k, v)]) = dict_get key args.
Proof.
  intros E. induction args as [|[k' v'] args IH]; cbn [app dict_get].
  - rewrite E. reflexivity.
  - destruct (str_eqb k' key); [reflexivity | exact IH].
Qed.

(** X15.  validate_tool_parameters looks at no key the schema of the
    tool does not declare: adding such a key, with any value, to the
    arguments of a call leaves the verdict as it was. *)
Theorem validation_ignores_undeclared_keys :
  forall (w : World) (tool : str) (args : pydict) (k : str) (v : pyvalue),
  mem k (declared_parameters w tool) = false ->
  validate_tool_parameters w tool (args ++ [(k, v)])
  = validate_tool_parameters w tool args.
Proof.
  intros w tool args k v.
  unfold declared_parameters, validate_tool_parameters.
  destruct (get_tool w tool) as [d|] eqn:G; [|reflexivity].
  destruct (registered_tool w tool G) as [param [default [f [_ [Pr [_ Df]]]]]].
  rewrite Pr. cbn [map fst mem existsb]. unfold mem. cbn [existsb].
  rewrite orb_false_r. intros E.
  rewrite forallb_app. cbn [forallb fst snd properties_get].
  rewrite (str_eqb_sym param k), E. cbn [andb]. rewrite andb_true_r.
  f_equal.
  destruct default as [dv|].
  - destruct Df as [Rq _]. rewrite Rq. reflexivity.
  - rewrite Df. cbn [forallb]. unfold dict_has.
    rewrite (@dict_get_app_other _ _ v args E). reflexivity.
Qed.

(** X15 at a call of echo with the extra key colour. *)
Lemma validation_ignores_undeclared_keys_witness :
  mem (u "colour") (declared_parameters demo_world (u "echo")) = false
  /\ validate_tool_parameters demo_world (u "echo")
       (echo_call ++ [(u "colour", PyStr (u "red"))])
     = validate_tool_parameters demo_world (u "echo") echo_call.
Proof.
  split; [vm_compute; reflexivity|].
  apply (@validation_ignores_undeclared_keys
           demo_world (u "echo") echo_call (u "colour") (PyStr (u "red"))).
  vm_compute. reflexivity.
Defined.

Lemma str_ltb_irrefl (a : str) : str_ltb a a = false.
Proof.
  induction a as [|x a IH]; cbn [str_ltb]; [reflexivity|].
  unfold cp_eqb. rewrite N.ltb_irrefl, N.eqb_refl, IH. reflexivity.
Qed.

Lemma str_ltb_trans (a b c : str) :
  str_ltb a b = true -> str_ltb b c = true -> str_ltb a c = true.
Proof.
  revert b c. induction a as [|x a IH]; intros [|y b] [|z c];
    cbn [str_ltb]; try discriminate; try reflexivity.
  unfold cp_eqb. intros H1 H2.
  apply orb_true_iff in H1. apply orb_true_iff in H2.
  apply orb_true_iff.
  destruct H1 as [H1|H1], H2 as [H2|H2];
    rewrite ?andb_true_iff, ?N.ltb_lt, ?N.eqb_eq in *.
  - left. lia.
  - left. destruct H2 as [-> _]. exact H1.
  - left. destruct H1 as [-> _]. exact H2.
  - right. destruct H1 as [-> H1], H2 as [-> H2].
    split; [reflexivity | exact (IH _ _ H1 H2)].
Qed.

Lemma str_ltb_total (a b : str) :
  str_ltb a b = false -> str_eqb a b = false -> str_ltb b a = true.
Proof.
  revert b. induction a as [|x a IH]; intros [|y b];
    cbn [str_ltb str_eqb]; try discriminate; try reflexivity.
  unfold cp_eqb. intros H1 H2.
  apply orb_false_iff in H1. destruct H1 as [H1 H1'].
  apply N.ltb_ge in H1.
  destruct (N.eqb x y) eqn:E.
  - apply N.eqb_eq in E. subst y. cbn [andb] in *.
    rewrite N.eqb_refl. cbn [andb]. rewrite (IH _ H1' H2).
    apply orb_true_r.
  - apply N.eqb_neq in E.
    assert (L : (y <? x)%N = true) by (apply N.ltb_lt; lia).
    rewrite L. reflexivity.
Qed.

Lemma str_le_trans (a b c : str) : str_le a b -> str_le b c -> str_le a c.
Proof.
  unfold str_le. intros H1 H2.
  destruct (str_ltb c a) eqn:E; [exfalso | reflexivity].
  destruct (str_eqb b a) eqn:Q.
  - apply str_eqb_eq in Q. subst b. congruence.
  - pose proof (str_ltb_total _ _ H1 Q) as L.
    pose proof (str_ltb_trans _ _ _ E L). congruence.
Qed.

Lemma insert_sorted_permutation x l : Permutation (x :: l) (insert_sorted x l).
Proof.
  induction l as [|y l IH]; cbn [insert_sorted]; [reflexivity|].
  destruct (str_ltb y x || str_eqb y x); [|reflexivity].
  rewrite perm_swap. constructor. exact IH.
Qed.

Lemma sort_strs_permutation l : Permutation l (sort_strs l).
Proof.
  unfold sort_strs. induction l as [|x l IH]; cbn [fold_right]; [constructor|].
  rewrite <- insert_sorted_permutation. constructor. exact IH.
Qed.

Lemma insert_sorted_sorted x l :
  StronglySorted str_le l -> StronglySorted str_le (insert_sorted x l).
Proof.
  induction 1 as [|y l S IH F]; cbn [insert_sorted].
  - constructor; constructor.
  - destruct (str_ltb y x || str_eqb y x) eqn:E.
    + constructor; [exact IH|].
      apply (Permutation_Forall (insert_sorted_permutation x l)).
      constructor; [|exact F].
      unfold str_le. apply orb_true_iff in E. destruct E as [E|E].
      * destruct (str_ltb x y) eqn:G; [|reflexivity].
        pose proof (str_ltb_trans _ _ _ E G) as T.
        rewrite str_ltb_irrefl in T. discriminate.
      * apply str_eqb_eq in E. subst y. apply str_ltb_irrefl.
    + apply orb_false_iff in E. destruct E as [E1 E2].
      assert (L : str_le x y) by exact E1.
      constructor; [constructor; assumption|].
      constructor; [exact L|].
      eapply Forall_impl; [|exact F]. intros z Hz.
      exact (str_le_trans L Hz).
Qed.

Lemma sort_strs_sorted l : StronglySorted str_le (sort_strs l).
Proof.
  unfold sort_strs. induction l as [|x l IH]; cbn [fold_right].
  - constructor.
  - apply insert_sorted_sorted. exact IH.
Qed.

Lemma list_items_are_lines entries : Forall is_line (list_items entries).
Proof.
  induction entries as [|[name kind] entries IH]; cbn [list_items];
    [constructor|].
  destruct kind; [constructor; [|exact IH] ..|exact IH].
  - exists name. right. reflexivity.
  - exists name. left. reflexivity.
Qed.

Lemma directories_come_first (lines : list str) :
  Forall is_line lines -> StronglySorted str_le lines ->
  exists dirs files, lines = map DIR_line dirs ++ map FILE_line files.
Proof.
  intros L S. induction S as [|x l S IH F].
  - exists [], []. reflexivity.
  - inversion_clear L as [|? ? Lx Ll].
    destruct (IH Ll) as [dirs [files E]].
    destruct Lx as [name [N|N]]; subst x.
    + exists (name :: dirs), files. rewrite E. reflexivity.
    + destruct dirs as [|d dirs].
      * exists [], (name :: files). rewrite E. reflexivity.
      * exfalso. rewrite E in F. cbn [map app] in F.
        inversion_clear F as [|? ? Fd _].
        unfold str_le, DIR_line, FILE_line in Fd.
        vm_compute in Fd. discriminate.
Qed.

(** X16.  When list_files reaches the directory, its output holds one
    line for each entry that is a directory or a regular file and no
    other line, the lines are in the order of [str], and every DIR line
    comes before every FILE line; without such entries the output is
    "Directory is empty". *)
Theorem list_files_lists_directories_first :
  forall (w : World) (directory : str) (p : path) (st : stat_result)
         (entries : list (str * file_kind)),
  contains (u "..") directory = false ->
  isabs directory = false ->
  os_resolve w directory = inr p ->
  is_relative_to p (os_getcwd w) = true ->
  os_stat w p = inr (Some st) ->
  st_kind st = Directory ->
  os_iterdir w p = inr entries ->
  exists dirs files,
    let lines := map DIR_line dirs ++ map FILE_line files in
    Permutation (list_items entries) lines
    /\ StronglySorted str_le lines
    /\ io_run (list_files_tool w (PyStr directory))
       = (inr (tool_ok match lines with
                       | [] => u "Directory is empty"
                       | _ => join [LF] lines
                       end),
          [EvResolve directory; EvStat p; EvStat p; EvIterdir p]).
Proof.
  intros w directory p st entries H1 H2 HR HC HS HK HI.
  pose proof (sort_strs_permutation (list_items entries)) as P.
  pose proof (sort_strs_sorted (list_items entries)) as S.
  assert (L : Forall is_line (sort_strs (list_items entries))).
  { apply (Permutation_Forall P). apply list_items_are_lines. }
  destruct (directories_come_first L S) as [dirs [files E]].
  exists dirs, files. cbv zeta. rewrite <- E.
  split; [exact P|]. split; [exact S|].
  unfold list_files_tool. io_unfold.
  rewrite H1, H2. cbn [orb app]. rewrite HR, HC. cbn [negb].
  rewrite HS. cbn [negb]. destruct st as [kind size].
  cbn [st_kind] in HK. subst kind. cbn [negb].
  rewrite HI. reflexivity.
Qed.

(** X16 at a directory with two files, two directories and a socket. *)
Lemma list_files_lists_directories_first_witness :
  exists dirs files,
    let lines := map DIR_line dirs ++ map FILE_line files in
    Permutation
      (list_items [ (u "b.txt", RegularFile); (u "src", Directory);
                    (u "a.txt", RegularFile); (u "socket", OtherKind);
                    (u "docs", Directory) ]) lines
    /\ StronglySorted str_le lines
    /\ io_run (list_files_tool listing_world (PyStr (u "project")))
       = (inr (tool_ok match lines with
                       | [] => u "Directory is empty"
                       | _ => join [LF] lines
                       end),
          [EvResolve (u "project"); EvStat (demo_cwd ++ [u "project"]);
           EvStat (demo_cwd ++ [u "project"]);
           EvIterdir (demo_cwd ++ [u "project"])]).
Proof.
  apply (@list_files_lists_directories_first
           listing_world (u "project") (demo_cwd ++ [u "project"])
           {| st_kind := Directory; st_size := 0 |}).
  - vm_compute; reflexivity.
  - vm_compute; reflexivity.
  - reflexivity.
  - vm_compute; reflexivity.
  - reflexivity.
  - reflexivity.
  - reflexivity.
Defined.

Example list_files_vector :
  io_run (list_files_tool listing_world (PyStr (u "project")))
  = (inr (tool_ok (u "DIR:  docs" ++ [LF] ++ u "DIR:  src" ++ [LF]
                     ++ u "FILE: a.txt" ++ [LF] ++ u "FILE: b.txt")),
     [EvResolve (u "project"); EvStat (demo_cwd ++ [u "project"]);
      EvStat (demo_cwd ++ [u "project"]);
      EvIterdir (demo_cwd ++ [u "project"])]).
Proof. vm_compute. reflexivity. Qed.

(* ================================================================= *)
(** * Properties of pdf_tools.py and of the tool routes *)

Lemma join_nonempty sep p ps : nonempty p = true -> nonempty (join sep (p :: ps)) = true.
Proof.
  destruct p as [|c p]; [discriminate|]. intros _.
  destruct ps; reflexivity.
Qed.

Lemma text_parts_nonempty extracted :
  Forall (fun p => nonempty p = true) (text_parts_of extracted).
Proof.
  induction extracted as [|[e|t] rest IH]; cbn [text_parts_of];
    [constructor | exact IH |].
  destruct (nonempty t && nonempty (strip t)) eqn:E; [|exact IH].
  apply andb_true_iff in E. constructor; [apply E | exact IH].
Qed.

Ltac consistent :=
  unfold consistent_result, dict_of_result, failed_extraction;
  cbn [d_text d_error d_confidence d_method res_text res_error res_confidence
       res_method nonempty];
  repeat split; try reflexivity;
  try (vm_compute; tauto).

Lemma pdfminer_consistent lib file_path :
  consistent_result (dict_of_result (_extract_with_pdfminer lib file_path)).
Proof.
  unfold _extract_with_pdfminer.
  destruct (pdfminer_extract lib file_path) as [e|text]; [consistent|].
  destruct (nonempty text && (10 <? List.length (strip text))) eqn:E;
    [|consistent].
  apply andb_true_iff in E. destruct E as [_ E]. apply Nat.ltb_lt in E.
  destruct (strip text) as [|c s] eqn:S; [cbn in E; lia|].
  unfold consistent_result, dict_of_result.
  cbn [d_text d_error d_confidence d_method res_text res_error res_confidence
       res_method nonempty].
  split; [reflexivity|].
  destruct (100 <? List.length text); repeat split; try reflexivity;
    vm_compute; tauto.
Qed.

Lemma parts_consistent (method : str) (high : str -> bool) parts err :
  In method pdf_methods ->
  Forall (fun p => nonempty p = true) parts ->
  consistent_result
    (dict_of_result
       match parts with
       | _ :: _ =>
         {| res_text := join [LF; LF] parts;
            res_method := method;
            res_confidence :=
              if high (join [LF; LF] parts) then u "high" else u "medium";
            res_pages_processed := List.length parts;
            res_error := None |}
       | [] => failed_extraction method err
       end).
Proof.
  intros M F. destruct parts as [|p ps].
  - unfold consistent_result, dict_of_result, failed_extraction.
    cbn [d_text d_error d_confidence d_method res_text res_error
         res_confidence res_method nonempty].
    repeat split; try reflexivity; [vm_compute; tauto | exact M].
  - inversion_clear F as [|? ? Fp _].
    unfold consistent_result, dict_of_result.
    cbn [d_text d_error d_confidence d_method res_text res_error
         res_confidence res_method].
    rewrite (@join_nonempty _ _ ps Fp).
    split; [reflexivity|].
    destruct (high (join [LF; LF] (p :: ps))); repeat split;
      try reflexivity; try exact M; vm_compute; tauto.
Qed.

Lemma pypdf_consistent lib file_path :
  consistent_result (dict_of_result (_extract_with_pypdf lib file_path)).
Proof.
  unfold _extract_with_pypdf.
  destruct (PdfReader lib file_path) as [e|pages]; [consistent|].
  apply (@parts_consistent (u "pypdf")
           (fun full_text => 100 <? List.length full_text) _
           (u "No text extracted from any page"));
    [vm_compute; tauto | apply text_parts_nonempty].
Qed.

Lemma ocr_consistent lib file_path :
  consistent_result (dict_of_result (_extract_with_ocr lib file_path)).
Proof.
  unfold _extract_with_ocr.
  destruct (_pdf_to_images lib file_path) as [|i images]; [consistent|].
  apply (@parts_consistent (u "ocr")
           (fun full_text => (200 <? List.length full_text)
                             && existsb (isalpha lib) full_text) _
           (u "No text extracted via OCR"));
    [vm_compute; tauto | apply text_parts_nonempty].
Qed.

Lemma run_method_consistent lib m file_path :
  consistent_result (dict_of_result (run_method lib m file_path)).
Proof.
  destruct m; [apply pdfminer_consistent | apply pypdf_consistent
              | apply ocr_consistent].
Qed.

Lemma error_dict_consistent method err :
  In method pdf_methods -> consistent_result (error_dict method err).
Proof.
  intros M. unfold consistent_result, error_dict.
  cbn [d_text d_error d_confidence d_method nonempty].
  repeat split; try reflexivity; [vm_compute; tauto | exact M].
Qed.

Lemma try_methods_consistent lib methods file_path :
  consistent_result (fst (try_methods lib methods file_path)).
Proof.
  induction methods as [|m rest IH]; cbn [try_methods].
  - apply error_dict_consistent. vm_compute; tauto.
  - destruct (meaningful _); [apply run_method_consistent|].
    destruct rest as [|m' rest']; [apply run_method_consistent|].
    destruct (try_methods lib (m' :: rest') file_path) as [d called].
    exact IH.
Qed.

Lemma pdf_to_text_consistent lib file_path :
  consistent_result (pdf_to_text_dict lib file_path).
Proof.
  unfold pdf_to_text_dict, pdf_to_text_calls.
  destruct file_path as [| | | |file_path| |];
    try (apply error_dict_consistent; vm_compute; tauto).
  destruct (negb (os_path_exists lib file_path));
    [apply error_dict_consistent; vm_compute; tauto|].
  destruct (negb (endswith (u ".pdf") (lower file_path)));
    [apply error_dict_consistent; vm_compute; tauto|].
  apply try_methods_consistent.
Qed.

(** X17.  Whatever the libraries answer and whatever the argument,
    pdf_to_text returns a dictionary whose error is None exactly when its
    text is not empty, whose confidence is low exactly when its text is
    empty and high or medium otherwise, and whose method is one of
    pdfminer, pypdf, ocr, error and fallback. *)
Theorem pdf_to_text_result_is_consistent :
  forall (lib : PdfLibraries) (file_path : pyvalue),
    consistent_result (pdf_to_text_dict lib file_path).
Proof. intros lib file_path. apply pdf_to_text_consistent. Qed.

Lemma run_method_name lib m file_path :
  d_method (dict_of_result (run_method lib m file_path)) = method_name m.
Proof.
  unfold dict_of_result. cbn [d_method].
  destruct m; cbn [run_method method_name].
  - unfold _extract_with_pdfminer.
    destruct (pdfminer_extract lib file_path); [reflexivity|].
    break_if; reflexivity.
  - unfold _extract_with_pypdf.
    destruct (PdfReader lib file_path) as [e|pages]; [reflexivity|].
    destruct (text_parts_of pages); reflexivity.
  - unfold _extract_with_ocr.
    destruct (_pdf_to_images lib file_path) as [|i images]; [reflexivity|].
    destruct (text_parts_of _); reflexivity.
Qed.

Lemma try_methods_order lib methods file_path :
  let d := fst (try_methods lib methods file_path) in
  let called := snd (try_methods lib methods file_path) in
  exists rest,
    methods = called ++ rest
    /\ Forall (gave_up lib file_path) (removelast called)
    /\ match rev called with
       | [] =>
         methods = []
         /\ d = error_dict (u "fallback") (u "All extraction methods failed")
       | m :: _ =>
         d = dict_of_result (run_method lib m file_path)
         /\ d_method d = method_name m
         /\ (meaningful (d_text d) = true \/ rest = [])
       end.
Proof.
  cbv zeta.
  induction methods as [|m rest IH]; cbn [try_methods].
  - exists []. cbn [fst snd rev removelast app].
    split; [reflexivity|]. split; [constructor|]. split; reflexivity.
  - destruct (meaningful (res_text (run_method lib m file_path))) eqn:M.
    + exists rest. cbn [fst snd rev removelast app].
      split; [reflexivity|]. split; [constructor|].
      split; [reflexivity|]. split; [apply run_method_name|].
      left. exact M.
    + destruct rest as [|m' rest'].
      * exists []. cbn [fst snd rev removelast app].
        split; [reflexivity|]. split; [constructor|].
        split; [reflexivity|]. split; [apply run_method_name|].
        right. reflexivity.
      * destruct IH as [rest0 [E [F L]]].
        destruct (try_methods lib (m' :: rest') file_path) as [d called].
        cbn [fst snd] in *.
        exists rest0. split; [rewrite E; reflexivity|].
        destruct called as [|c called];
          [cbn [rev] in L; destruct L as [L _]; discriminate L|].
        split.
        -- change (removelast (m :: c :: called))
             with (m :: removelast (c :: called)).
           constructor; [exact M | exact F].
        -- cbn [rev] in *.
           destruct (rev called ++ [c]) as [|x xs] eqn:R.
           ++ destruct (rev called); discriminate R.
           ++ cbn [app]. exact L.
Qed.

(** X18.  pdf_to_text calls no extraction method for an argument that is
    not a string, for a file that does not exist and for a name that does
    not end in .pdf.  Otherwise it calls the available methods in the
    order pdfminer, pypdf, ocr and stops at the first that gives
    meaningful text: the methods it called are an initial part of the
    available ones, each but the last gave no meaningful text, the
    dictionary is the result of the last and carries its name, and a
    method is left untried only when the last one called gave meaningful
    text.  When no method is available, and only then, no method is
    called and the dictionary is the "fallback" one. *)
Theorem pdf_to_text_tries_methods_in_order :
  forall (lib : PdfLibraries) (file_path : pyvalue),
  let d := pdf_to_text_dict lib file_path in
  let called := snd (pdf_to_text_calls lib file_path) in
  match file_path with
  | PyStr path =>
    if os_path_exists lib path && endswith (u ".pdf") (lower path)
    then
      exists rest,
        methods_to_try lib = called ++ rest
        /\ Forall (gave_up lib path) (removelast called)
        /\ match rev called with
           | [] =>
             methods_to_try lib = []
             /\ d = error_dict (u "fallback")
                               (u "All extraction methods failed")
           | m :: _ =>
             d = dict_of_result (run_method lib m path)
             /\ d_method d = method_name m
             /\ (meaningful (d_text d) = true \/ rest = [])
           end
    else called = [] /\ d_method d = u "error"
  | _ => called = [] /\ d_method d = u "error"
  end.
Proof.
  intros lib file_path.
  cbv zeta. unfold pdf_to_text_dict, pdf_to_text_calls.
  destruct file_path as [| | | |path| |]; try (split; reflexivity).
  destruct (os_path_exists lib path); cbn [negb andb];
    [|split; reflexivity].
  destruct (endswith (u ".pdf") (lower path)); cbn [negb];
    [|split; reflexivity].
  apply try_methods_order.
Qed.

(** X19.  With the pdf_to_text of pdf_tools.py behind it, the
    pdf_to_text tool never fails in building its result: it succeeds
    exactly when text was extracted, with the method, the confidence and
    the text in its output, and otherwise fails with the error of the
    dictionary as it is. *)
Theorem pdf_tool_reports_the_extraction :
  forall (lib : PdfLibraries) (w : World) (path : str),
  let d := pdf_to_text_dict lib (PyStr path) in
  exists r,
    io_run (pdf_to_text_tool (with_pdf_tools lib w) (PyStr path))
    = (inr r, [EvPdfToText path])
    /\ success r = nonempty (d_text d)
    /\ output r
       = (if nonempty (d_text d)
          then u "Method: " ++ d_method d ++ [LF]
                 ++ u "Confidence: " ++ d_confidence d ++ [LF]
                 ++ u "Text:" ++ [LF] ++ d_text d
          else [])
    /\ error r = match d_error d with Some err => err | None => [] end.
Proof.
  intros lib w path. cbv zeta.
  destruct (pdf_to_text_consistent lib (PyStr path)) as [C _].
  unfold pdf_to_text_tool. io_unfold.
  cbn [with_pdf_tools pdf_to_text extraction_of_dict pdf_text pdf_method
       pdf_confidence pdf_error app].
  destruct (d_text (pdf_to_text_dict lib (PyStr path))) as [|c t];
    cbn [nonempty] in *.
  - destruct (d_error (pdf_to_text_dict lib (PyStr path))) as [err|];
      [|discriminate C].
    eexists. split; [reflexivity|]. repeat split.
  - destruct (d_error (pdf_to_text_dict lib (PyStr path))) as [err|];
      [discriminate C|].
    eexists. split; [reflexivity|]. repeat split.
Qed.

